(** * Continuum guideline packs: the update / verify / install pipeline

    A shallow embedding of [guidelines_manager.py] and of the digest part of
    [build_index.py], and the properties of the specification that were
    checked against it.

    Conventions of the embedding.
    - A Python [str] is a Rocq [string]; its characters are read as the code
      points U+0000..U+00FF.  The classification tables below ([isdigit],
      [isspace], [lower]) are those of Python on these code points.
    - A Python [int] is a [Z], [bytes] is a [list byte], the installed map
      is a [gmap string string], a parsed JSON object is an association
      list, [None]-or-value is an [option].
    - A path is the list of its components and the file system a finite map
      from paths to nodes, names being compared exactly; permissions, links,
      limits on the length of names and I/O failures other than those of a
      missing or ill-kinded node are outside the model.  The directories of the manager and the names that
      a directory listing yields are such paths.  A text that the program
      joins to a directory, a pack id, is parsed as [pathlib] does on POSIX
      and resolved as the operating system does, [..] included.
    - Code that touches the file system or the network runs in a state and
      exception monad over a [World]; an exception keeps the state reached
      when it was raised. *)

From Stdlib Require Import ZArith Ascii String List Lia.
From Stdlib Require Import Init.Byte.
From Stdlib Require Import DecimalString DecimalNat.
From stdpp Require Import gmap strings list fin_maps.

Set Warnings "-register-all".

Local Open Scope Z_scope.

(** ** Python built-ins used by the program *)

Module Py.

Definition code (c : ascii) : N := N_of_ascii c.

Definition between (lo hi n : N) : bool := ((lo <=? n) && (n <=? hi))%N.

(** [str.isdigit] of one character: the decimal digits and the superscripts
    U+00B2, U+00B3, U+00B9. *)
Definition isdigit (c : ascii) : bool :=
  between 48 57 (code c) || (code c =? 178)%N || (code c =? 179)%N
  || (code c =? 185)%N.

(** The characters removed by [str.strip()] without argument. *)
Definition isspace (c : ascii) : bool :=
  between 9 13 (code c) || between 28 32 (code c) || (code c =? 133)%N
  || (code c =? 160)%N.

(** The value of a character accepted by [int] as a decimal digit. *)
Definition decimal_value (c : ascii) : option Z :=
  if between 48 57 (code c) then Some (Z.of_N (code c) - 48) else None.

Definition lower_char (c : ascii) : ascii :=
  if between 65 90 (code c) || between 192 214 (code c)
     || between 216 222 (code c)
  then ascii_of_N (code c + 32) else c.

(** [str.lower] *)
Fixpoint lower (s : string) : string :=
  match s with
  | EmptyString => EmptyString
  | String c r => String (lower_char c) (lower r)
  end.

(** ["".join([c for c in s if f(c)])] *)
Fixpoint keep (f : ascii -> bool) (s : string) : string :=
  match s with
  | EmptyString => EmptyString
  | String c r => if f c then String c (keep f r) else keep f r
  end.

Fixpoint lstrip (s : string) : string :=
  match s with
  | EmptyString => EmptyString
  | String c r => if isspace c then lstrip r else s
  end.

Fixpoint rstrip (s : string) : string :=
  match s with
  | EmptyString => EmptyString
  | String c r =>
      match rstrip r with
      | EmptyString => if isspace c then EmptyString else String c EmptyString
      | r' => String c r'
      end
  end.

(** [str.strip()] *)
Definition strip (s : string) : string := rstrip (lstrip s).

(** [s.split(sep)] for a one-character separator: never the empty list. *)
Fixpoint split (sep : ascii) (s : string) : list string :=
  match s with
  | EmptyString => [EmptyString]
  | String c r =>
      if Ascii.eqb c sep then EmptyString :: split sep r
      else match split sep r with
           | h :: t => String c h :: t
           | [] => [String c EmptyString]
           end
  end.

(** [s.startswith(p)] *)
Fixpoint startswith (p s : string) : bool :=
  match p, s with
  | EmptyString, _ => true
  | String a p', String b s' => Ascii.eqb a b && startswith p' s'
  | String _ _, EmptyString => false
  end.

(** [x or d] on strings: the empty string is falsy. *)
Definition or_else (x d : string) : string :=
  match x with EmptyString => d | _ => x end.

Fixpoint int_digits (acc : Z) (s : string) : option Z :=
  match s with
  | EmptyString => Some acc
  | String c r =>
      match decimal_value c with
      | Some d => int_digits (10 * acc + d) r
      | None => None
      end
  end.

(** [int(s)] for a string [s] of [isdigit] characters, the only arguments the
    program passes; [None] stands for [ValueError].  It is raised on the empty
    string, on a character that is a digit but not a decimal one, and, when
    the interpreter's limit [max_str_digits] is set (0 disables it), on more
    than [max_str_digits] digits; the interpreter consults the limit only
    above 640 digits. *)
Definition int (max_str_digits : nat) (s : string) : option Z :=
  match s with
  | EmptyString => None
  | _ =>
      if ((640 <? String.length s) && (0 <? max_str_digits)
          && (max_str_digits <? String.length s))%nat
      then None
      else int_digits 0 s
  end.

(** Comparison [a > b] of two tuples of integers. *)
Fixpoint tuple_gt (a b : list Z) : bool :=
  match a, b with
  | x :: a', y :: b' => if x =? y then tuple_gt a' b' else y <? x
  | _ :: _, [] => true
  | [], _ => false
  end.

End Py.

(** ** Version ordering *)

Section Version.

Variable max_str_digits : nat.

(** One turn of the loop of [_parse_version]: the [try] block appends the
    integer, the [except] block appends 0. *)
Definition parse_field (nums : list Z) (p : string) : list Z :=
  match Py.int max_str_digits (Py.or_else (Py.keep Py.isdigit p) "0") with
  | Some n => nums ++ [n]
  | None => nums ++ [0]
  end.

(** [while len(nums) < 3: nums.append(0)], at most [fuel] turns. *)
Fixpoint pad_to_three (fuel : nat) (nums : list Z) : list Z :=
  match fuel with
  | O => nums
  | S k => if (length nums <? 3)%nat then pad_to_three k (nums ++ [0]) else nums
  end.

Definition _parse_version (v : option string) : list Z :=
  let parts := Py.split "." (Py.strip (Py.or_else (default "" v) "0")) in
  let nums := fold_left parse_field (take 3 parts) [] in
  pad_to_three 3 nums.

End Version.

(** ** Values, exceptions and the world *)

Abbreviation bytes := (list Byte.byte).

(** A path is the list of its components, innermost first: [p / name] is
    [name :: p], the parent of [name :: p] is [p]. *)
Abbreviation path := (list string).

Inductive node :=
  | File (content : bytes)
  | Dir.

(** What [json.loads] returns.  A number carries the text [str] prints for
    it; an object is an association list read through [dict_get]. *)
Inductive json :=
  | JNull
  | JBool (b : bool)
  | JNum (text : string)
  | JStr (s : string)
  | JList (items : list json)
  | JDict (fields : list (string * json)).

(** [ValueError] is raised by the program itself; [DecodeError] stands for
    [UnicodeDecodeError] and [json.JSONDecodeError], [URLError] for every
    failure of [urlopen]. *)
Inductive exn :=
  | ValueError (msg : string)
  | KeyError (key : string)
  | TypeError
  | AttributeError
  | DecodeError
  | URLError
  | FileNotFoundError
  | FileExistsError
  | IsADirectoryError
  | NotADirectoryError.

Record World := mkWorld {
  files : gmap path node;      (* the file system *)
  requests : list string       (* the URLs handed to [urlopen], oldest first *)
}.

Record PackInfo := mkPackInfo {
  id : string;
  title : string;
  version : string;
  manifest_url : string;
  rules_url : string;
  sha256_manifest : string;
  sha256_rules : string
}.

Record PackUpdate := mkPackUpdate {
  pack : PackInfo;
  installed_version : option string
}.

Record GuidelinesManager := mkManager {
  guidelines_dir : path;
  builtin_dir : path
}.

(** The environment of the program: the interpreter's limit on [int], the
    hash of [hashlib.sha256], the answer of the network to a GET request
    ([None] when [urlopen] raises), [json.loads] after decoding UTF-8 ([None]
    when either raises) and [str] on lists and dictionaries. *)
Record Env := mkEnv {
  int_max_str_digits : nat;
  sha256_hexdigest : bytes -> string;
  urlopen : string -> option bytes;
  loads_utf8 : bytes -> option json;
  repr_container : json -> string
}.

(** ** The two monads *)

(** A computation that returns or raises. *)
Definition E (A : Type) : Type := (exn + A)%type.

(** A computation that also reads and changes the world. *)
Definition M (A : Type) : Type := World -> E A * World.

#[global] Instance E_ret : MRet E := fun A a => inr a.
#[global] Instance E_bind : MBind E := fun A B f m =>
  match m with inl e => inl e | inr a => f a end.

#[global] Instance M_ret : MRet M := fun A a w => (inr a, w).
#[global] Instance M_bind : MBind M := fun A B f m w =>
  match m w with
  | (inl e, w') => (inl e, w')
  | (inr a, w') => f a w'
  end.

Definition raise {A} (e : exn) : M A := fun w => (inl e, w).

Definition lift {A} (r : E A) : M A := fun w => (r, w).

(** [try: body  except Exception: handler] *)
Definition try_except {A} (body : M A) (handler : M A) : M A := fun w =>
  match body w with
  | (inl _, w') => handler w'
  | r => r
  end.

(** [for x in l: s = body(s, x)] *)
Fixpoint for_fold {A S} (l : list A) (s : S) (body : S -> A -> M S) : M S :=
  match l with
  | [] => mret s
  | x :: l' => s' ← body s x; for_fold l' s' body
  end.

(** [for x in l: body(x)] *)
Fixpoint for_each {A} (l : list A) (body : A -> M unit) : M unit :=
  match l with
  | [] => mret tt
  | x :: l' => body x;; for_each l' body
  end.

(** ** JSON values as Python objects *)

Fixpoint dict_get (d : list (string * json)) (k : string) : option json :=
  match d with
  | [] => None
  | (k', v) :: d' => if String.eqb k' k then Some v else dict_get d' k
  end.

(** [j.get(k, dflt)] *)
Definition json_get (j : json) (k : string) (dflt : json) : E json :=
  match j with
  | JDict d => inr (default dflt (dict_get d k))
  | _ => inl AttributeError
  end.

(** [j[k]] for a string [k] *)
Definition json_item (j : json) (k : string) : E json :=
  match j with
  | JDict d => match dict_get d k with Some v => inr v | None => inl (KeyError k) end
  | _ => inl TypeError
  end.

Definition chars (s : string) : list json :=
  map (fun c => JStr (String c EmptyString)) (list_ascii_of_string s).

(** The items [for p in j] runs through. *)
Definition json_iter (j : json) : E (list json) :=
  match j with
  | JList l => inr l
  | JDict d => inr (map (fun kv => JStr (fst kv)) d)
  | JStr s => inr (chars s)
  | _ => inl TypeError
  end.

(** ** File system *)

Definition path_exists (p : path) : M bool := fun w =>
  (inr (bool_decide (is_Some (files w !! p))), w).

Definition is_dir (p : path) : M bool := fun w =>
  (inr (match files w !! p with Some Dir => true | _ => false end), w).

Definition child_of (d : path) (p : path) : option path :=
  match p with
  | n :: d' => if decide (d' = d) then Some p else None
  | [] => None
  end.

Definition children (fs : gmap path node) (d : path) : list path :=
  omap (child_of d) (map_to_list fs).*1.

Definition iterdir (d : path) : M (list path) := fun w =>
  match files w !! d with
  | Some Dir => (inr (children (files w) d), w)
  | Some (File _) => (inl NotADirectoryError, w)
  | None => (inl FileNotFoundError, w)
  end.

(** [p.name] *)
Definition name (p : path) : string :=
  match p with n :: _ => n | [] => EmptyString end.

Definition read_bytes (p : path) : M bytes := fun w =>
  match files w !! p with
  | Some (File b) => (inr b, w)
  | Some Dir => (inl IsADirectoryError, w)
  | None => (inl FileNotFoundError, w)
  end.

Definition set_node (p : path) (n : node) (w : World) : World :=
  mkWorld (<[p := n]> (files w)) (requests w).

Definition write_bytes (p : path) (b : bytes) : M unit := fun w =>
  match files w !! p with
  | Some Dir => (inl IsADirectoryError, w)
  | _ =>
      match p with
      | [] => (inl IsADirectoryError, w)
      | _ :: parent =>
          match files w !! parent with
          | Some Dir => (inr tt, set_node p (File b) w)
          | Some (File _) => (inl NotADirectoryError, w)
          | None => (inl FileNotFoundError, w)
          end
      end
  end.

(** [p.mkdir(parents=True, exist_ok=True)]: an existing directory is left
    alone, missing ancestors are created first, outermost first. *)
Fixpoint mkdir_parents (p : path) : M unit := fun w =>
  match files w !! p with
  | Some Dir => (inr tt, w)
  | Some (File _) => (inl FileExistsError, w)
  | None =>
      match p with
      | [] => (inr tt, set_node [] Dir w)
      | _ :: parent =>
          match mkdir_parents parent w with
          | (inr _, w') => (inr tt, set_node p Dir w')
          | (inl FileExistsError, w') => (inl NotADirectoryError, w')
          | (inl e, w') => (inl e, w')
          end
      end
  end.

(** ** Paths made from text

    The paths above name nodes.  A path that the program joins with a text
    it was handed, such as a pack id, is a path of [pathlib]: the text is
    cut into components when it is joined, and the operating system
    resolves [..] each time the path is used.  The flavour is POSIX. *)

Record purepath := mkPure {
  anchor : path;         (* the directory the text was joined to *)
  steps : list string    (* the components after it, innermost first *)
}.

(** A directory of the program, as the left operand of [/]. *)
Definition from_dir (d : path) : purepath := mkPure d [].

(** The components of a text: cut at "/", empty ones and "." dropped. *)
Definition parts (s : string) : list string :=
  List.filter (fun c => negb (String.eqb c "" || String.eqb c "."))
    (Py.split "/" s).

(** [p / s]: a text that starts with "/" replaces the path. *)
Definition joinpath (p : purepath) (s : string) : purepath :=
  if Py.startswith "/" s then mkPure [] (rev (parts s))
  else mkPure (anchor p) (rev (parts s) ++ steps p).

Fixpoint has_nul (s : string) : bool :=
  match s with
  | EmptyString => false
  | String c r => Ascii.eqb c Ascii.zero || has_nul r
  end.

(** Where the operating system arrives from the directory [cur] along the
    components [comps], outermost first: a step is taken from an existing
    directory, and [..] leads to its parent. *)
Fixpoint walk (fs : gmap path node) (cur : path) (comps : list string) : E path :=
  match comps with
  | [] => inr cur
  | c :: rest =>
      match fs !! cur with
      | Some Dir => walk fs (if String.eqb c ".." then tail cur else c :: cur) rest
      | Some (File _) => inl NotADirectoryError
      | None => inl FileNotFoundError
      end
  end.

(** The node path a pure path leads to; the node itself may be missing.
    A NUL character is refused before the file system is asked. *)
Definition locate (fs : gmap path node) (p : purepath) : E path :=
  if existsb has_nul (steps p) then inl (ValueError "embedded null byte")
  else walk fs (anchor p) (rev (steps p)).

(** [os.stat(p)] *)
Definition stat (fs : gmap path node) (p : purepath) : E node :=
  q ← locate fs p;
  match fs !! q with
  | Some n => inr n
  | None => inl FileNotFoundError
  end.

(** [p.exists()]: a failing [stat] is [False]. *)
Definition exists_at (p : purepath) : M bool := fun w =>
  (inr (match stat (files w) p with inr _ => true | inl _ => false end), w).

Definition read_at (p : purepath) : M bytes := fun w =>
  match locate (files w) p with
  | inr q => read_bytes q w
  | inl e => (inl e, w)
  end.

Definition write_at (p : purepath) (b : bytes) : M unit := fun w =>
  match locate (files w) p with
  | inr q => write_bytes q b w
  | inl e => (inl e, w)
  end.

(** [os.mkdir(p)] *)
Definition os_mkdir (p : purepath) : M unit := fun w =>
  match locate (files w) p with
  | inr q =>
      match files w !! q with
      | Some _ => (inl FileExistsError, w)
      | None => (inr tt, set_node q Dir w)
      end
  | inl e => (inl e, w)
  end.

(** The handler of [mkdir] for [exist_ok=True]: the error of [os.mkdir] is
    dropped when [p.is_dir()], that is when [stat] finds a directory. *)
Definition exist_ok (p : purepath) (r : E unit * World) : E unit * World :=
  match r with
  | (inl e, w) =>
      match stat (files w) p with
      | inr Dir => (inr tt, w)
      | _ => (inl e, w)
      end
  | (inr _, _) => r
  end.

(** [p.mkdir(parents=True, exist_ok=True)] as [pathlib] does it: [os.mkdir]
    is tried; on [FileNotFoundError] the parent is made in the same way and
    [os.mkdir] is tried once more, a second [FileNotFoundError] being
    raised.  A path without components of its own is a directory of the
    program. *)
Fixpoint mkdir_steps (a : path) (s : list string) : M unit := fun w =>
  match s with
  | [] => mkdir_parents a w
  | _ :: parent =>
      match os_mkdir (mkPure a s) w with
      | (inl FileNotFoundError, _) =>
          match mkdir_steps a parent w with
          | (inr _, w') =>
              match os_mkdir (mkPure a s) w' with
              | (inl FileNotFoundError, w'') => (inl FileNotFoundError, w'')
              | r => exist_ok (mkPure a s) r
              end
          | (inl e, w') => (inl e, w')
          end
      | r => exist_ok (mkPure a s) r
      end
  end.

Definition mkdir_at (p : purepath) : M unit := mkdir_steps (anchor p) (steps p).

(** ** The program *)

Section Program.

Variable env : Env.

(** [str(j)] *)
Definition str (j : json) : string :=
  match j with
  | JStr s => s
  | JNull => "None"
  | JBool true => "True"
  | JBool false => "False"
  | JNum text => text
  | JList _ | JDict _ => repr_container env j
  end.

(** [json.loads(raw.decode("utf-8"))], [json.loads(p.read_text("utf-8"))] *)
Definition json_loads (raw : bytes) : E json :=
  match loads_utf8 env raw with
  | Some j => inr j
  | None => inl DecodeError
  end.

Definition _sha256_bytes (b : bytes) : string := sha256_hexdigest env b.

Definition _https_only (url : string) : M unit :=
  if negb (Py.startswith "https://" (Py.lower url))
  then raise (ValueError ("Refusing non-HTTPS URL: " +:+ url))
  else mret tt.

(** The GET request of [_fetch_bytes]: the request is recorded, then the
    body is returned or the failure raised. *)
Definition http_get (url : string) : M bytes := fun w =>
  let w' := mkWorld (files w) (requests w ++ [url]) in
  match urlopen env url with
  | Some body => (inr body, w')
  | None => (inl URLError, w')
  end.

Definition _fetch_bytes (url : string) : M bytes :=
  _https_only url;;
  http_get url.

Definition _fetch_json (url : string) : M json :=
  raw ← _fetch_bytes url;
  lift (json_loads raw).

(** The [PackInfo(...)] expression of [fetch_index], its arguments evaluated
    from left to right. *)
Definition pack_info (p : json) : E PackInfo :=
  i ← json_item p "id";
  i' ← json_item p "id";
  t ← json_get p "title" i';
  v ← json_get p "version" (JStr "0.0.0");
  mu ← json_item p "manifest_url";
  ru ← json_item p "rules_url";
  sm ← json_item p "sha256_manifest";
  sr ← json_item p "sha256_rules";
  mret (mkPackInfo (str i) (str t) (str v) (str mu) (str ru)
          (Py.lower (str sm)) (Py.lower (str sr))).

(** The loop of [fetch_index] over the entries. *)
Fixpoint pack_infos (out : list PackInfo) (packs : list json) : E (list PackInfo) :=
  match packs with
  | [] => mret out
  | p :: rest => info ← pack_info p; pack_infos (out ++ [info]) rest
  end.

Definition fetch_index (index_url : string) : M (list PackInfo) :=
  idx ← _fetch_json index_url;
  lift (packs ← json_get idx "packs" (JList []);
        items ← json_iter packs;
        pack_infos [] items).

Section Manager.

Variable self : GuidelinesManager.

(** [__init__]: the two directories are the fields of [self]; the store root
    is created. *)
Definition __init__ : M unit :=
  mkdir_parents (guidelines_dir self).

(** The body of the inner loop of [ensure_builtin_installed]. *)
Definition seed_file (pack_dir dest : path) (fname : string) : M unit :=
  let src := fname :: pack_dir in
  e ← path_exists src;
  if (e : bool) then b ← read_bytes src; write_bytes (fname :: dest) b
  else mret tt.

(** The body of the loop of [ensure_builtin_installed]. *)
Definition seed_pack (pack_dir : path) : M unit :=
  d ← is_dir pack_dir;
  if negb d then mret tt else
  let dest := name pack_dir :: guidelines_dir self in
  e ← path_exists dest;
  if (e : bool) then mret tt else
  mkdir_parents dest;;
  for_each ["manifest.json"; "rules.json"] (seed_file pack_dir dest).

Definition ensure_builtin_installed : M unit :=
  e ← path_exists (builtin_dir self);
  if negb e then mret tt else
  let builtin_index := "index.json" :: builtin_dir self in
  e ← path_exists builtin_index;
  if negb e then mret tt else
  let packs_dir := "packs" :: builtin_dir self in
  e ← path_exists packs_dir;
  if negb e then mret tt else
  entries ← iterdir packs_dir;
  for_each entries seed_pack.

(** The body of the loop of [list_installed]; [continue] returns [out]. *)
Definition installed_entry (out : gmap string string) (d : path)
  : M (gmap string string) :=
  isd ← is_dir d;
  if negb isd then mret out else
  let m := "manifest.json" :: d in
  e ← path_exists m;
  if negb e then mret out else
  try_except
    (text ← read_bytes m;
     j ← lift (json_loads text);
     v ← lift (json_get j "version" (JStr "0.0.0"));
     mret (<[name d := str v]> out))
    (mret out).

Definition list_installed : M (gmap string string) :=
  entries ← iterdir (guidelines_dir self);
  for_fold entries ∅ installed_entry.

Definition read_pack_rules (pack_id : string) : M json :=
  let rules_path :=
    joinpath (joinpath (from_dir (guidelines_dir self)) pack_id) "rules.json" in
  e ← exists_at rules_path;
  if negb e then mret (JList []) else
  text ← read_at rules_path;
  lift (json_loads text).

(** The body of the loop of [check_updates]. *)
Definition check_update (installed : gmap string string)
    (updates : list PackUpdate) (p : PackInfo) : list PackUpdate :=
  match installed !! id p with
  | None => updates ++ [mkPackUpdate p None]
  | Some local_v =>
      if Py.tuple_gt (_parse_version (int_max_str_digits env) (Some (version p)))
                     (_parse_version (int_max_str_digits env) (Some local_v))
      then updates ++ [mkPackUpdate p (Some local_v)]
      else updates
  end.

(** The loop of [check_updates] on the fetched catalog and the installed
    map. *)
Definition plan_updates (remote : list PackInfo) (installed : gmap string string)
  : list PackUpdate :=
  fold_left (check_update installed) remote [].

Definition check_updates (index_url : string) : M (list PackUpdate) :=
  remote ← fetch_index index_url;
  installed ← list_installed;
  mret (plan_updates remote installed).

Definition install_pack (pack : PackInfo) : M unit :=
  manifest_bytes ← _fetch_bytes (manifest_url pack);
  rules_bytes ← _fetch_bytes (rules_url pack);
  if negb (String.eqb (_sha256_bytes manifest_bytes) (sha256_manifest pack))
  then raise (ValueError ("manifest SHA mismatch for " +:+ id pack)) else
  if negb (String.eqb (_sha256_bytes rules_bytes) (sha256_rules pack))
  then raise (ValueError ("rules SHA mismatch for " +:+ id pack)) else
  let dest := joinpath (from_dir (guidelines_dir self)) (id pack) in
  mkdir_at dest;;
  write_at (joinpath dest "manifest.json") manifest_bytes;;
  write_at (joinpath dest "rules.json") rules_bytes.

End Manager.

(** *** [build_index.py] *)

Definition BASE : string :=
  "https://raw.githubusercontent.com/EnjiMD/Continuum/main/docs".

Definition sha256_file (p : path) : M string :=
  b ← read_bytes p;
  mret (sha256_hexdigest env b).

(** The body of the loop of [main] for one pack directory: [None] when the
    directory is skipped, else the entry appended to [packs_out]. *)
Definition index_entry (pack_dir : path) : M (option json) :=
  let manifest := "manifest.json" :: pack_dir in
  let rules := "rules.json" :: pack_dir in
  em ← path_exists manifest;
  er ← (if (em : bool) then path_exists rules else mret false);
  if negb er then mret None else
  text ← read_bytes manifest;
  m ← lift (json_loads text);
  pid ← lift (json_get m "id" (JStr (name pack_dir)));
  title ← lift (json_get m "title" pid);
  version ← lift (json_get m "version" (JStr "0.0.0"));
  digest_manifest ← sha256_file manifest;
  digest_rules ← sha256_file rules;
  mret (Some (JDict [
    ("id", pid);
    ("title", title);
    ("version", version);
    ("manifest_url",
      JStr (BASE +:+ "/packs/" +:+ name pack_dir +:+ "/manifest.json"));
    ("rules_url",
      JStr (BASE +:+ "/packs/" +:+ name pack_dir +:+ "/rules.json"));
    ("sha256_manifest", JStr digest_manifest);
    ("sha256_rules", JStr digest_rules)])).

End Program.

(** * Notions of the specification

    The definitions the statements below are written with: the notions of
    the specification, each next to the part of the program it describes,
    and a small concrete world on which the program is run. *)

(** ** Version ordering *)

(** The algorithm in the words of the specification: split on ".", look at
    the first three fields, strip the non-digits, parse what remains, with 0
    for an empty, unparsable or missing field. *)
Definition spec_component (max_str_digits : nat) (field : option string) : Z :=
  match field with
  | None => 0
  | Some f => default 0 (Py.int max_str_digits (Py.keep Py.isdigit f))
  end.

Definition spec_parse (max_str_digits : nat) (v : option string) : Z * Z * Z :=
  match v with
  | None => (0, 0, 0)
  | Some s =>
      let fields := Py.split "." s in
      (spec_component max_str_digits (fields !! 0%nat),
       spec_component max_str_digits (fields !! 1%nat),
       spec_component max_str_digits (fields !! 2%nat))
  end.

(** The fields of a version string with their non-digits removed. *)
Definition digit_fields (s : string) : list string :=
  map (Py.keep Py.isdigit) (Py.split "." s).

(** A character in front of the first field. *)
Definition cons_head (c : ascii) (l : list string) : list string :=
  match l with
  | h :: t => (if Py.isdigit c then String c h else h) :: t
  | [] => []
  end.

(** The integer a field contributes, from its digits. *)
Definition field_value (limit : nat) (digits : string) : Z :=
  default 0 (Py.int limit digits).

(** The first three of a list of integers, 0 for a missing one. *)
Definition components (l : list Z) : list Z :=
  [default 0 (l !! 0%nat); default 0 (l !! 1%nat); default 0 (l !! 2%nat)].

(** The test of [check_updates] on two version strings: the remote one is
    newer than the local one. *)
Definition newer (limit : nat) (remote local_v : string) : bool :=
  Py.tuple_gt (_parse_version limit (Some remote))
              (_parse_version limit (Some local_v)).

(** [str(n)] for a natural number. *)
Definition decimal (n : nat) : string :=
  NilEmpty.string_of_uint (Nat.to_uint n).

(** A string of decimal digits only. *)
Fixpoint all_decimal (s : string) : bool :=
  match s with
  | EmptyString => true
  | String c r => Py.between 48 57 (Py.code c) && all_decimal r
  end.

(** The length test of [int]: a text of [len] digits is within the
    interpreter's limit. *)
Definition int_accepts (limit len : nat) : bool :=
  negb ((640 <? len) && (0 <? limit) && (limit <? len))%nat.

(** ** Update planner *)

(** The order of the specification on parsed versions: lexicographic on the
    triple. *)
Definition version_gt (r l : Z * Z * Z) : bool :=
  let '(a, b, c) := r in
  let '(a', b', c') := l in
  (a' <? a) || ((a =? a') && ((b' <? b) || ((b =? b') && (c' <? c)))).

(** What the specification plans for one remote descriptor. *)
Definition spec_update (env : Env) (installed : gmap string string)
    (p : PackInfo) : option PackUpdate :=
  match installed !! id p with
  | None => Some (mkPackUpdate p None)
  | Some local_v =>
      if version_gt (spec_parse (int_max_str_digits env) (Some (version p)))
                    (spec_parse (int_max_str_digits env) (Some local_v))
      then Some (mkPackUpdate p (Some local_v))
      else None
  end.

(** ** Transport policy *)

(** The text of a URL in front of its first colon. *)
Fixpoint before_colon (url : string) : option string :=
  match url with
  | EmptyString => None
  | String c r =>
      if Ascii.eqb c ":" then Some EmptyString
      else String c <$> before_colon r
  end.

(** The scheme of a URL; schemes are compared without regard to case. *)
Definition url_scheme (url : string) : option string :=
  Py.lower <$> before_colon url.

(** The error of [_https_only]. *)
Definition refused (url : string) : exn :=
  ValueError ("Refusing non-HTTPS URL: " +:+ url).

(** ** Catalog fetcher *)

Definition required_fields : list string :=
  ["id"; "manifest_url"; "rules_url"; "sha256_manifest"; "sha256_rules"].

(** The field [k] of a catalog entry, if the entry is an object that has
    it. *)
Definition field (p : json) (k : string) : option json :=
  match p with
  | JDict d => dict_get d k
  | _ => None
  end.

Definition has_field (p : json) (k : string) : bool :=
  match field p k with Some _ => true | None => false end.

(** An entry with all the required fields. *)
Definition complete (p : json) : bool := forallb (has_field p) required_fields.

(** The descriptor of the specification for an entry: the optional fields
    with their defaults, the digests in lower case. *)
Definition descriptor (env : Env) (p : json) : PackInfo :=
  let text k := str env (default JNull (field p k)) in
  {| id := text "id";
     title := match field p "title" with Some t => str env t | None => text "id" end;
     version := match field p "version" with Some v => str env v | None => "0.0.0" end;
     manifest_url := text "manifest_url";
     rules_url := text "rules_url";
     sha256_manifest := Py.lower (text "sha256_manifest");
     sha256_rules := Py.lower (text "sha256_rules") |}.

(** The entry [main] makes for a pack directory named [dir] whose manifest
    parses to the object [fields], with the bytes of its two files. *)
Definition built_entry (env : Env) (dir : string)
    (fields : list (string * json)) (manifest_bytes rules_bytes : bytes) : json :=
  let pid := default (JStr dir) (dict_get fields "id") in
  JDict [
    ("id", pid);
    ("title", default pid (dict_get fields "title"));
    ("version", default (JStr "0.0.0") (dict_get fields "version"));
    ("manifest_url", JStr (BASE +:+ "/packs/" +:+ dir +:+ "/manifest.json"));
    ("rules_url", JStr (BASE +:+ "/packs/" +:+ dir +:+ "/rules.json"));
    ("sha256_manifest", JStr (sha256_hexdigest env manifest_bytes));
    ("sha256_rules", JStr (sha256_hexdigest env rules_bytes))].

(** ** Local store *)

(** The version the specification reads from the pack directory [d]: it
    must be a directory whose manifest is a file that parses to an object. *)
Definition manifest_version (env : Env) (fs : gmap path node) (d : path)
  : option string :=
  match fs !! d, fs !! ("manifest.json" :: d) with
  | Some Dir, Some (File text) =>
      match loads_utf8 env text with
      | Some (JDict fields) =>
          Some (str env (default (JStr "0.0.0") (dict_get fields "version")))
      | _ => None
      end
  | _, _ => None
  end.

(** One turn of the loop of [list_installed], without the monad. *)
Definition record_entry (env : Env) (fs : gmap path node) (out : gmap string string)
    (d : path) : gmap string string :=
  match manifest_version env fs d with
  | Some v => <[name d := v]> out
  | None => out
  end.

(** A text that is one name: not empty, not "." or "..", and without "/"
    and NUL.  Joined to a directory it names a child of that directory. *)
Definition plain_name (s : string) : bool :=
  negb (String.eqb s "" || String.eqb s "." || String.eqb s "..")
  && forallb (fun c => negb (Ascii.eqb c "/" || Ascii.eqb c Ascii.zero))
       (list_ascii_of_string s).

(** The path of the directory of a pack, as [install_pack] makes it, and of
    its rules document, as [read_pack_rules] makes it. *)
Definition pack_directory (self : GuidelinesManager) (pack_id : string)
  : purepath :=
  joinpath (from_dir (guidelines_dir self)) pack_id.

Definition rules_document (self : GuidelinesManager) (pack_id : string)
  : purepath :=
  joinpath (pack_directory self pack_id) "rules.json".

(** The node a pure path leads to, if there is one: what [exists] tests. *)
Definition node_at (fs : gmap path node) (p : purepath) : option node :=
  match stat fs p with
  | inr n => Some n
  | inl _ => None
  end.

(** The last four statements of [install_pack], after the digests were
    compared. *)
Definition store_pack (self : GuidelinesManager) (pack : PackInfo)
    (manifest_bytes rules_bytes : bytes) : M unit :=
  let dest := joinpath (from_dir (guidelines_dir self)) (id pack) in
  mkdir_at dest;;
  write_at (joinpath dest "manifest.json") manifest_bytes;;
  write_at (joinpath dest "rules.json") rules_bytes.

(** What these statements come to when the pack id is one name and the
    store root is a directory: the pack directory is a child of the root. *)
Definition write_pack (self : GuidelinesManager) (pack : PackInfo)
    (manifest_bytes rules_bytes : bytes) : M unit :=
  let dest := id pack :: guidelines_dir self in
  mkdir_parents dest;;
  write_bytes ("manifest.json" :: dest) manifest_bytes;;
  write_bytes ("rules.json" :: dest) rules_bytes.

(** A file system in which every node but the root lies in a directory. *)
Definition well_formed (fs : gmap path node) : Prop :=
  forall c p, is_Some (fs !! (c :: p)) -> fs !! p = Some Dir.

(** The same, as a test. *)
Definition well_formed_check (fs : gmap path node) : bool :=
  forallb (fun entry =>
             match fst entry with
             | [] => true
             | _ :: p => match fs !! p with Some Dir => true | _ => false end
             end)
          (map_to_list fs).

(** The URL passes the test of [_https_only]. *)
Definition accepted (url : string) : bool :=
  Py.startswith "https://" (Py.lower url).

(** The world after one more request. *)
Definition requested (url : string) (w : World) : World :=
  mkWorld (files w) (requests w ++ [url]).

(** The world [w'] has every node of [w], unchanged, and the same requests:
    it only adds to [w]. *)
Definition only_adds (w w' : World) : Prop :=
  requests w' = requests w
  /\ forall q, is_Some (files w !! q) -> files w' !! q = files w !! q.

(** The worlds [w] and [w'] agree on [d] and on everything below it, and on
    the requests made. *)
Definition same_under (d : path) (w w' : World) : Prop :=
  requests w' = requests w
  /\ forall rest, files w' !! (rest ++ d) = files w !! (rest ++ d).

(** ** A small world *)

(** The documents of the examples, as bytes. *)
Definition doc_object : bytes := [x7b; x7d].                 (* {} *)
Definition doc_array : bytes := [x5b; x5d].                  (* [] *)
Definition doc_open_object : bytes := [x7b].                 (* { *)
Definition doc_open_array : bytes := [x5b].                  (* [ *)
Definition doc_catalog : bytes :=                            (* {"packs":[{}]} *)
  [x7b; x22; x70; x61; x63; x6b; x73; x22; x3a; x5b; x7b; x7d; x5d; x7d].

(** Equality of byte strings. *)
Definition bytes_eqb (a b : bytes) : bool :=
  bool_decide (map Byte.to_N a = map Byte.to_N b).

(** [json.loads] on the documents of the examples. *)
Definition demo_loads (text : bytes) : option json :=
  if bytes_eqb text doc_object then Some (JDict [])
  else if bytes_eqb text doc_array then Some (JList [])
  else if bytes_eqb text doc_catalog
       then Some (JDict [("packs", JList [JDict []])])
  else None.

(** SHA-256 on the documents of the examples. *)
Definition demo_sha256 (b : bytes) : string :=
  if bytes_eqb b doc_object
  then "44136fa355b3678a1146ad16f7e8649e94fb4fc21fe77e8310c060f61caaff8a"
  else if bytes_eqb b doc_array
  then "4f53cda18c2baa0c0354bb5f9a3ecbe5ed12ab4d8e11ba873c2f11161202b945"
  else "e3b0c44298fc1c149afbf4c8996fb92427ae41e4649b934ca495991b7852b855".

(** The network of the examples: three documents. *)
Definition demo_urlopen (url : string) : option bytes :=
  if String.eqb url "https://example/index.json" then Some doc_catalog
  else if String.eqb url "https://example/A/manifest.json" then Some doc_object
  else if String.eqb url "https://example/A/rules.json" then Some doc_array
  else None.

Definition demo_env : Env :=
  mkEnv 4300 demo_sha256 demo_urlopen demo_loads (fun _ => "").

Definition demo_self : GuidelinesManager :=
  mkManager ["guidelines"; "Continuum"] ["guidelines_builtin"; "app"].

(** A store with the pack "core" (a manifest without version, a truncated
    rules document) and the directory "broken" (a truncated manifest), and a
    builtin source that ships "core" and "extra". *)
Definition demo_files : gmap path node :=
  list_to_map [
    (["Continuum"], Dir);
    (["guidelines"; "Continuum"], Dir);
    (["core"; "guidelines"; "Continuum"], Dir);
    (["manifest.json"; "core"; "guidelines"; "Continuum"], File doc_object);
    (["rules.json"; "core"; "guidelines"; "Continuum"], File doc_open_array);
    (["broken"; "guidelines"; "Continuum"], Dir);
    (["manifest.json"; "broken"; "guidelines"; "Continuum"], File doc_open_object);
    (["app"], Dir);
    (["guidelines_builtin"; "app"], Dir);
    (["index.json"; "guidelines_builtin"; "app"], File doc_object);
    (["packs"; "guidelines_builtin"; "app"], Dir);
    (["core"; "packs"; "guidelines_builtin"; "app"], Dir);
    (["manifest.json"; "core"; "packs"; "guidelines_builtin"; "app"], File doc_object);
    (["rules.json"; "core"; "packs"; "guidelines_builtin"; "app"], File doc_array);
    (["extra"; "packs"; "guidelines_builtin"; "app"], Dir);
    (["manifest.json"; "extra"; "packs"; "guidelines_builtin"; "app"], File doc_object)
  ].

Definition demo_world : World := mkWorld demo_files [].

(** A network that serves the two documents of the builtin pack "core" at
    the URLs the index builder gives them. *)
Definition mirror_urlopen (url : string) : option bytes :=
  if String.eqb url (BASE +:+ "/packs/core/manifest.json") then Some doc_object
  else if String.eqb url (BASE +:+ "/packs/core/rules.json") then Some doc_array
  else None.

Definition mirror_env : Env :=
  mkEnv 4300 demo_sha256 mirror_urlopen demo_loads (fun _ => "").

(** The same world with its root directory. *)
Definition rooted_world : World := mkWorld (<[ [] := Dir ]> demo_files) [].

(** The catalog and the installed versions of the examples. *)
Definition pack_A : PackInfo :=
  mkPackInfo "A" "Pack A" "1.0.0" "https://example/A/manifest.json"
    "https://example/A/rules.json" "aa" "ab".

Definition pack_B : PackInfo :=
  mkPackInfo "B" "Pack B" "2.0.0" "https://example/B/manifest.json"
    "https://example/B/rules.json" "ba" "bb".

(** A descriptor with the digests of the served documents. *)
Definition good_pack : PackInfo :=
  mkPackInfo "A" "Pack A" "1.0.0" "https://example/A/manifest.json"
    "https://example/A/rules.json" (demo_sha256 doc_object)
    (demo_sha256 doc_array).

(** The same descriptor under another pack id. *)
Definition with_id (pack_id : string) : PackInfo :=
  mkPackInfo pack_id "Pack A" "1.0.0" "https://example/A/manifest.json"
    "https://example/A/rules.json" (demo_sha256 doc_object)
    (demo_sha256 doc_array).

(** A manager whose store is the directory of the shipped packs. *)
Definition shipped_self : GuidelinesManager :=
  mkManager ["packs"; "guidelines_builtin"; "app"] ["guidelines_builtin"; "app"].

(** A descriptor whose rules digest is not that of the served rules. *)
Definition tampered_pack : PackInfo :=
  mkPackInfo "A" "Pack A" "1.0.0" "https://example/A/manifest.json"
    "https://example/A/rules.json"
    "44136fa355b3678a1146ad16f7e8649e94fb4fc21fe77e8310c060f61caaff8a"
    "0000000000000000000000000000000000000000000000000000000000000000".

(** * Properties *)

Example parse_version_ex1 : _parse_version 4300 (Some "2.10.1") = [2; 10; 1].
Proof. reflexivity. Qed.

Example parse_version_ex2 : _parse_version 4300 (Some " v1.2.3-beta.7 ") = [1; 2; 3].
Proof. reflexivity. Qed.

(** A field made of "7" and the superscript two, a digit [int] rejects: the
    [except] branch gives 0. *)
Example parse_version_ex3 :
  _parse_version 4300 (Some (String "7" (String "178" ".4"))) = [0; 4; 0].
Proof. reflexivity. Qed.

(** ** Characters and strings *)

Ltac by_char c :=
  destruct c as [[] [] [] [] [] [] [] []]; vm_compute; try done; auto.

Lemma isspace_not_digit c : Py.isspace c = true -> Py.isdigit c = false.
Proof. by_char c. Qed.

Lemma isspace_not_dot c : Py.isspace c = true -> Ascii.eqb c "." = false.
Proof. by_char c. Qed.

Lemma decimal_value_nonneg c d : Py.decimal_value c = Some d -> 0 <= d.
Proof. by_char c; by intros [= <-]. Qed.

Lemma lower_char_idem c : Py.lower_char (Py.lower_char c) = Py.lower_char c.
Proof. by_char c. Qed.

Lemma lower_idem s : Py.lower (Py.lower s) = Py.lower s.
Proof. induction s as [|c s IH]; simpl; [done|]. by rewrite lower_char_idem, IH. Qed.

Lemma map_fmap {A B} (f : A -> B) (l : list A) : map f l = f <$> l.
Proof. reflexivity. Qed.

Lemma split_nonempty sep s : Py.split sep s <> [].
Proof.
  destruct s as [|c s]; simpl; [done|].
  destruct (Ascii.eqb c sep); [done|]. by destruct (Py.split sep s).
Qed.

Lemma int_digits_nonneg s : forall acc n,
  0 <= acc -> Py.int_digits acc s = Some n -> 0 <= n.
Proof.
  induction s as [|c s IH]; simpl; intros acc n Hacc H.
  - by injection H as <-.
  - destruct (Py.decimal_value c) as [d|] eqn:Hd; [|done].
    apply decimal_value_nonneg in Hd. eapply IH; [|exact H]. lia.
Qed.

Lemma int_nonneg limit s n : Py.int limit s = Some n -> 0 <= n.
Proof.
  unfold Py.int. destruct s as [|c s]; [done|].
  case_match; [done|]. by apply int_digits_nonneg.
Qed.

(** ** Version ordering *)

Lemma digit_fields_nonempty s : digit_fields s <> [].
Proof.
  unfold digit_fields. pose proof (split_nonempty "." s).
  by destruct (Py.split "." s).
Qed.

Lemma digit_fields_dot s : digit_fields (String "." s) = "" :: digit_fields s.
Proof. reflexivity. Qed.

Lemma digit_fields_cons c s :
  Ascii.eqb c "." = false ->
  digit_fields (String c s) = cons_head c (digit_fields s).
Proof.
  intros Hc. unfold digit_fields. cbn [Py.split]. rewrite Hc.
  pose proof (split_nonempty "." s) as Hne.
  destruct (Py.split "." s) as [|h t]; [done|].
  cbn. by destruct (Py.isdigit c).
Qed.

Lemma digit_fields_space c s :
  Py.isspace c = true -> digit_fields (String c s) = digit_fields s.
Proof.
  intros Hc. rewrite digit_fields_cons by by apply isspace_not_dot.
  pose proof (digit_fields_nonempty s).
  destruct (digit_fields s); [done|]. cbn.
  by rewrite (isspace_not_digit _ Hc).
Qed.

Lemma digit_fields_lstrip s : digit_fields (Py.lstrip s) = digit_fields s.
Proof.
  induction s as [|c s IH]; [done|]. cbn [Py.lstrip].
  destruct (Py.isspace c) eqn:Hc; [|done].
  by rewrite digit_fields_space.
Qed.

Lemma rstrip_cons_keep c s :
  Py.rstrip (String c s) = String c (Py.rstrip s)
  \/ (Py.isspace c = true /\ Py.rstrip s = "" /\ Py.rstrip (String c s) = "").
Proof.
  cbn [Py.rstrip]. destruct (Py.rstrip s); [|by left].
  destruct (Py.isspace c); [by right|by left].
Qed.

Lemma digit_fields_rstrip s : digit_fields (Py.rstrip s) = digit_fields s.
Proof.
  induction s as [|c s IH]; [done|].
  destruct (rstrip_cons_keep c s) as [->|(Hc & Hs & ->)].
  - destruct (Ascii.eqb c ".") eqn:Hdot.
    + apply Ascii.eqb_eq in Hdot as ->. by rewrite !digit_fields_dot, IH.
    + by rewrite !digit_fields_cons, IH.
  - rewrite digit_fields_space by done. by rewrite <- IH, Hs.
Qed.

Lemma digit_fields_strip s : digit_fields (Py.strip s) = digit_fields s.
Proof. unfold Py.strip. by rewrite digit_fields_rstrip, digit_fields_lstrip. Qed.

Section VersionFacts.

Variable limit : nat.

Lemma field_value_or_else digits :
  default 0 (Py.int limit (Py.or_else digits "0")) = field_value limit digits.
Proof. by destruct digits. Qed.

Lemma field_value_nonneg digits : 0 <= field_value limit digits.
Proof.
  unfold field_value. destruct (Py.int limit digits) eqn:H; [|done].
  by apply int_nonneg in H.
Qed.

Lemma fold_parse_field l : forall acc,
  fold_left (parse_field limit) l acc
  = acc ++ map (fun p => field_value limit (Py.keep Py.isdigit p)) l.
Proof.
  induction l as [|p l IH]; intros acc; cbn [fold_left map].
  - by rewrite app_nil_r.
  - rewrite IH, <- field_value_or_else. unfold parse_field.
    destruct (Py.int limit _); by rewrite <- app_assoc.
Qed.

Lemma pad_take_components (l : list Z) :
  l <> [] -> pad_to_three 3 (take 3 l) = components l.
Proof. destruct l as [|a [|b [|c l]]]; done. Qed.

(** The loop exits because its condition is false, not for lack of turns. *)
Lemma pad_to_three_exit nums :
  (length (pad_to_three 3 nums) <? 3)%nat = false.
Proof. destruct nums as [|a [|b [|c l]]]; done. Qed.

Lemma parse_version_fields s :
  _parse_version limit (Some s) = components (map (field_value limit) (digit_fields s)).
Proof.
  unfold _parse_version. rewrite fold_parse_field. cbn [app].
  destruct s as [|c s]; [done|].
  change (Py.or_else (default "" (Some (String c s))) "0") with (String c s).
  rewrite <- (digit_fields_strip (String c s)). unfold digit_fields.
  generalize (split_nonempty "." (Py.strip (String c s))).
  generalize (Py.split "." (Py.strip (String c s))). intros l Hl.
  rewrite <- pad_take_components by by destruct l.
  f_equal. by rewrite map_map, firstn_map.
Qed.

Lemma parse_version_spec v :
  let '(major, minor, patch) := spec_parse limit v in
  _parse_version limit v = [major; minor; patch].
Proof.
  destruct v as [s|]; [|done]. rewrite parse_version_fields.
  unfold spec_parse, components, digit_fields. rewrite map_map.
  rewrite map_fmap, !list_lookup_fmap.
  by destruct (Py.split "." s !! 0%nat), (Py.split "." s !! 1%nat),
    (Py.split "." s !! 2%nat).
Qed.

Lemma components_nonneg l i x :
  components (map (field_value limit) l) !! i = Some x -> 0 <= x.
Proof.
  unfold components. rewrite map_fmap, !list_lookup_fmap.
  assert (forall o : option string, 0 <= default 0 (field_value limit <$> o)) as H.
  { intros [d|]; [apply field_value_nonneg|done]. }
  destruct i as [|[|[|i]]]; cbn; intros [= <-]; try apply H. 
Qed.

End VersionFacts.

Section SuffixFacts.

Variable limit : nat.

Lemma keep_cons_empty f c s :
  Py.keep f (String c s) = "" -> f c = false /\ Py.keep f s = "".
Proof. cbn. by destruct (f c). Qed.

Lemma digit_fields_no_digit suffix :
  Py.keep Py.isdigit suffix = "" ->
  exists k, digit_fields suffix = replicate (S k) "".
Proof.
  induction suffix as [|c s IH]; intros H; [by exists 0%nat|].
  apply keep_cons_empty in H as [Hc Hs]. destruct (IH Hs) as [k Hk].
  destruct (Ascii.eqb c ".") eqn:Hdot.
  - apply Ascii.eqb_eq in Hdot as ->. exists (S k).
    by rewrite digit_fields_dot, Hk.
  - exists k. rewrite digit_fields_cons, Hk by done. cbn. by rewrite Hc.
Qed.

Lemma digit_fields_app_no_digit v suffix :
  Py.keep Py.isdigit suffix = "" ->
  exists k, digit_fields (v +:+ suffix) = digit_fields v ++ replicate k "".
Proof.
  intros H. induction v as [|c v [k IH]].
  - destruct (digit_fields_no_digit suffix H) as [k Hk]. by exists k.
  - exists k. change (String c v +:+ suffix) with (String c (v +:+ suffix)).
    destruct (Ascii.eqb c ".") eqn:Hdot.
    + apply Ascii.eqb_eq in Hdot as ->. by rewrite !digit_fields_dot, IH.
    + rewrite !digit_fields_cons, IH by done.
      pose proof (digit_fields_nonempty v). by destruct (digit_fields v).
Qed.

Lemma lookup_app_zeros (l : list Z) k i :
  default 0 ((l ++ replicate k 0) !! i) = default 0 (l !! i).
Proof.
  destruct (decide (i < length l)%nat) as [Hi|Hi].
  - by rewrite lookup_app_l.
  - rewrite lookup_app_r, (lookup_ge_None_2 l i) by lia.
    destruct (replicate k 0 !! _) as [x|] eqn:Hx; [|done].
    by apply lookup_replicate in Hx as [-> _].
Qed.

Lemma parse_version_suffix v suffix :
  Py.keep Py.isdigit suffix = "" ->
  _parse_version limit (Some (v +:+ suffix)) = _parse_version limit (Some v).
Proof.
  intros H. rewrite !parse_version_fields.
  destruct (digit_fields_app_no_digit v suffix H) as [k ->].
  rewrite map_app, (map_fmap _ (replicate k "")), fmap_replicate.
  change (field_value limit "") with 0.
  unfold components. by rewrite !lookup_app_zeros.
Qed.

End SuffixFacts.

(** C5: the version parser is total: on every string, and on [None], it
    returns three non-negative integers, those of the algorithm of the
    specification (split on ".", at most three fields, non-digits stripped,
    empty or unparsable fields 0, missing fields 0, further fields ignored);
    the empty string, "abc" and [None] give (0, 0, 0). *)
Theorem parse_version_total (limit : nat) (v : option string) :
  (exists major minor patch,
      _parse_version limit v = [major; minor; patch]
      /\ 0 <= major /\ 0 <= minor /\ 0 <= patch
      /\ spec_parse limit v = (major, minor, patch))
  /\ _parse_version limit None = [0; 0; 0]
  /\ _parse_version limit (Some "") = [0; 0; 0]
  /\ _parse_version limit (Some "abc") = [0; 0; 0].
Proof.
  split; [|done].
  pose proof (parse_version_spec limit v) as Hspec.
  destruct (spec_parse limit v) as [[major minor] patch].
  exists major, minor, patch. split; [done|].
  assert (forall i x, _parse_version limit v !! i = Some x -> 0 <= x) as Hpos.
  { destruct v as [s|].
    - rewrite parse_version_fields. apply components_nonneg.
    - intros [|[|[|i]]] x; cbn; by intros [= <-]. }
  rewrite Hspec in Hpos.
  repeat split.
  - by apply (Hpos 0%nat).
  - by apply (Hpos 1%nat).
  - by apply (Hpos 2%nat).
Qed.

(** C6: versions are ordered by the lexicographic order of their integer
    triples, not of their strings: "2.10.1" is greater than "2.9.9" although
    the string "2.10.1" is smaller, and two versions that differ only in a
    suffix without digits parse to the same triple, as "1.2.3-beta" and
    "1.2.3" do. *)
Theorem version_order_numeric (limit : nat) :
  (forall a b c a' b' c',
      Py.tuple_gt [a; b; c] [a'; b'; c'] = true
      <-> a' < a \/ (a = a' /\ (b' < b \/ (b = b' /\ c' < c))))
  /\ Py.tuple_gt (_parse_version limit (Some "2.10.1"))
                 (_parse_version limit (Some "2.9.9")) = true
  /\ String.ltb "2.10.1" "2.9.9" = true
  /\ _parse_version limit (Some "1.2.3-beta") = _parse_version limit (Some "1.2.3")
  /\ (forall v suffix,
         Py.keep Py.isdigit suffix = "" ->
         _parse_version limit (Some (v +:+ suffix)) = _parse_version limit (Some v)).
Proof.
  split; [|split; [done|split; [done|split; [done|]]]].
  - intros a b c a' b' c'. cbn.
    destruct (Z.eqb_spec a a'), (Z.eqb_spec b b'), (Z.eqb_spec c c');
      rewrite ?Z.ltb_lt; try lia; split; (done || lia).
  - apply parse_version_suffix.
Qed.

Lemma version_order_numeric_witness :
  _parse_version 4300 (Some ("1.2.3" +:+ "-beta")) = _parse_version 4300 (Some "1.2.3").
Proof.
  apply (proj2 (proj2 (proj2 (proj2 (version_order_numeric 4300))))).
  reflexivity.
Defined.

(** ** Update planner *)

Lemma tuple_gt_version_gt limit r l :
  Py.tuple_gt (_parse_version limit (Some r)) (_parse_version limit (Some l))
  = version_gt (spec_parse limit (Some r)) (spec_parse limit (Some l)).
Proof.
  pose proof (parse_version_spec limit (Some r)) as Hr.
  pose proof (parse_version_spec limit (Some l)) as Hl.
  destruct (spec_parse limit (Some r)) as [[a b] c].
  destruct (spec_parse limit (Some l)) as [[a' b'] c'].
  rewrite Hr, Hl. cbn.
  destruct (Z.eqb_spec a a'), (Z.eqb_spec b b'), (Z.eqb_spec c c'),
    (Z.ltb_spec a' a), (Z.ltb_spec b' b), (Z.ltb_spec c' c); cbn; (done || lia).
Qed.

Lemma check_update_spec env installed updates p :
  check_update env installed updates p
  = updates ++ option_list (spec_update env installed p).
Proof.
  unfold check_update, spec_update. destruct (installed !! id p) as [lv|]; [|done].
  rewrite tuple_gt_version_gt. case_match; [done|]. by rewrite app_nil_r.
Qed.

Lemma fold_check_update env installed remote : forall updates,
  fold_left (check_update env installed) remote updates
  = updates ++ omap (spec_update env installed) remote.
Proof.
  induction remote as [|p remote IH]; intros updates; cbn [fold_left omap].
  - by rewrite app_nil_r.
  - rewrite IH, check_update_spec, <- app_assoc. f_equal.
    cbn. by destruct (spec_update env installed p).
Qed.

Lemma spec_update_pack env installed p u :
  spec_update env installed p = Some u -> pack u = p.
Proof.
  unfold spec_update. repeat case_match; by intros [= <-].
Qed.

Lemma omap_pack_sublist env installed remote :
  sublist (pack <$> omap (spec_update env installed) remote) remote.
Proof.
  induction remote as [|p remote IH]; [constructor|].
  cbn. destruct (spec_update env installed p) as [u|] eqn:Hu.
  - cbn. rewrite (spec_update_pack _ _ _ _ Hu). by constructor.
  - by constructor.
Qed.

(** C3: the planner goes through the remote catalog in order and keeps, for
    a descriptor whose id is not installed, an update without installed
    version, and for an installed one an update carrying the installed
    version exactly when the remote triple is strictly greater; an equal or
    smaller remote version gives nothing. *)
Theorem plan_updates_spec (env : Env) (remote : list PackInfo)
    (installed : gmap string string) :
  plan_updates env remote installed = omap (spec_update env installed) remote
  /\ sublist (pack <$> plan_updates env remote installed) remote
  /\ (forall u, u ∈ plan_updates env remote installed <->
        pack u ∈ remote
        /\ match installed !! id (pack u) with
           | None => installed_version u = None
           | Some local_v =>
               installed_version u = Some local_v
               /\ version_gt (spec_parse (int_max_str_digits env) (Some (version (pack u))))
                             (spec_parse (int_max_str_digits env) (Some local_v)) = true
           end)
  /\ plan_updates env [pack_A; pack_B] {["A" := "1.0.0"]}
     = [mkPackUpdate pack_B None]
  /\ plan_updates env [pack_A] {["A" := "1.1.0"]} = [].
Proof.
  assert (plan_updates env remote installed
          = omap (spec_update env installed) remote) as Heq.
  { unfold plan_updates. by rewrite fold_check_update. }
  split; [done|]. split; [rewrite Heq; apply omap_pack_sublist|].
  split; [|split].
  - intros u. rewrite Heq, list_elem_of_omap. split.
    + intros (p & Hp & Hu). pose proof (spec_update_pack _ _ _ _ Hu) as ->.
      split; [done|]. unfold spec_update in Hu.
      destruct (installed !! id p) as [lv|]; [|by injection Hu as <-].
      case_match; [|done]. by injection Hu as <-.
    + intros [Hp Hu]. exists (pack u). split; [done|]. unfold spec_update.
      destruct u as [p iv]. cbn in *.
      destruct (installed !! id p) as [lv|]; [|by subst].
      destruct Hu as [-> ->]. done.
  - unfold plan_updates. rewrite fold_check_update. cbn.
    unfold spec_update. cbn. by rewrite lookup_singleton_eq, lookup_singleton_ne.
  - unfold plan_updates. rewrite fold_check_update. cbn.
    unfold spec_update. cbn. by rewrite lookup_singleton_eq.
Qed.

(** ** Transport policy *)

Lemma bind_run {A B} (m : M A) (f : A -> M B) w :
  (m ≫= f) w
  = match m w with (inl e, w') => (inl e, w') | (inr a, w') => f a w' end.
Proof. reflexivity. Qed.

Lemma lower_char_colon c : Py.lower_char c = ":"%char -> c = ":"%char.
Proof. by_char c. Qed.

Lemma lower_char_letter c x :
  Ascii.eqb x (Py.lower_char c) = true -> x <> ":"%char ->
  Ascii.eqb c ":" = false /\ Py.lower_char c = x.
Proof.
  intros Hx Hne. apply Ascii.eqb_eq in Hx as ->. split; [|done].
  apply Ascii.eqb_neq. intros ->. by apply Hne.
Qed.

(** A URL that passes the test of [_https_only] has the scheme "https". *)
Lemma https_prefix_scheme url :
  Py.startswith "https://" (Py.lower url) = true -> url_scheme url = Some "https".
Proof.
  unfold url_scheme.
  destruct url as [|c1 [|c2 [|c3 [|c4 [|c5 [|c6 url]]]]]];
    cbn [Py.startswith Py.lower before_colon]; try done;
    rewrite ?andb_false_r; try done.
  intros H. repeat (apply andb_prop in H as [?%lower_char_letter H]; [|done]).
  apply andb_prop in H as [H6 _].
  apply Ascii.eqb_eq in H6. symmetry in H6. apply lower_char_colon in H6 as ->.
  destruct_and!. repeat match goal with H : Ascii.eqb _ ":" = false |- _ =>
    rewrite H; clear H end.
  cbn [Ascii.eqb Bool.eqb fmap option_fmap option_map Py.lower].
  by repeat match goal with H : Py.lower_char _ = _ |- _ =>
    rewrite H; clear H end.
Qed.

Section Transport.

Variable env : Env.

Lemma https_only_refuses url w :
  url_scheme url <> Some "https" -> _https_only url w = (inl (refused url), w).
Proof.
  intros H. unfold _https_only.
  destruct (Py.startswith "https://" (Py.lower url)) eqn:Hs; [|done].
  by apply https_prefix_scheme in Hs.
Qed.

Lemma fetch_bytes_refuses url w :
  url_scheme url <> Some "https" -> _fetch_bytes env url w = (inl (refused url), w).
Proof.
  intros H. unfold _fetch_bytes. by rewrite bind_run, https_only_refuses.
Qed.

(** A fetch leaves the files alone and adds at most its own URL to the
    requests. *)
Lemma fetch_bytes_world url w r w' :
  _fetch_bytes env url w = (r, w') ->
  files w' = files w /\ (requests w' = requests w \/ requests w' = requests w ++ [url]).
Proof.
  unfold _fetch_bytes, _https_only. rewrite bind_run.
  destruct (negb _); cbn.
  - intros [= <- <-]. auto.
  - unfold http_get. destruct (urlopen env url); intros [= <- <-]; auto.
Qed.

End Transport.

(** C2: a URL whose scheme is not HTTPS is refused before any request is
    made: [_fetch_bytes] and [fetch_index] raise the refusal and leave the
    world, and so the record of requests, as it was; so does [install_pack]
    on such a manifest URL, and on such a rules URL it raises the refusal
    with no request beyond that of the manifest. *)
Theorem non_https_refused (env : Env) (url : string) (w : World) :
  url_scheme url <> Some "https" ->
  _fetch_bytes env url w = (inl (refused url), w)
  /\ fetch_index env url w = (inl (refused url), w)
  /\ (forall self pack,
         manifest_url pack = url ->
         install_pack env self pack w = (inl (refused url), w))
  /\ (forall self pack body w1,
         rules_url pack = url ->
         _fetch_bytes env (manifest_url pack) w = (inr body, w1) ->
         install_pack env self pack w = (inl (refused url), w1)
         /\ files w1 = files w
         /\ requests w1 = requests w ++ [manifest_url pack]).
Proof.
  intros H. pose proof (fetch_bytes_refuses env url) as Hf.
  split; [by apply Hf|]. split; [|split].
  - unfold fetch_index, _fetch_json. by rewrite !bind_run, Hf.
  - intros self pack <-. unfold install_pack. by rewrite bind_run, Hf.
  - intros self pack body w1 <- Hm. unfold install_pack.
    rewrite bind_run, Hm, bind_run, Hf by done. split; [done|].
    destruct (fetch_bytes_world _ _ _ _ _ Hm) as [Hfiles Hreq].
    split; [done|]. revert Hm. unfold _fetch_bytes, _https_only.
    rewrite bind_run. destruct (negb _); [done|]. cbn. unfold http_get.
    destruct (urlopen env _); by intros [= <- <-].
Qed.

(** ** Installer *)

(** C1: when both artifacts were fetched and the digest of one of them is
    not the declared one, [install_pack] raises the error that names the
    artifact and the pack id, and the file system is as it was: no
    directory is made and no file written. *)
Theorem install_pack_integrity (env : Env) (self : GuidelinesManager)
    (pack : PackInfo) (w w1 w2 : World) (manifest_bytes rules_bytes : bytes) :
  _fetch_bytes env (manifest_url pack) w = (inr manifest_bytes, w1) ->
  _fetch_bytes env (rules_url pack) w1 = (inr rules_bytes, w2) ->
  _sha256_bytes env manifest_bytes <> sha256_manifest pack
  \/ _sha256_bytes env rules_bytes <> sha256_rules pack ->
  exists artifact,
    install_pack env self pack w
    = (inl (ValueError (artifact +:+ " SHA mismatch for " +:+ id pack)), w2)
    /\ ((artifact = "manifest"
         /\ _sha256_bytes env manifest_bytes <> sha256_manifest pack)
        \/ (artifact = "rules"
            /\ _sha256_bytes env rules_bytes <> sha256_rules pack))
    /\ files w2 = files w.
Proof.
  intros Hm Hr Hbad.
  assert (files w2 = files w) as Hfiles.
  { destruct (fetch_bytes_world _ _ _ _ _ Hm) as [<- _].
    by destruct (fetch_bytes_world _ _ _ _ _ Hr) as [<- _]. }
  unfold install_pack. rewrite bind_run, Hm, bind_run, Hr.
  destruct (String.eqb_spec (_sha256_bytes env manifest_bytes) (sha256_manifest pack))
    as [Heq|Hne]; cbn [negb].
  - destruct Hbad as [Hbad|Hbad]; [done|].
    destruct (String.eqb_spec (_sha256_bytes env rules_bytes) (sha256_rules pack));
      [done|]. exists "rules". auto.
  - exists "manifest". auto.
Qed.

(** ** Catalog fetcher *)

Section Catalog.

Variable env : Env.

Lemma pack_info_complete p :
  complete p = true -> pack_info env p = inr (descriptor env p).
Proof.
  unfold complete, required_fields, has_field, descriptor, pack_info.
  cbn [forallb]. destruct p as [| | | | |d]; try done. cbn [field].
  unfold json_item, json_get.
  destruct (dict_get d "id"), (dict_get d "manifest_url"),
    (dict_get d "rules_url"), (dict_get d "sha256_manifest"),
    (dict_get d "sha256_rules"); try done.
  intros _. cbn. by destruct (dict_get d "title"), (dict_get d "version").
Qed.

Lemma pack_info_incomplete p :
  complete p = false -> exists e, pack_info env p = inl e.
Proof.
  unfold complete, required_fields, has_field, pack_info.
  cbn [forallb]. destruct p as [| | | | |d]; try (by eexists). cbn [field].
  unfold json_item, json_get.
  destruct (dict_get d "id"), (dict_get d "manifest_url"),
    (dict_get d "rules_url"), (dict_get d "sha256_manifest"),
    (dict_get d "sha256_rules"); try done; intros _; cbn; by eexists.
Qed.

Lemma pack_infos_complete items : forall out,
  Forall (fun p => complete p = true) items ->
  pack_infos env out items = inr (out ++ map (descriptor env) items).
Proof.
  induction items as [|p items IH]; intros out Hall; cbn [pack_infos map].
  - by rewrite app_nil_r.
  - apply Forall_cons in Hall as [Hp Hrest].
    rewrite (pack_info_complete p Hp). cbn. rewrite IH by done.
    by rewrite <- app_assoc.
Qed.

Lemma pack_infos_incomplete items p : forall out,
  p ∈ items -> complete p = false -> exists e, pack_infos env out items = inl e.
Proof.
  induction items as [|q items IH]; intros out Hin Hp; [by apply elem_of_nil in Hin|].
  cbn [pack_infos]. destruct (pack_info env q) as [e|info] eqn:Hq; [by exists e|].
  cbn. apply IH; [|done]. apply elem_of_cons in Hin as [->|Hin]; [|done].
  destruct (pack_info_incomplete q Hp) as [e He]. congruence.
Qed.

End Catalog.

(** C4: once the catalog document is fetched and its entries are at hand,
    one entry that lacks a required field makes [fetch_index] raise, with no
    list returned; when every entry has the required fields the result is
    the list of their descriptors, in which a missing title is the id, a
    missing version is "0.0.0" and both digests are in lower case. *)
Theorem fetch_index_atomic (env : Env) (url : string) (w w1 : World)
    (idx : json) (items : list json) :
  _fetch_json env url w = (inr idx, w1) ->
  (json_get idx "packs" (JList []) ≫= json_iter) = inr items ->
  (forall p, p ∈ items -> complete p = false ->
     exists e, fetch_index env url w = (inl e, w1))
  /\ (Forall (fun p => complete p = true) items ->
      fetch_index env url w = (inr (map (descriptor env) items), w1))
  /\ (forall p,
        (field p "title" = None -> title (descriptor env p) = id (descriptor env p))
        /\ (field p "version" = None -> version (descriptor env p) = "0.0.0")
        /\ sha256_manifest (descriptor env p)
           = Py.lower (str env (default JNull (field p "sha256_manifest")))
        /\ sha256_rules (descriptor env p)
           = Py.lower (str env (default JNull (field p "sha256_rules")))
        /\ Py.lower (sha256_manifest (descriptor env p))
           = sha256_manifest (descriptor env p)
        /\ Py.lower (sha256_rules (descriptor env p))
           = sha256_rules (descriptor env p)).
Proof.
  intros Hfetch Hitems.
  assert (fetch_index env url w = (pack_infos env [] items, w1)) as Hrun.
  { unfold fetch_index. rewrite bind_run, Hfetch. unfold lift. f_equal.
    revert Hitems. destruct (json_get idx "packs" (JList [])) as [e|packs]; [done|].
    cbn. destruct (json_iter packs) as [e|l]; [done|]. by intros [= ->]. }
  split; [|split].
  - intros p Hin Hp. rewrite Hrun.
    destruct (pack_infos_incomplete env items p [] Hin Hp) as [e ->]. by exists e.
  - intros Hall. by rewrite Hrun, pack_infos_complete.
  - intros p. unfold descriptor. cbn.
    repeat split; try (by intros ->); apply lower_idem.
Qed.

(** ** Local store *)

Lemma elem_of_children (fs : gmap path node) (d p : path) :
  p ∈ children fs d <-> (exists n, p = n :: d) /\ is_Some (fs !! p).
Proof.
  unfold children. rewrite list_elem_of_omap. split.
  - intros (q & Hq & Hc). apply list_elem_of_fmap in Hq as ([q' x] & -> & Hx).
    apply elem_of_map_to_list in Hx. cbn in Hc. unfold child_of in Hc.
    destruct q' as [|n q']; [done|]. case_decide; [|done].
    injection Hc as <-. subst. split; [by exists n|by exists x].
  - intros [[n ->] [x Hx]]. exists (n :: d). split.
    + apply list_elem_of_fmap. exists (n :: d, x). split; [done|].
      by apply elem_of_map_to_list.
    + cbn. by rewrite decide_True.
Qed.

Section Store.

Variable env : Env.
Variable self : GuidelinesManager.

Lemma installed_entry_run out d w :
  installed_entry env out d w = (inr (record_entry env (files w) out d), w).
Proof.
  unfold installed_entry, record_entry, manifest_version.
  rewrite bind_run. unfold is_dir at 1.
  destruct (files w !! d) as [[text0|]|] eqn:Hd; cbn [negb]; try done.
  rewrite bind_run. unfold path_exists at 1.
  destruct (files w !! ("manifest.json" :: d)) as [[text|]|] eqn:Hm.
  - rewrite bool_decide_true by done. cbn [negb].
    unfold try_except. rewrite bind_run. unfold read_bytes. rewrite Hm.
    rewrite bind_run. unfold lift, json_loads.
    destruct (loads_utf8 env text) as [j|]; [|done].
    rewrite bind_run. by destruct j.
  - rewrite bool_decide_true by done. cbn [negb].
    unfold try_except. rewrite bind_run. unfold read_bytes. by rewrite Hm.
  - rewrite bool_decide_false by by intros [? ?]. done.
Qed.

Lemma for_fold_installed l : forall out w,
  for_fold l out (installed_entry env) w
  = (inr (fold_left (record_entry env (files w)) l out), w).
Proof.
  induction l as [|d l IH]; intros out w; [done|].
  cbn [for_fold fold_left]. by rewrite bind_run, installed_entry_run, IH.
Qed.

Lemma fold_record_lookup fs g l : forall out n,
  (forall d, d ∈ l -> exists m, d = m :: g) ->
  fold_left (record_entry env fs) l out !! n
  = match manifest_version env fs (n :: g) with
    | Some v => if decide ((n :: g) ∈ l) then Some v else out !! n
    | None => out !! n
    end.
Proof.
  induction l as [|d l IH]; intros out n Hl; cbn [fold_left].
  - destruct (manifest_version env fs (n :: g)); [|done].
    rewrite decide_False; [done|]. apply not_elem_of_nil.
  - rewrite IH by (intros d' Hd'; apply Hl; by right).
    destruct (Hl d) as [m ->]; [by left|]. unfold record_entry.
    destruct (decide (m = n)) as [->|Hne].
    + destruct (manifest_version env fs (n :: g)) as [v|]; [|done].
      destruct (decide ((n :: g) ∈ (n :: g) :: l)) as [_|Hc];
        [|exfalso; apply Hc; by left].
      case_decide; [done|]. cbn. by rewrite lookup_insert_eq.
    + assert ((n :: g) ∈ (m :: g) :: l <-> (n :: g) ∈ l) as Hiff.
      { rewrite elem_of_cons. split; [|by right]. by intros [[=]|?]. }
      assert (record_entry env fs out (m :: g) !! n = out !! n) as Hout.
      { unfold record_entry. destruct (manifest_version env fs (m :: g)); [|done].
        cbn. by rewrite lookup_insert_ne. }
      fold (record_entry env fs out (m :: g)). rewrite Hout.
      destruct (manifest_version env fs (n :: g)) as [v|]; [|done].
      destruct (decide ((n :: g) ∈ l)), (decide ((n :: g) ∈ (m :: g) :: l));
        tauto.
Qed.

Lemma list_installed_run w :
  files w !! guidelines_dir self = Some Dir ->
  exists out,
    list_installed env self w = (inr out, w)
    /\ forall n, out !! n = manifest_version env (files w) (n :: guidelines_dir self).
Proof.
  intros Hroot. eexists. split.
  - unfold list_installed. rewrite bind_run. unfold iterdir. rewrite Hroot.
    apply for_fold_installed.
  - intros n. rewrite (fold_record_lookup _ (guidelines_dir self)).
    + destruct (manifest_version env (files w) (n :: guidelines_dir self))
        as [v|] eqn:Hv; [|done].
      rewrite decide_True; [done|]. apply elem_of_children. split; [by exists n|].
      unfold manifest_version in Hv.
      destruct (files w !! (n :: guidelines_dir self)); [by eexists|done].
    + intros d Hd. by apply elem_of_children in Hd as [? _].
Qed.

End Store.

(** The hypothesis of the next theorem holds once the manager is made. *)
Lemma init_store_root (self : GuidelinesManager) (w w' : World) :
  __init__ self w = (inr tt, w') -> files w' !! guidelines_dir self = Some Dir.
Proof.
  unfold __init__. destruct (guidelines_dir self) as [|c parent];
    cbn [mkdir_parents].
  - destruct (files w !! []) as [[|]|] eqn:Hp; intros [= <-]; [done|].
    cbn. by rewrite lookup_insert_eq.
  - destruct (files w !! (c :: parent)) as [[|]|] eqn:Hp;
      [by intros [=]|by intros [= <-]|].
    destruct (mkdir_parents parent w) as [[e|[]] w1].
    + by destruct e.
    + intros [= <-]. cbn. by rewrite lookup_insert_eq.
Qed.

(** C7: when the store root is a directory, [list_installed] returns, and
    changes nothing; its mapping has exactly the subdirectories whose
    manifest is a file that parses to an object, each with the text of its
    version field, "0.0.0" when the field is absent; a subdirectory without
    manifest, or with one that does not parse, is left out. *)
Theorem list_installed_spec (env : Env) (self : GuidelinesManager) (w : World) :
  files w !! guidelines_dir self = Some Dir ->
  exists out,
    list_installed env self w = (inr out, w)
    /\ (forall n v,
          out !! n = Some v <->
          files w !! (n :: guidelines_dir self) = Some Dir
          /\ exists text fields,
               files w !! ("manifest.json" :: n :: guidelines_dir self)
               = Some (File text)
               /\ loads_utf8 env text = Some (JDict fields)
               /\ v = match dict_get fields "version" with
                      | Some j => str env j
                      | None => "0.0.0"
                      end)
    /\ (forall n,
          files w !! ("manifest.json" :: n :: guidelines_dir self) = None ->
          out !! n = None)
    /\ (forall n text,
          files w !! ("manifest.json" :: n :: guidelines_dir self)
          = Some (File text) ->
          loads_utf8 env text = None ->
          out !! n = None).
Proof.
  intros Hroot. destruct (list_installed_run env self w Hroot) as (out & Hrun & Hout).
  exists out. split; [done|]. split; [|split].
  - intros n v. rewrite Hout. unfold manifest_version. split.
    + destruct (files w !! (n :: guidelines_dir self)) as [[|]|]; try done.
      destruct (files w !! ("manifest.json" :: n :: guidelines_dir self))
        as [[text|]|]; try done.
      destruct (loads_utf8 env text) as [[| | | | |fields]|] eqn:Hj; try done.
      intros [= <-]. split; [done|]. exists text, fields.
      by destruct (dict_get fields "version").
    + intros (-> & text & fields & -> & -> & ->).
      by destruct (dict_get fields "version").
  - intros n Hm. rewrite Hout. unfold manifest_version. rewrite Hm.
    by destruct (files w !! (n :: guidelines_dir self)) as [[|]|].
  - intros n text Hm Hj. rewrite Hout. unfold manifest_version. rewrite Hm, Hj.
    by destruct (files w !! (n :: guidelines_dir self)) as [[|]|].
Qed.

(** *** Seeding *)

Lemma same_under_refl d w : same_under d w w.
Proof. by split. Qed.

Lemma same_under_trans d w1 w2 w3 :
  same_under d w1 w2 -> same_under d w2 w3 -> same_under d w1 w3.
Proof.
  intros [Hr1 Hf1] [Hr2 Hf2]. split; [congruence|].
  intros rest. by rewrite Hf2, Hf1.
Qed.

Lemma mkdir_parents_changes p : forall w r w',
  mkdir_parents p w = (r, w') ->
  requests w' = requests w
  /\ forall q, files w' !! q = files w !! q
               \/ (q `suffix_of` p /\ files w !! q = None).
Proof.
  induction p as [|c parent IH]; intros w r w'; cbn [mkdir_parents].
  - destruct (files w !! []) as [[|]|] eqn:Hp; intros [= <- <-];
      (split; [done|]); intros q; [by left..|].
    cbn. destruct (decide (q = [])) as [->|Hne].
    + right. by split.
    + left. by rewrite lookup_insert_ne.
  - destruct (files w !! (c :: parent)) as [[|]|] eqn:Hp;
      [intros [= <- <-]; split; [done|]; by left..|].
    destruct (mkdir_parents parent w) as [[e|[]] w1] eqn:Hrec;
      destruct (IH _ _ _ Hrec) as [Hreq Hfiles].
    + intros Hrun. assert (w' = w1) as -> by (destruct e; congruence).
      split; [done|]. intros q.
      destruct (Hfiles q) as [?|[Hs ?]]; [by left|right].
      split; [by apply suffix_cons_r|done].
    + intros [= <- <-]. split; [done|]. intros q. cbn.
      destruct (decide (q = c :: parent)) as [->|Hne]; [right; by split|].
      rewrite lookup_insert_ne by done.
      destruct (Hfiles q) as [?|[Hs ?]]; [by left|right].
      split; [by apply suffix_cons_r|done].
Qed.

Lemma under_not_above (rest g : path) (n m : string) :
  rest ++ n :: g `suffix_of` m :: g -> rest = [] /\ n = m.
Proof.
  intros [k Hk]. apply (f_equal length) in Hk as Hlen.
  rewrite !length_app in Hlen. cbn in Hlen.
  destruct k; [|cbn in Hlen; lia]. destruct rest; [|cbn in Hlen; lia].
  cbn in Hk. by injection Hk as ->.
Qed.

Lemma under_not_file (rest g : path) (n m fname : string) :
  rest ++ n :: g = fname :: m :: g -> n = m.
Proof.
  intros H. apply (f_equal length) in H as Hlen.
  rewrite length_app in Hlen. cbn in Hlen.
  destruct rest as [|a [|b rest]]; cbn in *;
    [lia| |rewrite ?length_app in Hlen; cbn in Hlen; lia].
  by injection H as _ ->.
Qed.

Lemma write_bytes_changes p b w r w' :
  write_bytes p b w = (r, w') ->
  requests w' = requests w /\ forall q, q <> p -> files w' !! q = files w !! q.
Proof.
  unfold write_bytes.
  destruct (files w !! p) as [[|]|], p as [|c parent];
    try (intros [= <- <-]; by split);
    (destruct (files w !! parent) as [[|]|]; intros [= <- <-]; split; try done;
     intros q Hq; cbn; by rewrite lookup_insert_ne).
Qed.

Section Seeding.

Variable self : GuidelinesManager.

(** An installed pack directory: the store has [n], whatever it holds. *)
Variable n : string.

Local Abbreviation installed_dir := (n :: guidelines_dir self).

Lemma seed_file_frame pack_dir m fname w r w' :
  m <> n ->
  seed_file pack_dir (m :: guidelines_dir self) fname w = (r, w') ->
  same_under installed_dir w w'.
Proof.
  intros Hne. unfold seed_file. rewrite bind_run. unfold path_exists at 1.
  destruct (bool_decide _); [|intros [= <- <-]; apply same_under_refl].
  rewrite bind_run. unfold read_bytes.
  destruct (files w !! (fname :: pack_dir)) as [[b|]|];
    try (intros [= <- <-]; apply same_under_refl).
  intros Hw. apply write_bytes_changes in Hw as [Hreq Hfiles].
  split; [done|]. intros rest. apply Hfiles.
  intros Heq%under_not_file. by apply Hne.
Qed.

Lemma seed_files_frame pack_dir m fnames : forall w r w',
  m <> n ->
  for_each fnames (seed_file pack_dir (m :: guidelines_dir self)) w = (r, w') ->
  same_under installed_dir w w'.
Proof.
  induction fnames as [|fname fnames IH]; intros w r w' Hne; cbn [for_each].
  - intros [= <- <-]. apply same_under_refl.
  - rewrite bind_run.
    destruct (seed_file _ _ fname w) as [[e|[]] w1] eqn:H1.
    + intros [= <- <-]. by eapply seed_file_frame.
    + intros H2. eapply same_under_trans; [by eapply seed_file_frame|].
      by eapply IH.
Qed.

Lemma seed_pack_frame pack_dir w r w' :
  is_Some (files w !! installed_dir) ->
  seed_pack self pack_dir w = (r, w') ->
  same_under installed_dir w w'.
Proof.
  intros Hn. unfold seed_pack. rewrite bind_run. unfold is_dir at 1.
  destruct (match files w !! pack_dir with Some Dir => true | _ => false end);
    cbn [negb]; [|intros [= <- <-]; apply same_under_refl].
  rewrite bind_run. unfold path_exists at 1.
  destruct (files w !! (name pack_dir :: guidelines_dir self)) as [x|] eqn:Hdest.
  { rewrite bool_decide_true by done. intros [= <- <-]. apply same_under_refl. }
  rewrite bool_decide_false by by intros [? ?].
  assert (name pack_dir <> n) as Hne.
  { intros Heq. rewrite Heq in Hdest. destruct Hn as [y Hy]. congruence. }
  rewrite bind_run.
  destruct (mkdir_parents _ w) as [[e|[]] w1] eqn:Hmk;
    apply mkdir_parents_changes in Hmk as [Hreq Hfiles].
  - intros [= <- <-]. split; [done|]. intros rest.
    destruct (Hfiles (rest ++ installed_dir)) as [?|[Hs Hnone]]; [done|].
    apply under_not_above in Hs as [_ Heq]. by symmetry in Heq.
  - intros Hrun. apply seed_files_frame in Hrun as Hframe; [|done].
    eapply same_under_trans; [|exact Hframe].
    split; [done|]. intros rest.
    destruct (Hfiles (rest ++ installed_dir)) as [?|[Hs Hnone]]; [done|].
    apply under_not_above in Hs as [_ Heq]. by symmetry in Heq.
Qed.

Lemma seed_packs_frame entries : forall w r w',
  is_Some (files w !! installed_dir) ->
  for_each entries (seed_pack self) w = (r, w') ->
  same_under installed_dir w w'.
Proof.
  induction entries as [|d entries IH]; intros w r w' Hn; cbn [for_each].
  - intros [= <- <-]. apply same_under_refl.
  - rewrite bind_run.
    destruct (seed_pack self d w) as [[e|[]] w1] eqn:H1;
      pose proof (seed_pack_frame _ _ _ _ Hn H1) as Hframe.
    + by intros [= <- <-].
    + intros H2. eapply same_under_trans; [exact Hframe|].
      eapply IH; [|exact H2]. destruct Hframe as [_ Hf].
      specialize (Hf []). cbn in Hf. by rewrite Hf.
Qed.

Lemma ensure_builtin_frame w r w' :
  is_Some (files w !! installed_dir) ->
  ensure_builtin_installed self w = (r, w') ->
  same_under installed_dir w w'.
Proof.
  intros Hn. unfold ensure_builtin_installed.
  do 3 (rewrite bind_run; unfold path_exists at 1;
        destruct (bool_decide _); cbn [negb];
        [|intros [= <- <-]; apply same_under_refl]).
  rewrite bind_run. unfold iterdir.
  destruct (files w !! ("packs" :: builtin_dir self)) as [[|]|];
    try (intros [= <- <-]; apply same_under_refl).
  by apply seed_packs_frame.
Qed.

End Seeding.

(** C8: seeding the builtin packs leaves an installed pack directory, and
    every path below it, as it was, whatever the builtin source holds under
    the same name and however the call ends; so a path of the store that
    seeding changed lies under a pack name that was absent from it. *)
Theorem seeding_keeps_installed (self : GuidelinesManager) (w w' : World)
    (r : E unit) :
  ensure_builtin_installed self w = (r, w') ->
  (forall n rest,
      is_Some (files w !! (n :: guidelines_dir self)) ->
      files w' !! (rest ++ n :: guidelines_dir self)
      = files w !! (rest ++ n :: guidelines_dir self))
  /\ (forall n rest,
        files w' !! (rest ++ n :: guidelines_dir self)
        <> files w !! (rest ++ n :: guidelines_dir self) ->
        files w !! (n :: guidelines_dir self) = None).
Proof.
  intros Hrun.
  assert (forall n rest,
            is_Some (files w !! (n :: guidelines_dir self)) ->
            files w' !! (rest ++ n :: guidelines_dir self)
            = files w !! (rest ++ n :: guidelines_dir self)) as Hkeep.
  { intros n rest Hn.
    by destruct (ensure_builtin_frame self n w r w' Hn Hrun) as [_ ->]. }
  split; [done|]. intros n rest Hchanged.
  destruct (files w !! (n :: guidelines_dir self)) as [x|] eqn:Hn; [|done].
  destruct Hchanged. apply Hkeep. by rewrite Hn.
Qed.

(** *** Reading the rules *)

Section PurePaths.

Lemma split_one_name s :
  forallb (fun c => negb (Ascii.eqb c "/" || Ascii.eqb c Ascii.zero))
    (list_ascii_of_string s) = true ->
  Py.split "/" s = [s] /\ has_nul s = false.
Proof.
  induction s as [|c r IH]; [done|]. cbn [list_ascii_of_string forallb].
  intros [Hc Hr]%andb_prop. destruct (IH Hr) as [Hsplit Hnul].
  apply negb_true_iff, orb_false_iff in Hc as [Hslash Hzero].
  cbn [Py.split has_nul]. by rewrite Hslash, Hzero, Hsplit, Hnul.
Qed.

Lemma plain_name_parts s :
  plain_name s = true ->
  parts s = [s] /\ Py.startswith "/" s = false /\ has_nul s = false
  /\ String.eqb s ".." = false.
Proof.
  unfold plain_name. intros [Hs Hchars]%andb_prop.
  apply negb_true_iff, orb_false_iff in Hs as [Hs Hdots].
  apply orb_false_iff in Hs as [Hempty Hdot].
  destruct (split_one_name s Hchars) as [Hsplit Hnul].
  unfold parts. rewrite Hsplit. cbn [List.filter]. rewrite Hempty, Hdot.
  repeat split; try done.
  destruct s as [|c r]; [done|]. cbn [list_ascii_of_string forallb] in Hchars.
  apply andb_prop in Hchars as [Hc _].
  apply negb_true_iff, orb_false_iff in Hc as [Hslash _].
  cbn [Py.startswith]. rewrite Ascii.eqb_sym in Hslash. by rewrite Hslash.
Qed.

(** A name joined to a path is one more component. *)
Lemma joinpath_plain p s :
  plain_name s = true -> joinpath p s = mkPure (anchor p) (s :: steps p).
Proof.
  intros (Hparts & Hstart & _)%plain_name_parts.
  unfold joinpath. by rewrite Hstart, Hparts.
Qed.

Lemma walk_app fs : forall l1 cur l2,
  walk fs cur (l1 ++ l2)
  = match walk fs cur l1 with
    | inr q => walk fs q l2
    | inl e => inl e
    end.
Proof.
  induction l1 as [|c l1 IH]; intros cur l2; [done|]. cbn [app walk].
  destruct (fs !! cur) as [[|]|]; [done| |done]. apply IH.
Qed.

(** Where a path leads when a name is appended to it. *)
Lemma locate_child fs a s n :
  plain_name n = true ->
  locate fs (mkPure a (n :: s))
  = match locate fs (mkPure a s) with
    | inr q =>
        match fs !! q with
        | Some Dir => inr (n :: q)
        | Some (File _) => inl NotADirectoryError
        | None => inl FileNotFoundError
        end
    | inl e => inl e
    end.
Proof.
  intros (_ & _ & Hnul & Hdots)%plain_name_parts. unfold locate.
  cbn [steps anchor existsb]. rewrite Hnul. cbn [orb].
  destruct (existsb has_nul s); [done|].
  cbn [rev]. rewrite walk_app. destruct (walk fs a (rev s)) as [e|q]; [done|].
  cbn [walk]. rewrite Hdots. by destruct (fs !! q) as [[|]|].
Qed.

(** In a well-formed file system the rules document of a pack whose id is
    one name is the node "rules.json" of the child of the store root that
    has this name. *)
Lemma rules_document_plain self pack_id fs :
  plain_name pack_id = true -> well_formed fs ->
  node_at fs (rules_document self pack_id)
  = fs !! ("rules.json" :: pack_id :: guidelines_dir self).
Proof.
  intros Hplain Hwf. unfold node_at, stat, rules_document, pack_directory.
  rewrite (joinpath_plain _ pack_id Hplain), (joinpath_plain _ "rules.json") by done.
  cbn [from_dir anchor steps]. rewrite !locate_child by done.
  unfold locate. cbn.
  destruct (fs !! ("rules.json" :: pack_id :: guidelines_dir self))
    as [n|] eqn:Hn.
  - pose proof (Hwf _ _ (mk_is_Some _ _ Hn)) as Hd.
    pose proof (Hwf _ _ (mk_is_Some _ _ Hd)) as Hg.
    rewrite Hg, Hd. cbn. by rewrite Hn.
  - destruct (fs !! guidelines_dir self) as [[|]|]; [done| |done].
    destruct (fs !! (pack_id :: guidelines_dir self)) as [[|]|]; [done| |done].
    cbn. by rewrite Hn.
Qed.

(** The same when the store root and the pack directory are known to be
    directories. *)
Lemma rules_document_in_dir self pack_id fs :
  plain_name pack_id = true ->
  fs !! guidelines_dir self = Some Dir ->
  fs !! (pack_id :: guidelines_dir self) = Some Dir ->
  node_at fs (rules_document self pack_id)
  = fs !! ("rules.json" :: pack_id :: guidelines_dir self).
Proof.
  intros Hplain Hg Hd. unfold node_at, stat, rules_document, pack_directory.
  rewrite (joinpath_plain _ pack_id Hplain), (joinpath_plain _ "rules.json") by done.
  cbn [from_dir anchor steps]. rewrite !locate_child by done.
  unfold locate. cbn. rewrite Hg, Hd. cbn.
  by destruct (fs !! ("rules.json" :: pack_id :: guidelines_dir self)).
Qed.

End PurePaths.

(** How a text is joined: a slash at the end and "." are dropped, a slash
    inside makes two components, the empty text adds nothing, a leading
    slash starts at the root, and [..] is kept for the operating system. *)
Example joinpath_texts :
  joinpath (from_dir ["g"]) "core/" = mkPure ["g"] ["core"]
  /\ joinpath (from_dir ["g"]) "./a//b/." = mkPure ["g"] ["b"; "a"]
  /\ joinpath (from_dir ["g"]) "" = mkPure ["g"] []
  /\ joinpath (from_dir ["g"]) "/abs/x" = mkPure [] ["x"; "abs"]
  /\ joinpath (from_dir ["g"]) "../x" = mkPure ["g"] ["x"; ".."].
Proof. by repeat split. Qed.

(** The rules document of a pack named with a slash at its end, or reached
    through [..], is that of the pack; with the empty id it is looked for in
    the store root; a path through a missing directory leads nowhere. *)
Example read_pack_rules_texts :
  read_pack_rules demo_env shipped_self "core/" demo_world
  = (inr (JList []), demo_world)
  /\ rules_document shipped_self ""
     = mkPure ["packs"; "guidelines_builtin"; "app"] ["rules.json"]
  /\ read_pack_rules demo_env shipped_self "extra/../core" demo_world
     = (inr (JList []), demo_world)
  /\ node_at (files demo_world) (rules_document shipped_self "extra/../core")
     = Some (File doc_array)
  /\ node_at (files demo_world) (rules_document shipped_self "absent/../core")
     = None.
Proof. by vm_compute. Qed.

Lemma read_pack_rules_run (env : Env) (self : GuidelinesManager)
    (pack_id : string) (w : World) :
  read_pack_rules env self pack_id w
  = (match node_at (files w) (rules_document self pack_id) with
     | None => inr (JList [])
     | Some (File text) => json_loads env text
     | Some Dir => inl IsADirectoryError
     end, w).
Proof.
  unfold read_pack_rules, node_at, rules_document, pack_directory. cbv zeta.
  generalize (joinpath (joinpath (from_dir (guidelines_dir self)) pack_id)
                "rules.json") as p.
  intros p. rewrite bind_run.
  unfold exists_at at 1, stat.
  destruct (locate (files w) p) as [e|q] eqn:Hq; [done|]. cbn.
  destruct (files w !! q) as [[text|]|] eqn:Hp; cbn; [| |done].
  - rewrite bind_run. unfold read_at. rewrite Hq. unfold read_bytes.
    by rewrite Hp.
  - rewrite bind_run. unfold read_at. rewrite Hq. unfold read_bytes.
    by rewrite Hp.
Qed.

(** C10: [read_pack_rules] returns the empty list without reading anything
    when the rules document is absent; when it is a file the result is what
    the parser makes of it, so a malformed document raises the parse error
    to the caller and is never turned into the empty list, while a document
    that parses to the empty list is returned as it is; the empty list is
    returned in these two cases only.  The world is unchanged in every
    case.  For a pack id that is one name, in a well-formed file system,
    the rules document is the node "rules.json" of the pack directory. *)
Theorem read_pack_rules_spec (env : Env) (self : GuidelinesManager)
    (pack_id : string) (w : World) :
  (node_at (files w) (rules_document self pack_id) = None ->
   read_pack_rules env self pack_id w = (inr (JList []), w))
  /\ (forall text,
        node_at (files w) (rules_document self pack_id) = Some (File text) ->
        read_pack_rules env self pack_id w
        = (match loads_utf8 env text with
           | Some rules => inr rules
           | None => inl DecodeError
           end, w))
  /\ (forall text,
        node_at (files w) (rules_document self pack_id) = Some (File text) ->
        loads_utf8 env text = None ->
        read_pack_rules env self pack_id w = (inl DecodeError, w))
  /\ (read_pack_rules env self pack_id w = (inr (JList []), w) ->
      node_at (files w) (rules_document self pack_id) = None
      \/ exists text,
           node_at (files w) (rules_document self pack_id) = Some (File text)
           /\ loads_utf8 env text = Some (JList []))
  /\ (plain_name pack_id = true -> well_formed (files w) ->
      node_at (files w) (rules_document self pack_id)
      = files w !! ("rules.json" :: pack_id :: guidelines_dir self)).
Proof.
  rewrite read_pack_rules_run. unfold json_loads.
  split; [|split; [|split; [|split]]].
  - by intros ->.
  - by intros text ->.
  - by intros text -> ->.
  - destruct (node_at (files w) (rules_document self pack_id)) as [[text|]|];
      [|done|by left].
    intros H. right. exists text. split; [done|].
    destruct (loads_utf8 env text); [by injection H as ->|done].
  - apply rules_document_plain.
Qed.

(** ** Content addressing *)

(** C9: the digest is a function of the bytes, and the file hash of the
    index builder is the digest the installer computes on the same bytes:
    the entry the builder makes for a pack directory carries the installer's
    digests of the manifest and rules files, and the descriptor read back
    from that entry carries them in lower case. *)
Theorem digest_agreement (env : Env) (pack_dir : path) (w : World)
    (manifest_bytes rules_bytes : bytes) (fields : list (string * json)) :
  files w !! ("manifest.json" :: pack_dir) = Some (File manifest_bytes) ->
  files w !! ("rules.json" :: pack_dir) = Some (File rules_bytes) ->
  loads_utf8 env manifest_bytes = Some (JDict fields) ->
  (forall b1 b2, b1 = b2 -> _sha256_bytes env b1 = _sha256_bytes env b2)
  /\ sha256_file env ("manifest.json" :: pack_dir) w
     = (inr (_sha256_bytes env manifest_bytes), w)
  /\ sha256_file env ("rules.json" :: pack_dir) w
     = (inr (_sha256_bytes env rules_bytes), w)
  /\ exists entry,
       index_entry env pack_dir w = (inr (Some entry), w)
       /\ field entry "sha256_manifest" = Some (JStr (_sha256_bytes env manifest_bytes))
       /\ field entry "sha256_rules" = Some (JStr (_sha256_bytes env rules_bytes))
       /\ complete entry = true
       /\ sha256_manifest (descriptor env entry)
          = Py.lower (_sha256_bytes env manifest_bytes)
       /\ sha256_rules (descriptor env entry)
          = Py.lower (_sha256_bytes env rules_bytes).
Proof.
  intros Hm Hr Hj.
  assert (forall p b, files w !! p = Some (File b) ->
            sha256_file env p w = (inr (_sha256_bytes env b), w)) as Hsha.
  { intros p b Hp. unfold sha256_file. rewrite bind_run.
    unfold read_bytes. by rewrite Hp. }
  split; [by intros ?? ->|]. split; [by apply Hsha|]. split; [by apply Hsha|].
  eexists. split.
  - unfold index_entry. rewrite bind_run. unfold path_exists at 1.
    rewrite Hm, bool_decide_true by done. rewrite bind_run.
    unfold path_exists at 1. rewrite Hr, bool_decide_true by done.
    cbn [negb]. rewrite bind_run. unfold read_bytes at 1. rewrite Hm.
    rewrite bind_run. unfold lift at 1, json_loads. rewrite Hj.
    unfold lift, json_get.
    repeat (first [rewrite bind_run | rewrite (Hsha _ _ Hm) | rewrite (Hsha _ _ Hr)];
            cbv beta iota).
    reflexivity.
  - done.
Qed.

Example demo_seed_run :
  let (r, w') := ensure_builtin_installed demo_self demo_world in
  r = inr tt
  /\ files w' !! ["manifest.json"; "extra"; "guidelines"; "Continuum"]
     = Some (File doc_object)
  /\ files w' !! ["rules.json"; "core"; "guidelines"; "Continuum"]
     = Some (File doc_open_array).
Proof. vm_compute. done. Qed.

Example demo_install_run :
  let good := mkPackInfo "A" "Pack A" "1.0.0" "https://example/A/manifest.json"
                "https://example/A/rules.json" (demo_sha256 doc_object)
                (demo_sha256 doc_array) in
  let (r, w') := install_pack demo_env demo_self good demo_world in
  r = inr tt
  /\ files w' !! ["rules.json"; "A"; "guidelines"; "Continuum"]
     = Some (File doc_array).
Proof. vm_compute. done. Qed.

(** * Instances of the theorems *)

Lemma install_pack_integrity_witness :
  exists artifact,
    install_pack demo_env demo_self tampered_pack demo_world
    = (inl (ValueError (artifact +:+ " SHA mismatch for " +:+ "A")),
       mkWorld demo_files
         ["https://example/A/manifest.json"; "https://example/A/rules.json"])
    /\ ((artifact = "manifest"
         /\ _sha256_bytes demo_env doc_object <> sha256_manifest tampered_pack)
        \/ (artifact = "rules"
            /\ _sha256_bytes demo_env doc_array <> sha256_rules tampered_pack))
    /\ demo_files = demo_files.
Proof.
  apply (install_pack_integrity demo_env demo_self tampered_pack demo_world
           (mkWorld demo_files ["https://example/A/manifest.json"])).
  - reflexivity.
  - reflexivity.
  - right. vm_compute. discriminate.
Defined.

Lemma non_https_refused_witness :
  fetch_index demo_env "http://example/index.json" demo_world
  = (inl (refused "http://example/index.json"), demo_world).
Proof.
  apply (non_https_refused demo_env "http://example/index.json" demo_world).
  vm_compute. discriminate.
Defined.

Lemma plan_updates_spec_witness :
  mkPackUpdate pack_B None
  ∈ plan_updates demo_env [pack_A; pack_B] {["A" := "1.0.0"]}.
Proof.
  apply (proj1 (proj2 (proj2
    (plan_updates_spec demo_env [pack_A; pack_B] {["A" := "1.0.0"]})))).
  split.
  - right. left.
  - reflexivity.
Defined.

Lemma fetch_index_atomic_witness :
  exists e,
    fetch_index demo_env "https://example/index.json" demo_world
    = (inl e, mkWorld demo_files ["https://example/index.json"]).
Proof.
  apply (proj1 (fetch_index_atomic demo_env "https://example/index.json"
                  demo_world (mkWorld demo_files ["https://example/index.json"])
                  (JDict [("packs", JList [JDict []])]) [JDict []]
                  eq_refl eq_refl) (JDict [])).
  - left.
  - reflexivity.
Defined.

Lemma list_installed_spec_witness :
  exists out,
    list_installed demo_env demo_self demo_world = (inr out, demo_world)
    /\ out !! "core" = Some "0.0.0"
    /\ out !! "broken" = None.
Proof.
  destruct (list_installed_spec demo_env demo_self demo_world)
    as (out & Hrun & Hiff & _ & Hcorrupt).
  - vm_compute. reflexivity.
  - exists out. split; [exact Hrun|]. split.
    + apply Hiff. split; [vm_compute; reflexivity|].
      exists doc_object, []. repeat split; vm_compute; reflexivity.
    + apply (Hcorrupt "broken" doc_open_object); vm_compute; reflexivity.
Defined.

Lemma seeding_keeps_installed_witness :
  files (ensure_builtin_installed demo_self demo_world).2
    !! (["rules.json"] ++ "core" :: guidelines_dir demo_self)
  = files demo_world !! (["rules.json"] ++ "core" :: guidelines_dir demo_self).
Proof.
  apply (proj1 (seeding_keeps_installed demo_self demo_world
                  (ensure_builtin_installed demo_self demo_world).2
                  (ensure_builtin_installed demo_self demo_world).1
                  (surjective_pairing _)) "core" ["rules.json"]).
  exists Dir. vm_compute. reflexivity.
Defined.

Lemma read_pack_rules_spec_witness :
  read_pack_rules demo_env demo_self "core" demo_world
  = (inl DecodeError, demo_world).
Proof.
  apply (proj1 (proj2 (proj2
    (read_pack_rules_spec demo_env demo_self "core" demo_world)))
    doc_open_array).
  - vm_compute. reflexivity.
  - reflexivity.
Defined.

(** C10 as the specification words it does not hold: the rules document of
    the shipped pack "core" is present, it holds the empty array, and the
    empty list is returned. *)
Lemma read_pack_rules_empty_document :
  read_pack_rules demo_env shipped_self "core" demo_world
  = (inr (JList []), demo_world)
  /\ files demo_world
       !! ["rules.json"; "core"; "packs"; "guidelines_builtin"; "app"]
     = Some (File doc_array)
  /\ node_at (files demo_world) (rules_document shipped_self "core")
     = Some (File doc_array).
Proof. by vm_compute. Qed.

Lemma digest_agreement_witness :
  sha256_file demo_env
    ["manifest.json"; "core"; "packs"; "guidelines_builtin"; "app"] demo_world
  = (inr "44136fa355b3678a1146ad16f7e8649e94fb4fc21fe77e8310c060f61caaff8a",
     demo_world).
Proof.
  apply (proj1 (proj2
    (digest_agreement demo_env ["core"; "packs"; "guidelines_builtin"; "app"]
       demo_world doc_object doc_array []
       ltac:(vm_compute; reflexivity) ltac:(vm_compute; reflexivity)
       ltac:(reflexivity)))).
Defined.

(** * Further properties *)

(** ** Version ordering *)

Lemma tuple_gt_irrefl a : Py.tuple_gt a a = false.
Proof. induction a as [|x a IH]; [done|]. cbn. by rewrite Z.eqb_refl. Qed.

Lemma tuple_gt_asym a : forall b,
  Py.tuple_gt a b = true -> Py.tuple_gt b a = false.
Proof.
  induction a as [|x a IH]; intros [|y b]; cbn; try done.
  destruct (Z.eqb_spec x y) as [->|Hne].
  - rewrite Z.eqb_refl. apply IH.
  - destruct (Z.eqb_spec y x); [congruence|]. rewrite !Z.ltb_lt, Z.ltb_ge. lia.
Qed.

Lemma tuple_gt_trans a : forall b c,
  Py.tuple_gt a b = true -> Py.tuple_gt b c = true -> Py.tuple_gt a c = true.
Proof.
  induction a as [|x a IH]; intros [|y b] [|z c]; cbn; try done.
  destruct (Z.eqb_spec x y) as [->|Hxy], (Z.eqb_spec y z) as [->|Hyz];
    rewrite ?Z.eqb_refl.
  - apply IH.
  - destruct (Z.eqb_spec y z); [done|]. by intros _.
  - destruct (Z.eqb_spec x z); [done|]. by intros ? _.
  - rewrite !Z.ltb_lt. intros H1 H2.
    destruct (Z.eqb_spec x z); [lia|]. apply Z.ltb_lt. lia.
Qed.

Lemma tuple_gt_total a : forall b,
  Py.tuple_gt a b = false -> Py.tuple_gt b a = false -> a = b.
Proof.
  induction a as [|x a IH]; intros [|y b]; cbn; try done.
  destruct (Z.eqb_spec x y) as [->|Hxy].
  - rewrite Z.eqb_refl. intros H1 H2. f_equal. by apply IH.
  - destruct (Z.eqb_spec y x); [congruence|]. rewrite !Z.ltb_ge. lia.
Qed.

(** X1: the test "remote is newer than local" of [check_updates] is a strict
    order on version strings: no version is newer than itself, two versions
    are never each newer than the other, the test is transitive, and when
    neither of two versions is newer they parse to the same triple. *)
Theorem newer_strict_order (limit : nat) :
  (forall v, newer limit v v = false)
  /\ (forall a b, newer limit a b = true -> newer limit b a = false)
  /\ (forall a b c,
        newer limit a b = true -> newer limit b c = true ->
        newer limit a c = true)
  /\ (forall a b,
        newer limit a b = false -> newer limit b a = false ->
        _parse_version limit (Some a) = _parse_version limit (Some b)).
Proof.
  unfold newer. repeat split.
  - intros v. apply tuple_gt_irrefl.
  - intros a b. apply tuple_gt_asym.
  - intros a b c. apply tuple_gt_trans.
  - intros a b. apply tuple_gt_total.
Qed.

Lemma newer_strict_order_witness :
  newer 4300 "1.2.0" "1.10.0" = false.
Proof.
  apply (proj1 (proj2 (newer_strict_order 4300)) "1.10.0" "1.2.0").
  reflexivity.
Defined.

(** *** Decimal texts *)

Lemma int_digits_uint d : forall acc,
  0 <= acc ->
  Py.int_digits acc (NilEmpty.string_of_uint d)
  = Some (Z.of_nat (Nat.of_uint_acc d (Z.to_nat acc))).
Proof.
  induction d; intros acc Hacc;
    cbn [NilEmpty.string_of_uint Py.int_digits Nat.of_uint_acc];
    [by rewrite Z2Nat.id|..];
    (match goal with
     | |- context [Py.decimal_value ?c] =>
         let v := eval vm_compute in (Py.decimal_value c) in
         change (Py.decimal_value c) with v
     end);
    cbv beta iota; rewrite IHd by lia; do 2 f_equal; rewrite Nat.tail_mul_spec;
    f_equal; lia.
Qed.

Lemma all_decimal_uint d : all_decimal (NilEmpty.string_of_uint d) = true.
Proof. induction d; cbn; done. Qed.

Lemma decimal_nonempty n : decimal n <> "".
Proof.
  unfold decimal. intros H. pose proof (DecimalNat.Unsigned.of_to n) as Hn.
  destruct (Nat.to_uint n) eqn:Hu; try done.
  cbn in Hn. subst n. done.
Qed.

Lemma int_decimal limit n :
  int_accepts limit (String.length (decimal n)) = true ->
  Py.int limit (decimal n) = Some (Z.of_nat n).
Proof.
  intros Hlen. unfold Py.int. pose proof (decimal_nonempty n) as Hne.
  destruct (decimal n) as [|c r] eqn:Hd; [done|].
  unfold int_accepts in Hlen. apply negb_true_iff in Hlen. rewrite Hlen.
  rewrite <- Hd. unfold decimal. rewrite int_digits_uint by done.
  change (Nat.of_uint_acc ?d (Z.to_nat 0)) with (Nat.of_uint d).
  by rewrite DecimalNat.Unsigned.of_to.
Qed.

Lemma keep_all_decimal s : all_decimal s = true -> Py.keep Py.isdigit s = s.
Proof.
  induction s as [|c s IH]; [done|]. cbn [all_decimal Py.keep].
  intros [Hc Hs]%andb_prop.
  unfold Py.isdigit at 1. rewrite Hc. cbn [orb]. by rewrite IH.
Qed.

Lemma all_decimal_not_dot c :
  Py.between 48 57 (Py.code c) = true -> Ascii.eqb c "." = false.
Proof. by_char c. Qed.

Lemma digit_fields_decimal s :
  all_decimal s = true -> digit_fields s = [s].
Proof.
  induction s as [|c s IH]; [done|]. cbn [all_decimal].
  intros [Hc Hs]%andb_prop.
  rewrite digit_fields_cons, IH by (done || by apply all_decimal_not_dot).
  cbn [cons_head]. unfold Py.isdigit. by rewrite Hc.
Qed.

Lemma digit_fields_decimal_dot s rest :
  all_decimal s = true ->
  digit_fields (s +:+ String "." rest) = s :: digit_fields rest.
Proof.
  induction s as [|c s IH]; [done|]. cbn [all_decimal].
  intros [Hc Hs]%andb_prop.
  change (String c s +:+ ?r) with (String c (s +:+ r)).
  rewrite digit_fields_cons, IH by (done || by apply all_decimal_not_dot).
  cbn [cons_head]. unfold Py.isdigit. by rewrite Hc.
Qed.

Lemma field_value_decimal limit n :
  int_accepts limit (String.length (decimal n)) = true ->
  field_value limit (decimal n) = Z.of_nat n.
Proof. intros H. unfold field_value. by rewrite int_decimal. Qed.

Lemma all_decimal_decimal n : all_decimal (decimal n) = true.
Proof. apply all_decimal_uint. Qed.

Lemma field_value_oversized limit s :
  (640 < String.length s)%nat -> (0 < limit)%nat ->
  (limit < String.length s)%nat ->
  field_value limit s = 0.
Proof.
  intros H1 H2 H3. unfold field_value, Py.int.
  destruct s as [|c r]; [done|].
  apply Nat.ltb_lt in H1, H2, H3. by rewrite H1, H2, H3.
Qed.

(** X2: a version written as one, two or three decimal numbers separated by
    dots parses to these numbers, padded with zeros, and anything after a
    third dot is ignored; each number must be within the digit limit of
    [int]. *)
Theorem parse_version_decimal (limit a b c : nat) :
  int_accepts limit (String.length (decimal a)) = true ->
  int_accepts limit (String.length (decimal b)) = true ->
  int_accepts limit (String.length (decimal c)) = true ->
  _parse_version limit (Some (decimal a)) = [Z.of_nat a; 0; 0]
  /\ _parse_version limit (Some (decimal a +:+ "." +:+ decimal b))
     = [Z.of_nat a; Z.of_nat b; 0]
  /\ _parse_version limit
       (Some (decimal a +:+ "." +:+ decimal b +:+ "." +:+ decimal c))
     = [Z.of_nat a; Z.of_nat b; Z.of_nat c]
  /\ forall rest,
       _parse_version limit
         (Some (decimal a +:+ "." +:+ decimal b +:+ "." +:+ decimal c
                +:+ "." +:+ rest))
       = [Z.of_nat a; Z.of_nat b; Z.of_nat c].
Proof.
  intros Ha Hb Hc.
  pose proof (all_decimal_decimal a). pose proof (all_decimal_decimal b).
  pose proof (all_decimal_decimal c).
  repeat split; [..|intros rest]; rewrite parse_version_fields;
    repeat (match goal with
            | |- context ["." +:+ ?r] => change ("." +:+ r) with (String "." r)
            end);
    rewrite ?digit_fields_decimal_dot, ?digit_fields_decimal by done;
    cbn [map components lookup list_lookup default];
    rewrite ?field_value_decimal by done; done.
Qed.

Lemma parse_version_decimal_witness :
  _parse_version 4300 (Some (decimal 2 +:+ "." +:+ decimal 10 +:+ "." +:+ decimal 1))
  = [2; 10; 1].
Proof.
  exact (proj1 (proj2 (proj2
    (parse_version_decimal 4300 2 10 1 eq_refl eq_refl eq_refl)))).
Defined.

(** X3: a numeric component with more digits than the limit of [int] makes
    [int] raise, and the [except] branch counts the component as 0, however
    large the number written is. *)
Theorem parse_version_oversized (limit a c : nat) (big : string) :
  all_decimal big = true ->
  (640 < String.length big)%nat -> (0 < limit)%nat ->
  (limit < String.length big)%nat ->
  int_accepts limit (String.length (decimal a)) = true ->
  int_accepts limit (String.length (decimal c)) = true ->
  _parse_version limit (Some (decimal a +:+ "." +:+ big +:+ "." +:+ decimal c))
  = [Z.of_nat a; 0; Z.of_nat c]
  /\ _parse_version limit (Some big) = [0; 0; 0].
Proof.
  intros Hbig H1 H2 H3 Ha Hc. rewrite !parse_version_fields.
  repeat match goal with
  | |- context ["." +:+ ?r] => change ("." +:+ r) with (String "." r)
  end.
  pose proof (all_decimal_decimal a). pose proof (all_decimal_decimal c).
  rewrite !digit_fields_decimal_dot, !digit_fields_decimal by done.
  cbn [map components lookup list_lookup default].
  by rewrite !field_value_decimal, !field_value_oversized by done.
Qed.

Lemma parse_version_oversized_witness :
  _parse_version 641
    (Some (decimal 3 +:+ "." +:+ string_of_list_ascii (repeat "9"%char 642)
           +:+ "." +:+ decimal 4))
  = [3; 0; 4].
Proof.
  exact (proj1 (parse_version_oversized 641 3 4
                  (string_of_list_ascii (repeat "9"%char 642))
                  ltac:(vm_compute; reflexivity)
                  ltac:(vm_compute; lia) ltac:(lia)
                  ltac:(vm_compute; lia)
                  eq_refl eq_refl)).
Defined.

(** ** File system *)

Lemma run_returns {A} (run : E A * World) (a : A) :
  run.1 = inr a -> run = (inr a, run.2).
Proof. destruct run as [r w]. by intros [= ->]. Qed.

Lemma mkdir_parents_dir p w w' :
  mkdir_parents p w = (inr tt, w') -> files w' !! p = Some Dir.
Proof.
  destruct p as [|c parent]; cbn [mkdir_parents].
  - destruct (files w !! []) as [[|]|] eqn:Hp; intros [= <-]; [done|].
    cbn. by rewrite lookup_insert_eq.
  - destruct (files w !! (c :: parent)) as [[|]|] eqn:Hp;
      [by intros [=]|by intros [= <-]|].
    destruct (mkdir_parents parent w) as [[e|[]] w1].
    + by destruct e.
    + intros [= <-]. cbn. by rewrite lookup_insert_eq.
Qed.

Lemma mkdir_parents_child c parent w :
  files w !! parent = Some Dir ->
  files w !! (c :: parent) = None ->
  mkdir_parents (c :: parent) w = (inr tt, set_node (c :: parent) Dir w).
Proof.
  intros Hp Hc. cbn [mkdir_parents]. rewrite Hc.
  destruct parent as [|c' p']; cbn [mkdir_parents]; by rewrite Hp.
Qed.

Lemma mkdir_parents_existing p w :
  files w !! p = Some Dir -> mkdir_parents p w = (inr tt, w).
Proof. intros Hp. destruct p; cbn [mkdir_parents]; by rewrite Hp. Qed.

Lemma write_bytes_run c parent b w :
  files w !! parent = Some Dir ->
  files w !! (c :: parent) <> Some Dir ->
  write_bytes (c :: parent) b w = (inr tt, set_node (c :: parent) (File b) w).
Proof.
  intros Hp Hc. unfold write_bytes. rewrite Hp.
  by destruct (files w !! (c :: parent)) as [[|]|].
Qed.

Lemma write_bytes_ok p b w w' :
  write_bytes p b w = (inr tt, w') ->
  w' = set_node p (File b) w
  /\ files w !! p <> Some Dir
  /\ exists c parent, p = c :: parent /\ files w !! parent = Some Dir.
Proof.
  unfold write_bytes.
  destruct (files w !! p) as [[|]|] eqn:Hp, p as [|c parent]; try done;
    (destruct (files w !! parent) as [[|]|] eqn:Hparent; try done;
     intros [= <-]; split; [done|]; split; [done|]; by exists c, parent).
Qed.

Lemma well_formed_insert_dir (fs : gmap path node) c parent :
  well_formed fs -> fs !! parent = Some Dir ->
  well_formed (<[c :: parent := Dir]> fs).
Proof.
  intros Hwf Hparent c' p' Hsome.
  destruct (decide (c' :: p' = c :: parent)) as [[= -> ->]|Hne].
  - rewrite lookup_insert_ne; [done|]. intros H%(f_equal length). cbn in H. lia.
  - rewrite lookup_insert_ne in Hsome by done.
    destruct (decide (p' = c :: parent)) as [->|Hne'].
    + by rewrite lookup_insert_eq.
    + rewrite lookup_insert_ne by done. by apply (Hwf c').
Qed.

Lemma well_formed_insert_file (fs : gmap path node) c parent b :
  well_formed fs -> fs !! parent = Some Dir -> fs !! (c :: parent) <> Some Dir ->
  well_formed (<[c :: parent := File b]> fs).
Proof.
  intros Hwf Hparent Hnd c' p' Hsome.
  destruct (decide (c' :: p' = c :: parent)) as [[= -> ->]|Hne].
  - rewrite lookup_insert_ne; [done|]. intros H%(f_equal length). cbn in H. lia.
  - rewrite lookup_insert_ne in Hsome by done.
    destruct (decide (p' = c :: parent)) as [->|Hne'].
    + destruct Hnd. by apply (Hwf c').
    + rewrite lookup_insert_ne by done. by apply (Hwf c').
Qed.

Lemma mkdir_parents_well_formed p : forall w r w',
  well_formed (files w) -> mkdir_parents p w = (r, w') ->
  well_formed (files w').
Proof.
  induction p as [|c parent IH]; intros w r w' Hwf; cbn [mkdir_parents].
  - destruct (files w !! []) as [[|]|] eqn:Hp; intros [= <- <-]; try done.
    cbn. intros c' p' Hsome.
    rewrite lookup_insert_ne in Hsome by done.
    destruct (decide (p' = [])) as [->|Hne]; [by rewrite lookup_insert_eq|].
    rewrite lookup_insert_ne by done. by apply (Hwf c').
  - destruct (files w !! (c :: parent)) as [[|]|] eqn:Hp;
      [by intros [= <- <-]..|].
    destruct (mkdir_parents parent w) as [[e|[]] w1] eqn:Hrec.
    + intros Hrun. assert (w' = w1) as -> by (destruct e; congruence).
      by eapply IH.
    + intros [= <- <-]. cbn. apply well_formed_insert_dir.
      * by eapply IH.
      * by eapply mkdir_parents_dir.
Qed.

Lemma write_bytes_well_formed p b w r w' :
  well_formed (files w) -> write_bytes p b w = (r, w') ->
  well_formed (files w').
Proof.
  intros Hwf. destruct r as [e|[]].
  - unfold write_bytes.
    destruct (files w !! p) as [[|]|], p as [|c parent];
      try (by intros [= _ <-]);
      (destruct (files w !! parent) as [[|]|]; by intros [= _ <-]).
  - intros (-> & Hnd & c & parent & -> & Hparent)%write_bytes_ok.
    cbn. by apply well_formed_insert_file.
Qed.

(** *** Paths made from text *)

(** Writing a node where no directory was does not move where a path
    leads. *)
Lemma walk_insert fs k n : forall comps cur q,
  fs !! k <> Some Dir ->
  walk fs cur comps = inr q -> walk (<[k := n]> fs) cur comps = inr q.
Proof.
  induction comps as [|c rest IH]; intros cur q Hk; [done|]. cbn [walk].
  destruct (fs !! cur) as [[|]|] eqn:Hcur; [done| |done].
  rewrite lookup_insert_ne by congruence. rewrite Hcur. by apply IH.
Qed.

Lemma locate_insert fs k n p q :
  fs !! k <> Some Dir ->
  locate fs p = inr q -> locate (<[k := n]> fs) p = inr q.
Proof.
  unfold locate. destruct (existsb has_nul (steps p)); [done|].
  by apply walk_insert.
Qed.

Lemma os_mkdir_exist_ok p w w' :
  exist_ok p (os_mkdir p w) = (inr tt, w') ->
  requests w' = requests w
  /\ exists q, locate (files w') p = inr q /\ files w' !! q = Some Dir.
Proof.
  unfold os_mkdir.
  destruct (locate (files w) p) as [e|q] eqn:Hq.
  { unfold exist_ok, stat. by rewrite Hq. }
  destruct (files w !! q) as [n|] eqn:Hn.
  - unfold exist_ok, stat. rewrite Hq. cbn. rewrite Hn.
    destruct n; [done|]. intros [= <-]. eauto.
  - cbn. intros [= <-]. split; [done|]. exists q. cbn. split.
    + apply locate_insert; [by rewrite Hn|done].
    + by rewrite lookup_insert_eq.
Qed.

(** After [mkdir] has returned the path leads to a directory. *)
Lemma mkdir_steps_ok a : forall s w w',
  mkdir_steps a s w = (inr tt, w') ->
  requests w' = requests w
  /\ exists q, locate (files w') (mkPure a s) = inr q
               /\ files w' !! q = Some Dir.
Proof.
  induction s as [|c parent IH]; intros w w'; cbn [mkdir_steps].
  - intros Hmk. destruct (mkdir_parents_changes _ _ _ _ Hmk) as [Hreq _].
    split; [done|]. exists a. split; [done|]. by eapply mkdir_parents_dir.
  - destruct (os_mkdir (mkPure a (c :: parent)) w) as [[e|[]] w0] eqn:Hos;
      [|rewrite <- Hos; apply os_mkdir_exist_ok].
    destruct e; cbv beta iota;
      try (rewrite <- Hos; apply os_mkdir_exist_ok).
    destruct (mkdir_steps a parent w) as [[e1|[]] w1] eqn:Hrec; [done|].
    destruct (IH _ _ Hrec) as [Hreq1 _].
    destruct (os_mkdir (mkPure a (c :: parent)) w1) as [[e2|[]] w2] eqn:Hos2.
    + destruct e2; cbv beta iota; try done;
        rewrite <- Hos2; intros [Hreq2 Hq]%os_mkdir_exist_ok;
        (split; [congruence|done]).
    + rewrite <- Hos2. intros [Hreq2 Hq]%os_mkdir_exist_ok.
      split; [congruence|done].
Qed.

Lemma write_at_ok p b w w' :
  write_at p b w = (inr tt, w') ->
  exists q, locate (files w) p = inr q
            /\ w' = set_node q (File b) w
            /\ files w !! q <> Some Dir.
Proof.
  unfold write_at. destruct (locate (files w) p) as [e|q]; [done|].
  intros (-> & Hnd & _)%write_bytes_ok. eauto.
Qed.

(** A name under a directory: the operations on the pure path are those on
    the node. *)
Lemma mkdir_steps_child a n w :
  plain_name n = true -> files w !! a = Some Dir ->
  mkdir_steps a [n] w = mkdir_parents (n :: a) w.
Proof.
  intros Hplain Ha.
  assert (locate (files w) (mkPure a [n]) = inr (n :: a)) as Hq.
  { rewrite (locate_child _ a [] n Hplain).
    change (locate (files w) (mkPure a [])) with (inr (B := path) (A := exn) a).
    cbv beta iota. by rewrite Ha. }
  cbn [mkdir_steps]. unfold os_mkdir. rewrite Hq.
  destruct (files w !! (n :: a)) as [[|]|] eqn:Hn; cbv beta iota.
  - unfold exist_ok, stat. rewrite Hq. unfold mbind, E_bind. rewrite Hn.
    cbn [mkdir_parents]. by rewrite Hn.
  - unfold exist_ok, stat. rewrite Hq. unfold mbind, E_bind. rewrite Hn.
    by rewrite mkdir_parents_existing.
  - by rewrite mkdir_parents_child.
Qed.

Lemma write_at_child a n f b w :
  plain_name n = true -> plain_name f = true ->
  files w !! a = Some Dir -> files w !! (n :: a) = Some Dir ->
  write_at (mkPure a [f; n]) b w = write_bytes (f :: n :: a) b w.
Proof.
  intros Hn Hf Ha Hd. unfold write_at.
  rewrite (locate_child _ a [n] f Hf), (locate_child _ a [] n Hn).
  change (locate (files w) (mkPure a [])) with (inr (B := path) (A := exn) a).
  cbv beta iota. rewrite Ha. cbv beta iota. by rewrite Hd.
Qed.

(** ** Fetching *)

Section Fetching.

Variable env : Env.

Lemma fetch_bytes_accepted url w :
  accepted url = true ->
  _fetch_bytes env url w
  = (match urlopen env url with Some body => inr body | None => inl URLError end,
     requested url w).
Proof.
  intros Hacc. unfold _fetch_bytes, _https_only, accepted in *.
  rewrite bind_run, Hacc. cbn [negb]. unfold http_get, requested.
  by destruct (urlopen env url).
Qed.

Lemma fetch_bytes_ok url w body w' :
  _fetch_bytes env url w = (inr body, w') ->
  accepted url = true /\ urlopen env url = Some body /\ w' = requested url w.
Proof.
  destruct (accepted url) eqn:Hacc.
  - rewrite fetch_bytes_accepted by done.
    destruct (urlopen env url); [|done]. by intros [= -> <-].
  - unfold _fetch_bytes, _https_only, accepted in *.
    by rewrite bind_run, Hacc.
Qed.

End Fetching.

(** X4: when a fetch of [install_pack] fails on the network, the error is
    raised at once: after a failed manifest request the rules URL is never
    requested, and in both cases no file or directory is touched. *)
Theorem install_pack_network_failure (env : Env) (self : GuidelinesManager)
    (pack : PackInfo) (w : World) :
  accepted (manifest_url pack) = true ->
  (urlopen env (manifest_url pack) = None ->
   install_pack env self pack w
   = (inl URLError, requested (manifest_url pack) w))
  /\ (forall manifest_bytes,
        urlopen env (manifest_url pack) = Some manifest_bytes ->
        accepted (rules_url pack) = true ->
        urlopen env (rules_url pack) = None ->
        install_pack env self pack w
        = (inl URLError,
           requested (rules_url pack) (requested (manifest_url pack) w))).
Proof.
  intros Hm. unfold install_pack. split.
  - intros Hnone. by rewrite bind_run, fetch_bytes_accepted, Hnone.
  - intros mb Hmb Hr Hnone.
    by rewrite bind_run, fetch_bytes_accepted, Hmb, bind_run,
      fetch_bytes_accepted, Hnone.
Qed.

(** ** Installer *)

Section Installing.

Variable env : Env.
Variable self : GuidelinesManager.
Variable pack : PackInfo.

Local Abbreviation dest := (id pack :: guidelines_dir self).

Lemma install_pack_verified w mb rb :
  accepted (manifest_url pack) = true -> accepted (rules_url pack) = true ->
  urlopen env (manifest_url pack) = Some mb ->
  urlopen env (rules_url pack) = Some rb ->
  _sha256_bytes env mb = sha256_manifest pack ->
  _sha256_bytes env rb = sha256_rules pack ->
  install_pack env self pack w
  = store_pack self pack mb rb (requested (rules_url pack) (requested (manifest_url pack) w)).
Proof.
  intros Hma Hra Hm Hr Hsm Hsr. unfold install_pack.
  rewrite bind_run, fetch_bytes_accepted, Hm by done.
  rewrite bind_run, fetch_bytes_accepted, Hr by done.
  rewrite Hsm, Hsr, !String.eqb_refl. reflexivity.
Qed.

Lemma install_pack_inv w r w' :
  install_pack env self pack w = (r, w') ->
  (files w' = files w /\ exists e, r = inl e)
  \/ exists mb rb,
       accepted (manifest_url pack) = true /\ accepted (rules_url pack) = true
       /\ urlopen env (manifest_url pack) = Some mb
       /\ urlopen env (rules_url pack) = Some rb
       /\ _sha256_bytes env mb = sha256_manifest pack
       /\ _sha256_bytes env rb = sha256_rules pack
       /\ store_pack self pack mb rb
            (requested (rules_url pack) (requested (manifest_url pack) w))
          = (r, w').
Proof.
  unfold install_pack. rewrite bind_run.
  destruct (_fetch_bytes env (manifest_url pack) w) as [[e|mb] w1] eqn:Hm.
  { intros [= <- <-]. left.
    destruct (fetch_bytes_world _ _ _ _ _ Hm) as [-> _]. eauto. }
  rewrite bind_run.
  destruct (_fetch_bytes env (rules_url pack) w1) as [[e|rb] w2] eqn:Hr.
  { intros [= <- <-]. left.
    destruct (fetch_bytes_world _ _ _ _ _ Hm) as [<- _].
    destruct (fetch_bytes_world _ _ _ _ _ Hr) as [-> _]. eauto. }
  assert (files w2 = files w) as Hfiles.
  { destruct (fetch_bytes_world _ _ _ _ _ Hm) as [<- _].
    by destruct (fetch_bytes_world _ _ _ _ _ Hr) as [<- _]. }
  apply fetch_bytes_ok in Hm as (Hma & Hmb & ->).
  apply fetch_bytes_ok in Hr as (Hra & Hrb & ->).
  destruct (String.eqb_spec (_sha256_bytes env mb) (sha256_manifest pack));
    cbn [negb]; [|intros [= <- <-]; left; eauto].
  destruct (String.eqb_spec (_sha256_bytes env rb) (sha256_rules pack));
    cbn [negb]; [|intros [= <- <-]; left; eauto].
  intros Hrun. right. exists mb, rb. by repeat split.
Qed.

(** What a successful installation leaves: the pack directory and the two
    documents in it. *)
Lemma store_pack_ok mb rb w w' :
  store_pack self pack mb rb w = (inr tt, w') ->
  requests w' = requests w
  /\ exists q,
       locate (files w') (pack_directory self (id pack)) = inr q
       /\ files w' !! q = Some Dir
       /\ files w' !! ("manifest.json" :: q) = Some (File mb)
       /\ files w' !! ("rules.json" :: q) = Some (File rb).
Proof.
  unfold store_pack. cbv zeta. fold (pack_directory self (id pack)).
  destruct (pack_directory self (id pack)) as [a s] eqn:Hp.
  rewrite !(joinpath_plain (mkPure a s)) by done. cbn [anchor steps].
  rewrite bind_run. unfold mkdir_at. cbn [anchor steps].
  destruct (mkdir_steps a s w) as [[e|[]] w1] eqn:Hmk; [done|].
  apply mkdir_steps_ok in Hmk as (Hreq1 & q & Hq & Hd). rewrite bind_run.
  destruct (write_at (mkPure a ("manifest.json" :: s)) mb w1)
    as [[e|[]] w2] eqn:Hw1; [done|].
  apply write_at_ok in Hw1 as (q1 & Hq1 & -> & Hnd1).
  rewrite locate_child, Hq, Hd in Hq1 by done. injection Hq1 as <-.
  intros (q2 & Hq2 & -> & Hnd2)%write_at_ok.
  assert (forall c : string, c :: q <> q) as Hne.
  { intros c H%(f_equal length). cbn in H. lia. }
  cbn [files set_node] in Hq2, Hnd2.
  rewrite locate_child in Hq2 by done.
  rewrite (locate_insert _ _ _ _ q Hnd1 Hq) in Hq2.
  rewrite lookup_insert_ne, Hd in Hq2 by apply Hne. injection Hq2 as <-.
  split; [done|]. exists q. cbn [files set_node requests].
  split; [|split; [|split]].
  - apply locate_insert; [done|]. by apply locate_insert.
  - by rewrite !lookup_insert_ne by apply Hne.
  - by rewrite lookup_insert_ne, lookup_insert_eq.
  - by rewrite lookup_insert_eq.
Qed.

(** With a pack id that is one name and an existing store root the pack
    directory is the child of the root that has this name. *)
Lemma store_pack_plain mb rb w :
  plain_name (id pack) = true ->
  files w !! guidelines_dir self = Some Dir ->
  store_pack self pack mb rb w = write_pack self pack mb rb w.
Proof.
  intros Hplain Hroot. unfold store_pack, write_pack. cbv zeta.
  rewrite (joinpath_plain _ (id pack) Hplain). cbn [from_dir anchor steps].
  rewrite !(joinpath_plain (mkPure _ _)) by done. cbn [anchor steps].
  rewrite !bind_run. unfold mkdir_at. cbn [anchor steps].
  rewrite mkdir_steps_child by done.
  destruct (mkdir_parents (id pack :: guidelines_dir self) w)
    as [[e|[]] w1] eqn:Hmk; [done|].
  assert (files w1 !! guidelines_dir self = Some Dir) as Hroot1.
  { destruct (mkdir_parents_changes _ _ _ _ Hmk) as [_ Hch].
    destruct (Hch (guidelines_dir self)) as [->|[_ ?]]; [done|congruence]. }
  pose proof (mkdir_parents_dir _ _ _ Hmk) as Hd1.
  rewrite !bind_run, write_at_child by done.
  destruct (write_bytes ("manifest.json" :: id pack :: guidelines_dir self) mb w1)
    as [[e|[]] w2] eqn:Hw; [done|].
  apply write_bytes_ok in Hw as (-> & _ & _).
  apply write_at_child; try done; cbn;
    rewrite lookup_insert_ne; try done;
    intros H%(f_equal length); cbn in H; lia.
Qed.

(** Without a store root the root and its ancestors are made first. *)
Lemma store_pack_rootless mb rb w :
  plain_name (id pack) = true ->
  files w !! guidelines_dir self = None ->
  store_pack self pack mb rb w
  = match mkdir_parents (guidelines_dir self) w with
    | (inr _, w1) => write_pack self pack mb rb w1
    | (inl e, w1) => (inl e, w1)
    end.
Proof.
  intros Hplain Hroot.
  destruct (mkdir_parents (guidelines_dir self) w) as [[e|[]] w1] eqn:Hmk.
  - unfold store_pack. cbv zeta.
    rewrite (joinpath_plain _ (id pack) Hplain). cbn [from_dir anchor steps].
    rewrite bind_run. unfold mkdir_at. cbn [anchor steps mkdir_steps].
    unfold os_mkdir at 1. rewrite (locate_child _ _ [] _ Hplain).
    change (locate (files w) (mkPure (guidelines_dir self) []))
      with (inr (B := path) (A := exn) (guidelines_dir self)).
    cbv beta iota. rewrite Hroot. cbv beta iota. by rewrite Hmk.
  - pose proof (mkdir_parents_dir _ _ _ Hmk) as Hroot1.
    rewrite <- (store_pack_plain mb rb w1 Hplain Hroot1).
    unfold store_pack. cbv zeta.
    rewrite (joinpath_plain _ (id pack) Hplain). cbn [from_dir anchor steps].
    rewrite !(bind_run (mkdir_at _)). unfold mkdir_at.
    cbn [anchor steps mkdir_steps].
    unfold os_mkdir at 1. rewrite (locate_child _ _ [] _ Hplain).
    change (locate (files w) (mkPure (guidelines_dir self) []))
      with (inr (B := path) (A := exn) (guidelines_dir self)).
    cbv beta iota. rewrite Hroot. cbv beta iota. rewrite Hmk.
    assert (locate (files w1) (mkPure (guidelines_dir self) [id pack])
            = inr (id pack :: guidelines_dir self)) as Hq.
    { rewrite (locate_child _ _ [] _ Hplain).
      change (locate (files w1) (mkPure (guidelines_dir self) []))
        with (inr (B := path) (A := exn) (guidelines_dir self)).
      cbv beta iota. by rewrite Hroot1. }
    unfold os_mkdir. rewrite Hq.
    by destruct (files w1 !! (id pack :: guidelines_dir self)).
Qed.

(** A store root that is a file stops the installation. *)
Lemma store_pack_blocked mb rb w content :
  plain_name (id pack) = true ->
  files w !! guidelines_dir self = Some (File content) ->
  store_pack self pack mb rb w = (inl NotADirectoryError, w).
Proof.
  intros Hplain Hroot. unfold store_pack. cbv zeta.
  rewrite (joinpath_plain _ (id pack) Hplain). cbn [from_dir anchor steps].
  rewrite bind_run. unfold mkdir_at. cbn [anchor steps mkdir_steps].
  assert (locate (files w) (mkPure (guidelines_dir self) [id pack])
          = inl NotADirectoryError) as Hq.
  { rewrite (locate_child _ _ [] _ Hplain).
    change (locate (files w) (mkPure (guidelines_dir self) []))
      with (inr (B := path) (A := exn) (guidelines_dir self)).
    cbv beta iota. by rewrite Hroot. }
  unfold os_mkdir. rewrite Hq. cbv beta iota. unfold exist_ok, stat.
  by rewrite Hq.
Qed.

Lemma write_pack_ok mb rb w w' :
  write_pack self pack mb rb w = (inr tt, w') ->
  files w' !! dest = Some Dir
  /\ files w' !! ("manifest.json" :: dest) = Some (File mb)
  /\ files w' !! ("rules.json" :: dest) = Some (File rb)
  /\ requests w' = requests w.
Proof.
  unfold write_pack. cbv zeta. rewrite bind_run.
  destruct (mkdir_parents dest w) as [[e|[]] w1] eqn:Hmk; [done|].
  destruct (mkdir_parents_changes _ _ _ _ Hmk) as [Hreq _].
  apply mkdir_parents_dir in Hmk. rewrite bind_run.
  destruct (write_bytes ("manifest.json" :: dest) mb w1) as [[e|[]] w2] eqn:Hw1;
    [done|].
  apply write_bytes_ok in Hw1 as (-> & _ & _).
  intros (-> & _ & _)%write_bytes_ok. cbn.
  assert (forall a b : string, a <> b -> a :: dest <> b :: dest) as Hne.
  { intros a b Hab [=]. done. }
  assert (forall a : string, a :: dest <> dest) as Hne'.
  { intros a H%(f_equal length). cbn in H. lia. }
  rewrite !lookup_insert_eq.
  rewrite (lookup_insert_ne _ ("rules.json" :: dest) ("manifest.json" :: dest)),
    lookup_insert_eq by by apply Hne.
  rewrite !(lookup_insert_ne _ _ dest) by apply Hne'.
  by repeat split.
Qed.

End Installing.

Section InstallFacts.

Variable env : Env.
Variable self : GuidelinesManager.
Variable pack : PackInfo.

Local Abbreviation dest := (id pack :: guidelines_dir self).

Lemma write_pack_changes mb rb w r w' :
  write_pack self pack mb rb w = (r, w') ->
  requests w' = requests w
  /\ forall q,
       files w' !! q = files w !! q
       \/ (q `suffix_of` dest /\ files w !! q = None)
       \/ q = "manifest.json" :: dest \/ q = "rules.json" :: dest.
Proof.
  unfold write_pack. cbv zeta. rewrite bind_run.
  destruct (mkdir_parents dest w) as [[e|[]] w1] eqn:Hmk;
    destruct (mkdir_parents_changes _ _ _ _ Hmk) as [Hreq1 Hch1].
  { intros [= <- <-]. split; [done|]. intros q.
    destruct (Hch1 q); auto. }
  rewrite bind_run.
  destruct (write_bytes ("manifest.json" :: dest) mb w1) as [[e|[]] w2] eqn:Hw1;
    destruct (write_bytes_changes _ _ _ _ _ Hw1) as [Hreq2 Hch2].
  { intros [= <- <-]. split; [congruence|]. intros q.
    destruct (decide (q = "manifest.json" :: dest)) as [->|Hq]; [auto|].
    rewrite Hch2 by done. destruct (Hch1 q); auto. }
  intros Hw2. destruct (write_bytes_changes _ _ _ _ _ Hw2) as [Hreq3 Hch3].
  split; [congruence|]. intros q.
  destruct (decide (q = "rules.json" :: dest)) as [->|Hq3]; [auto|].
  destruct (decide (q = "manifest.json" :: dest)) as [->|Hq2]; [auto|].
  rewrite Hch3, Hch2 by done. destruct (Hch1 q); auto.
Qed.

Lemma write_pack_other mb rb w r w' n rest :
  n <> id pack ->
  write_pack self pack mb rb w = (r, w') ->
  files w' !! (rest ++ n :: guidelines_dir self)
  = files w !! (rest ++ n :: guidelines_dir self).
Proof.
  intros Hn Hrun. destruct (write_pack_changes _ _ _ _ _ Hrun) as [_ Hch].
  destruct (Hch (rest ++ n :: guidelines_dir self))
    as [?|[[Hs _]|[Heq|Heq]]]; [done|..].
  - by apply under_not_above in Hs as [_ ?].
  - by apply under_not_file in Heq.
  - by apply under_not_file in Heq.
Qed.

Lemma write_pack_root mb rb w r w' :
  files w !! guidelines_dir self = Some Dir ->
  write_pack self pack mb rb w = (r, w') ->
  files w' !! guidelines_dir self = Some Dir.
Proof.
  intros Hroot Hrun. destruct (write_pack_changes _ _ _ _ _ Hrun) as [_ Hch].
  destruct (Hch (guidelines_dir self)) as [->|[[_ Hnone]|[Heq|Heq]]];
    [done|congruence|..];
    apply (f_equal length) in Heq; cbn in Heq; lia.
Qed.

End InstallFacts.

(** The pack id is joined as a path.  With a slash at its end it names the
    installed pack "core", whose rules document is replaced. *)
Example install_pack_trailing_slash :
  (install_pack demo_env demo_self (with_id "core/") demo_world).1 = inr tt
  /\ files demo_world !! ["rules.json"; "core"; "guidelines"; "Continuum"]
     = Some (File doc_open_array)
  /\ files (install_pack demo_env demo_self (with_id "core/") demo_world).2
       !! ["rules.json"; "core"; "guidelines"; "Continuum"]
     = Some (File doc_array).
Proof. by vm_compute. Qed.

(** With a slash inside, the pack lands two levels below the store root,
    where [list_installed] does not look; a file on the way stops [mkdir]. *)
Example install_pack_nested :
  (install_pack demo_env demo_self (with_id "a/b") demo_world).1 = inr tt
  /\ files (install_pack demo_env demo_self (with_id "a/b") demo_world).2
       !! ["manifest.json"; "b"; "a"; "guidelines"; "Continuum"]
     = Some (File doc_object)
  /\ match (list_installed demo_env demo_self
              (install_pack demo_env demo_self (with_id "a/b") demo_world).2).1
     with
     | inr installed => installed !! "a/b" = None /\ installed !! "a" = None
     | inl _ => False
     end
  /\ (install_pack demo_env demo_self (with_id "core/manifest.json/x")
        demo_world).1
     = inl NotADirectoryError.
Proof. by vm_compute. Qed.

(** The id ".." names the parent of the store root, the empty id the root
    itself, and an id with a NUL character is refused by the operating
    system interface. *)
Example install_pack_outside :
  files (install_pack demo_env demo_self (with_id "..") demo_world).2
    !! ["manifest.json"; "Continuum"] = Some (File doc_object)
  /\ files (install_pack demo_env demo_self (with_id "") demo_world).2
       !! ["manifest.json"; "guidelines"; "Continuum"] = Some (File doc_object)
  /\ (install_pack demo_env demo_self (with_id (String Ascii.zero "a"))
        demo_world).1
     = inl (ValueError "embedded null byte").
Proof. by vm_compute. Qed.

(** X5: after a successful [install_pack] the path of the pack directory,
    the store root joined with the pack id, leads to a directory, and the
    two files in it hold exactly the bytes the network served for the two
    URLs, whose digests are the declared ones; two requests were made, the
    manifest first.  When the pack id is one name this directory is the
    child of the store root that has this name. *)
Theorem install_pack_installs (env : Env) (self : GuidelinesManager)
    (pack : PackInfo) (w w' : World) :
  install_pack env self pack w = (inr tt, w') ->
  exists manifest_bytes rules_bytes dest,
    urlopen env (manifest_url pack) = Some manifest_bytes
    /\ urlopen env (rules_url pack) = Some rules_bytes
    /\ _sha256_bytes env manifest_bytes = sha256_manifest pack
    /\ _sha256_bytes env rules_bytes = sha256_rules pack
    /\ locate (files w') (pack_directory self (id pack)) = inr dest
    /\ files w' !! dest = Some Dir
    /\ files w' !! ("manifest.json" :: dest) = Some (File manifest_bytes)
    /\ files w' !! ("rules.json" :: dest) = Some (File rules_bytes)
    /\ requests w' = requests w ++ [manifest_url pack; rules_url pack]
    /\ (plain_name (id pack) = true -> dest = id pack :: guidelines_dir self).
Proof.
  intros [[_ [e [=]]]|(mb & rb & _ & _ & Hm & Hr & Hsm & Hsr & Hrun)]%install_pack_inv.
  apply store_pack_ok in Hrun as (Hreq & dest & Hq & Hd & Hmf & Hrf).
  exists mb, rb, dest. repeat split; try done.
  - rewrite Hreq. cbn. by rewrite <- app_assoc.
  - intros Hplain. revert Hq. unfold pack_directory.
    rewrite (joinpath_plain _ _ Hplain). cbn [from_dir anchor steps].
    rewrite (locate_child _ _ [] _ Hplain).
    change (locate (files w') (mkPure (guidelines_dir self) []))
      with (inr (B := path) (A := exn) (guidelines_dir self)).
    cbv beta iota.
    destruct (files w' !! guidelines_dir self) as [[|]|]; congruence.
Qed.

Lemma install_pack_installs_witness :
  exists manifest_bytes rules_bytes dest,
    urlopen demo_env (manifest_url good_pack) = Some manifest_bytes
    /\ urlopen demo_env (rules_url good_pack) = Some rules_bytes
    /\ _sha256_bytes demo_env manifest_bytes = sha256_manifest good_pack
    /\ _sha256_bytes demo_env rules_bytes = sha256_rules good_pack
    /\ locate (files (install_pack demo_env demo_self good_pack demo_world).2)
         (pack_directory demo_self (id good_pack)) = inr dest
    /\ files (install_pack demo_env demo_self good_pack demo_world).2 !! dest
       = Some Dir
    /\ files (install_pack demo_env demo_self good_pack demo_world).2
         !! ("manifest.json" :: dest) = Some (File manifest_bytes)
    /\ files (install_pack demo_env demo_self good_pack demo_world).2
         !! ("rules.json" :: dest) = Some (File rules_bytes)
    /\ requests (install_pack demo_env demo_self good_pack demo_world).2
       = requests demo_world ++ [manifest_url good_pack; rules_url good_pack]
    /\ (plain_name (id good_pack) = true ->
        dest = id good_pack :: guidelines_dir demo_self).
Proof.
  apply (install_pack_installs demo_env demo_self good_pack demo_world).
  apply run_returns. vm_compute. reflexivity.
Defined.

(** X6: with a pack id that is one name, [install_pack] touches nothing at
    or below the child of the store root that has another name, whether it
    succeeds or raises, and whether or not the store root exists. *)
Theorem install_pack_frame (env : Env) (self : GuidelinesManager)
    (pack : PackInfo) (w w' : World) (r : E unit) :
  plain_name (id pack) = true ->
  install_pack env self pack w = (r, w') ->
  forall n rest,
    n <> id pack ->
    files w' !! (rest ++ n :: guidelines_dir self)
    = files w !! (rest ++ n :: guidelines_dir self).
Proof.
  intros Hplain
    [[-> _]|(mb & rb & _ & _ & _ & _ & _ & _ & Hrun)]%install_pack_inv
    n rest Hn; [done|].
  set (w2 := requested _ _) in Hrun.
  change (files w) with (files w2).
  destruct (files w2 !! guidelines_dir self) as [[content|]|] eqn:Hroot.
  - rewrite (store_pack_blocked self pack mb rb w2 content) in Hrun by done.
    by injection Hrun as _ <-.
  - rewrite store_pack_plain in Hrun by done.
    by rewrite (write_pack_other self pack mb rb _ _ _ n rest Hn Hrun).
  - rewrite store_pack_rootless in Hrun by done.
    destruct (mkdir_parents (guidelines_dir self) w2) as [[e|[]] w1] eqn:Hmk.
    all: destruct (mkdir_parents_changes _ _ _ _ Hmk) as [_ Hch].
    all: destruct (Hch (rest ++ n :: guidelines_dir self)) as [Hsame|[[k Hk] _]];
      [|apply (f_equal length) in Hk; rewrite !length_app in Hk;
        cbn in Hk; lia].
    + injection Hrun as _ <-. done.
    + by rewrite (write_pack_other self pack mb rb _ _ _ n rest Hn Hrun).
Qed.

Lemma install_pack_frame_witness :
  files (install_pack demo_env demo_self good_pack demo_world).2
    !! (["manifest.json"] ++ "core" :: guidelines_dir demo_self)
  = files demo_world !! (["manifest.json"] ++ "core" :: guidelines_dir demo_self).
Proof.
  apply (install_pack_frame demo_env demo_self good_pack demo_world _ _
           eq_refl (surjective_pairing _) "core" ["manifest.json"]).
  vm_compute. discriminate.
Defined.

Lemma install_pack_fresh (env : Env) (self : GuidelinesManager)
    (pack : PackInfo) (w : World) (manifest_bytes rules_bytes : bytes) :
  plain_name (id pack) = true ->
  accepted (manifest_url pack) = true ->
  accepted (rules_url pack) = true ->
  urlopen env (manifest_url pack) = Some manifest_bytes ->
  urlopen env (rules_url pack) = Some rules_bytes ->
  _sha256_bytes env manifest_bytes = sha256_manifest pack ->
  _sha256_bytes env rules_bytes = sha256_rules pack ->
  files w !! guidelines_dir self = Some Dir ->
  (files w !! (id pack :: guidelines_dir self) = None
   \/ files w !! (id pack :: guidelines_dir self) = Some Dir) ->
  files w !! ("manifest.json" :: id pack :: guidelines_dir self) <> Some Dir ->
  files w !! ("rules.json" :: id pack :: guidelines_dir self) <> Some Dir ->
  exists w',
    install_pack env self pack w = (inr tt, w')
    /\ files w' !! ("manifest.json" :: id pack :: guidelines_dir self)
       = Some (File manifest_bytes)
    /\ files w' !! ("rules.json" :: id pack :: guidelines_dir self)
       = Some (File rules_bytes).
Proof.
  intros Hplain Hma Hra Hm Hr Hsm Hsr Hroot Hdest Hmf Hrf.
  rewrite (install_pack_verified env self pack w _ _ Hma Hra Hm Hr Hsm Hsr).
  rewrite store_pack_plain by done.
  set (w2 := requested _ _).
  assert (exists w3, mkdir_parents (id pack :: guidelines_dir self) w2 = (inr tt, w3)
            /\ files w3 !! (id pack :: guidelines_dir self) = Some Dir
            /\ forall f : string,
                 files w3 !! (f :: id pack :: guidelines_dir self)
                 = files w !! (f :: id pack :: guidelines_dir self))
    as (w3 & Hmk & Hd3 & Hsame).
  { destruct Hdest as [Hnone|Hdir].
    - eexists. split; [by apply mkdir_parents_child|]. cbn.
      split; [by rewrite lookup_insert_eq|]. intros f.
      rewrite lookup_insert_ne; [done|].
      intros H%(f_equal length). cbn in H. lia.
    - exists w2. split; [by apply mkdir_parents_existing|]. done. }
  assert (write_pack self pack manifest_bytes rules_bytes w2
          = write_bytes ("rules.json" :: id pack :: guidelines_dir self) rules_bytes
              (set_node ("manifest.json" :: id pack :: guidelines_dir self)
                 (File manifest_bytes) w3)) as ->.
  { unfold write_pack. cbv zeta. rewrite bind_run, Hmk, bind_run.
    rewrite write_bytes_run; [done|done|]. by rewrite Hsame. }
  eexists. split.
  - apply write_bytes_run; cbn.
    + rewrite lookup_insert_ne; [done|].
      intros H%(f_equal length). cbn in H. lia.
    + rewrite lookup_insert_ne by done. by rewrite Hsame.
  - cbn. rewrite lookup_insert_ne, !lookup_insert_eq by done. done.
Qed.

(** X7: [install_pack] succeeds when the pack id is one name, both URLs pass
    the HTTPS test, the network serves both documents, their digests are
    the declared ones, the store root is a directory, the pack directory is
    absent or a directory, and neither file name is taken by a directory;
    an earlier installation of the pack is overwritten. *)
Theorem install_pack_succeeds (env : Env) (self : GuidelinesManager)
    (pack : PackInfo) (w : World) (manifest_bytes rules_bytes : bytes) :
  plain_name (id pack) = true ->
  accepted (manifest_url pack) = true ->
  accepted (rules_url pack) = true ->
  urlopen env (manifest_url pack) = Some manifest_bytes ->
  urlopen env (rules_url pack) = Some rules_bytes ->
  _sha256_bytes env manifest_bytes = sha256_manifest pack ->
  _sha256_bytes env rules_bytes = sha256_rules pack ->
  files w !! guidelines_dir self = Some Dir ->
  (files w !! (id pack :: guidelines_dir self) = None
   \/ files w !! (id pack :: guidelines_dir self) = Some Dir) ->
  files w !! ("manifest.json" :: id pack :: guidelines_dir self) <> Some Dir ->
  files w !! ("rules.json" :: id pack :: guidelines_dir self) <> Some Dir ->
  exists w',
    install_pack env self pack w = (inr tt, w')
    /\ files w' !! ("manifest.json" :: id pack :: guidelines_dir self)
       = Some (File manifest_bytes)
    /\ files w' !! ("rules.json" :: id pack :: guidelines_dir self)
       = Some (File rules_bytes).
Proof. apply install_pack_fresh. Qed.

Lemma install_pack_succeeds_witness :
  exists w',
    install_pack demo_env demo_self good_pack demo_world = (inr tt, w')
    /\ files w' !! ("manifest.json" :: id good_pack :: guidelines_dir demo_self)
       = Some (File doc_object)
    /\ files w' !! ("rules.json" :: id good_pack :: guidelines_dir demo_self)
       = Some (File doc_array).
Proof.
  apply (install_pack_succeeds demo_env demo_self good_pack demo_world
           doc_object doc_array);
    try (vm_compute; reflexivity); try (vm_compute; discriminate).
  left. vm_compute. reflexivity.
Defined.

Lemma install_pack_network_failure_witness :
  install_pack demo_env demo_self
    (mkPackInfo "B" "Pack B" "2.0.0" "https://example/B/manifest.json"
       "https://example/B/rules.json" "ba" "bb") demo_world
  = (inl URLError, requested "https://example/B/manifest.json" demo_world).
Proof.
  exact (proj1 (install_pack_network_failure demo_env demo_self
                  (mkPackInfo "B" "Pack B" "2.0.0"
                     "https://example/B/manifest.json"
                     "https://example/B/rules.json" "ba" "bb")
                  demo_world eq_refl) eq_refl).
Defined.

(** ** Installing, then reading the store *)

Section AfterInstall.

Variable env : Env.
Variable self : GuidelinesManager.

Lemma manifest_version_other pack mb rb w r w' n :
  n <> id pack ->
  write_pack self pack mb rb w = (r, w') ->
  manifest_version env (files w') (n :: guidelines_dir self)
  = manifest_version env (files w) (n :: guidelines_dir self).
Proof.
  intros Hn Hrun. unfold manifest_version.
  pose proof (write_pack_other self pack mb rb w r w' n [] Hn Hrun) as H1.
  pose proof (write_pack_other self pack mb rb w r w' n ["manifest.json"]
                Hn Hrun) as H2.
  cbn in H1, H2. by rewrite H1, H2.
Qed.

End AfterInstall.

Lemma install_listing (env : Env) (self : GuidelinesManager)
    (pack : PackInfo) (w w' : World) :
  plain_name (id pack) = true ->
  files w !! guidelines_dir self = Some Dir ->
  install_pack env self pack w = (inr tt, w') ->
  exists manifest_bytes rules_bytes before after,
    urlopen env (manifest_url pack) = Some manifest_bytes
    /\ urlopen env (rules_url pack) = Some rules_bytes
    /\ list_installed env self w = (inr before, w)
    /\ list_installed env self w' = (inr after, w')
    /\ after !! id pack
       = match loads_utf8 env manifest_bytes with
         | Some (JDict fields) =>
             Some (str env (default (JStr "0.0.0") (dict_get fields "version")))
         | _ => None
         end
    /\ (forall n, n <> id pack -> after !! n = before !! n)
    /\ read_pack_rules env self (id pack) w' = (json_loads env rules_bytes, w').
Proof.
  intros Hplain Hroot
    [[_ [e [=]]]|(mb & rb & _ & _ & Hm & Hr & _ & _ & Hrun)]%install_pack_inv.
  set (w2 := requested (rules_url pack) (requested (manifest_url pack) w)) in Hrun.
  assert (files w2 !! guidelines_dir self = Some Dir) as Hroot2 by exact Hroot.
  rewrite store_pack_plain in Hrun by done.
  pose proof (write_pack_root self pack mb rb _ _ _ Hroot2 Hrun) as Hroot'.
  destruct (list_installed_run env self w Hroot) as (before & Hb & Hbefore).
  destruct (list_installed_run env self w' Hroot') as (after & Ha & Hafter).
  exists mb, rb, before, after. repeat split; try done.
  - rewrite Hafter. unfold manifest_version.
    apply write_pack_ok in Hrun as (-> & -> & _). done.
  - intros n Hn. rewrite Hafter, Hbefore.
    by rewrite (manifest_version_other env self pack mb rb _ _ _ n Hn Hrun).
  - rewrite read_pack_rules_run.
    apply write_pack_ok in Hrun as (Hd & _ & Hrf & _).
    by rewrite rules_document_in_dir, Hrf.
Qed.

(** X8: after a successful [install_pack] of a pack whose id is one name,
    in a store whose root is a directory, [list_installed] reports the pack
    id with the version of the installed manifest when that manifest parses
    to an object, and does not report it otherwise (the installer does not
    look into the manifest); every other id is listed as before;
    [read_pack_rules] for the id gives what the served rules document
    parses to. *)
Theorem install_then_read (env : Env) (self : GuidelinesManager)
    (pack : PackInfo) (w w' : World) :
  plain_name (id pack) = true ->
  files w !! guidelines_dir self = Some Dir ->
  install_pack env self pack w = (inr tt, w') ->
  exists manifest_bytes rules_bytes before after,
    urlopen env (manifest_url pack) = Some manifest_bytes
    /\ urlopen env (rules_url pack) = Some rules_bytes
    /\ list_installed env self w = (inr before, w)
    /\ list_installed env self w' = (inr after, w')
    /\ after !! id pack
       = match loads_utf8 env manifest_bytes with
         | Some (JDict fields) =>
             Some (str env (default (JStr "0.0.0") (dict_get fields "version")))
         | _ => None
         end
    /\ (forall n, n <> id pack -> after !! n = before !! n)
    /\ read_pack_rules env self (id pack) w' = (json_loads env rules_bytes, w').
Proof. apply install_listing. Qed.

Lemma install_then_read_witness :
  exists manifest_bytes rules_bytes before after,
    urlopen demo_env (manifest_url good_pack) = Some manifest_bytes
    /\ urlopen demo_env (rules_url good_pack) = Some rules_bytes
    /\ list_installed demo_env demo_self demo_world = (inr before, demo_world)
    /\ list_installed demo_env demo_self
         (install_pack demo_env demo_self good_pack demo_world).2
       = (inr after, (install_pack demo_env demo_self good_pack demo_world).2)
    /\ after !! id good_pack
       = match loads_utf8 demo_env manifest_bytes with
         | Some (JDict fields) =>
             Some (str demo_env (default (JStr "0.0.0") (dict_get fields "version")))
         | _ => None
         end
    /\ (forall n, n <> id good_pack -> after !! n = before !! n)
    /\ read_pack_rules demo_env demo_self (id good_pack)
         (install_pack demo_env demo_self good_pack demo_world).2
       = (json_loads demo_env rules_bytes,
          (install_pack demo_env demo_self good_pack demo_world).2).
Proof.
  apply (install_then_read demo_env demo_self good_pack demo_world).
  - reflexivity.
  - vm_compute. reflexivity.
  - apply run_returns. vm_compute. reflexivity.
Defined.

(** X9: whether a pack whose id is one name is offered again after it was
    installed, in a store whose root is a directory, depends on the
    manifest that was installed, not on the catalog entry: it is not
    offered when the manifest carries the catalog's version, it is offered
    as a new installation when the manifest does not parse to an object,
    and with a manifest without version field it is offered as an upgrade
    from "0.0.0" exactly when the catalog version parses above (0, 0, 0). *)
Theorem install_then_check (env : Env) (self : GuidelinesManager)
    (pack : PackInfo) (w w' : World) (manifest_bytes : bytes) :
  plain_name (id pack) = true ->
  files w !! guidelines_dir self = Some Dir ->
  install_pack env self pack w = (inr tt, w') ->
  urlopen env (manifest_url pack) = Some manifest_bytes ->
  exists after,
    list_installed env self w' = (inr after, w')
    /\ (forall fields j,
          loads_utf8 env manifest_bytes = Some (JDict fields) ->
          dict_get fields "version" = Some j ->
          str env j = version pack ->
          plan_updates env [pack] after = [])
    /\ (match loads_utf8 env manifest_bytes with
        | Some (JDict _) => False
        | _ => True
        end ->
        plan_updates env [pack] after = [mkPackUpdate pack None])
    /\ (forall fields,
          loads_utf8 env manifest_bytes = Some (JDict fields) ->
          dict_get fields "version" = None ->
          plan_updates env [pack] after
          = if newer (int_max_str_digits env) (version pack) "0.0.0"
            then [mkPackUpdate pack (Some "0.0.0")]
            else []).
Proof.
  intros Hplain Hroot Hrun Hm.
  destruct (install_listing env self pack w w' Hplain Hroot Hrun)
    as (mb & rb & before & after & Hm' & _ & _ & Ha & Hid & _).
  assert (mb = manifest_bytes) as -> by congruence.
  exists after. split; [done|]. unfold plan_updates. cbn [fold_left].
  unfold check_update. rewrite Hid. repeat split.
  - intros fields j -> -> Hv.
    change (default (JStr "0.0.0") (Some j)) with j. rewrite Hv.
    by rewrite tuple_gt_irrefl.
  - by destruct (loads_utf8 env manifest_bytes) as [[]|].
  - by intros fields -> ->.
Qed.

Lemma install_then_check_witness :
  exists after,
    list_installed demo_env demo_self
      (install_pack demo_env demo_self good_pack demo_world).2
    = (inr after, (install_pack demo_env demo_self good_pack demo_world).2)
    /\ plan_updates demo_env [good_pack] after
       = [mkPackUpdate good_pack (Some "0.0.0")].
Proof.
  destruct (install_then_check demo_env demo_self good_pack demo_world
              (install_pack demo_env demo_self good_pack demo_world).2
              doc_object)
    as (after & Ha & _ & _ & Hplan).
  - reflexivity.
  - vm_compute. reflexivity.
  - apply run_returns. vm_compute. reflexivity.
  - reflexivity.
  - exists after. split; [exact Ha|]. by apply (Hplan []).
Defined.

(** X10: [install_pack] compares digests as they are: when the digest
    function writes lower case, as [hexdigest] does, a descriptor whose
    declared manifest digest is not in lower case is rejected with the
    manifest error, whatever bytes are served; only [fetch_index] folds the
    case of catalog digests. *)
Theorem install_pack_digest_case (env : Env) (self : GuidelinesManager)
    (pack : PackInfo) (w : World) (manifest_bytes rules_bytes : bytes) :
  accepted (manifest_url pack) = true ->
  accepted (rules_url pack) = true ->
  urlopen env (manifest_url pack) = Some manifest_bytes ->
  urlopen env (rules_url pack) = Some rules_bytes ->
  Py.lower (_sha256_bytes env manifest_bytes) = _sha256_bytes env manifest_bytes ->
  Py.lower (sha256_manifest pack) <> sha256_manifest pack ->
  install_pack env self pack w
  = (inl (ValueError ("manifest SHA mismatch for " +:+ id pack)),
     requested (rules_url pack) (requested (manifest_url pack) w)).
Proof.
  intros Hma Hra Hm Hr Hlow Hup. unfold install_pack.
  rewrite bind_run, fetch_bytes_accepted, Hm by done.
  rewrite bind_run, fetch_bytes_accepted, Hr by done.
  destruct (String.eqb_spec (_sha256_bytes env manifest_bytes)
              (sha256_manifest pack)) as [Heq|Hne]; [|done].
  destruct Hup. by rewrite <- Heq.
Qed.

Lemma install_pack_digest_case_witness :
  install_pack demo_env demo_self
    (mkPackInfo "A" "Pack A" "1.0.0" "https://example/A/manifest.json"
       "https://example/A/rules.json"
       "44136FA355B3678A1146AD16F7E8649E94FB4FC21FE77E8310C060F61CAAFF8A"
       (demo_sha256 doc_array))
    demo_world
  = (inl (ValueError "manifest SHA mismatch for A"),
     requested "https://example/A/rules.json"
       (requested "https://example/A/manifest.json" demo_world)).
Proof.
  apply (install_pack_digest_case demo_env demo_self
           (mkPackInfo "A" "Pack A" "1.0.0" "https://example/A/manifest.json"
              "https://example/A/rules.json"
              "44136FA355B3678A1146AD16F7E8649E94FB4FC21FE77E8310C060F61CAAFF8A"
              (demo_sha256 doc_array))
           demo_world doc_object doc_array);
    try reflexivity.
  vm_compute. discriminate.
Defined.

(** ** Catalog fetcher *)

Section CatalogEdges.

Variable env : Env.

Lemma fetch_json_accepted url w :
  accepted url = true ->
  _fetch_json env url w
  = (match urlopen env url with
     | Some body => json_loads env body
     | None => inl URLError
     end, requested url w).
Proof.
  intros Hacc. unfold _fetch_json.
  rewrite bind_run, fetch_bytes_accepted by done.
  by destruct (urlopen env url).
Qed.

Lemma fetch_index_world url w r w' :
  fetch_index env url w = (r, w') ->
  files w' = files w
  /\ (requests w' = requests w \/ requests w' = requests w ++ [url]).
Proof.
  unfold fetch_index, _fetch_json. rewrite !bind_run.
  destruct (_fetch_bytes env url w) as [[e|body] w1] eqn:Hf;
    apply fetch_bytes_world in Hf.
  - by intros [= <- <-].
  - unfold lift. destruct (json_loads env body); by intros [= <- <-].
Qed.

End CatalogEdges.

(** X11: what [fetch_index] makes of a served document that is not a
    catalog: a body that does not parse raises the decode error, a document
    that is not an object raises [AttributeError], an object whose "packs"
    is null raises [TypeError], while an object without "packs" is an empty
    catalog; in each case one request was made and no file touched. *)
Theorem fetch_index_edges (env : Env) (url : string) (w : World) (body : bytes) :
  accepted url = true ->
  urlopen env url = Some body ->
  (loads_utf8 env body = None ->
   fetch_index env url w = (inl DecodeError, requested url w))
  /\ (forall j,
        loads_utf8 env body = Some j ->
        match j with JDict _ => False | _ => True end ->
        fetch_index env url w = (inl AttributeError, requested url w))
  /\ (forall fields,
        loads_utf8 env body = Some (JDict fields) ->
        dict_get fields "packs" = Some JNull ->
        fetch_index env url w = (inl TypeError, requested url w))
  /\ (forall fields,
        loads_utf8 env body = Some (JDict fields) ->
        dict_get fields "packs" = None ->
        fetch_index env url w = (inr [], requested url w)).
Proof.
  intros Hacc Hbody. unfold fetch_index.
  rewrite bind_run, fetch_json_accepted, Hbody by done.
  unfold json_loads, lift. repeat split.
  - by intros ->.
  - intros j -> Hj. by destruct j.
  - intros fields -> Hp. cbn. by rewrite Hp.
  - intros fields -> Hp. cbn. by rewrite Hp.
Qed.

Lemma fetch_index_edges_witness :
  fetch_index demo_env "https://example/A/manifest.json" demo_world
  = (inr [], requested "https://example/A/manifest.json" demo_world).
Proof.
  exact (proj2 (proj2 (proj2
    (fetch_index_edges demo_env "https://example/A/manifest.json" demo_world
       doc_object eq_refl eq_refl))) [] eq_refl eq_refl).
Defined.

(** ** Checking for updates *)

Lemma list_installed_world (env : Env) (self : GuidelinesManager) w r w' :
  list_installed env self w = (r, w') -> w' = w.
Proof.
  unfold list_installed. rewrite bind_run. unfold iterdir.
  destruct (files w !! guidelines_dir self) as [[|]|];
    try (by intros [= _ <-]).
  rewrite for_fold_installed. by intros [= _ <-].
Qed.

(** X12: [check_updates] only reads: whatever its outcome, no file or
    directory is changed and at most one request, that of the catalog, is
    made. *)
Theorem check_updates_reads_only (env : Env) (self : GuidelinesManager)
    (url : string) (w w' : World) (r : E (list PackUpdate)) :
  check_updates env self url w = (r, w') ->
  files w' = files w
  /\ (requests w' = requests w \/ requests w' = requests w ++ [url]).
Proof.
  unfold check_updates. rewrite bind_run.
  destruct (fetch_index env url w) as [[e|remote] w1] eqn:Hf;
    apply fetch_index_world in Hf.
  - by intros [= <- <-].
  - rewrite bind_run.
    destruct (list_installed env self w1) as [[e|installed] w2] eqn:Hl;
      apply list_installed_world in Hl as ->; by intros [= <- <-].
Qed.

Lemma check_updates_reads_only_witness :
  files (check_updates demo_env demo_self "https://example/index.json"
           demo_world).2 = files demo_world
  /\ (requests (check_updates demo_env demo_self "https://example/index.json"
                  demo_world).2 = requests demo_world
      \/ requests (check_updates demo_env demo_self
                     "https://example/index.json" demo_world).2
         = requests demo_world ++ ["https://example/index.json"]).
Proof.
  apply (check_updates_reads_only demo_env demo_self
           "https://example/index.json" demo_world _ _ (surjective_pairing _)).
Defined.

(** X13: [check_updates] fetches the catalog before it looks at the store:
    when the catalog is fetched and parsed but the store root is missing,
    the call raises [FileNotFoundError] with the request already made; the
    listing is not replaced by an empty one. *)
Theorem check_updates_missing_root (env : Env) (self : GuidelinesManager)
    (url : string) (w w1 : World) (remote : list PackInfo) :
  fetch_index env url w = (inr remote, w1) ->
  files w !! guidelines_dir self = None ->
  check_updates env self url w = (inl FileNotFoundError, w1)
  /\ list_installed env self w = (inl FileNotFoundError, w)
  /\ requests w1 = requests w ++ [url].
Proof.
  intros Hf Hroot.
  destruct (fetch_index_world env url w _ _ Hf) as [Hfiles Hreq].
  assert (forall w0, files w0 = files w ->
            list_installed env self w0 = (inl FileNotFoundError, w0)) as Hl.
  { intros w0 H0. unfold list_installed. rewrite bind_run. unfold iterdir.
    by rewrite H0, Hroot. }
  split; [|split].
  - unfold check_updates. by rewrite bind_run, Hf, bind_run, Hl.
  - by apply Hl.
  - destruct Hreq as [Hreq|Hreq]; [|done]. exfalso.
    revert Hf. unfold fetch_index, _fetch_json. rewrite !bind_run.
    destruct (accepted url) eqn:Hacc.
    + rewrite fetch_bytes_accepted by done.
      destruct (urlopen env url); [|done]. unfold lift.
      destruct (json_loads env l); [done|]. intros [= _ <-].
      cbn in Hreq. apply (f_equal length) in Hreq.
      rewrite length_app in Hreq. cbn in Hreq. lia.
    + unfold _fetch_bytes, _https_only. unfold accepted in Hacc.
      by rewrite bind_run, Hacc.
Qed.

Lemma check_updates_missing_root_witness :
  check_updates demo_env (mkManager ["nowhere"] ["guidelines_builtin"; "app"])
    "https://example/A/manifest.json" demo_world
  = (inl FileNotFoundError,
     requested "https://example/A/manifest.json" demo_world).
Proof.
  apply (check_updates_missing_root demo_env
           (mkManager ["nowhere"] ["guidelines_builtin"; "app"])
           "https://example/A/manifest.json" demo_world
           (requested "https://example/A/manifest.json" demo_world) []).
  - reflexivity.
  - vm_compute. reflexivity.
Defined.

(** ** Seeding *)

Lemma path_exists_run p w :
  path_exists p w
  = (inr (match files w !! p with Some _ => true | None => false end), w).
Proof.
  unfold path_exists. destruct (files w !! p).
  - by rewrite bool_decide_true.
  - by rewrite bool_decide_false by by intros [? ?].
Qed.

Lemma ensure_builtin_run (self : GuidelinesManager) (w : World) :
  ensure_builtin_installed self w
  = match files w !! builtin_dir self,
          files w !! ("index.json" :: builtin_dir self),
          files w !! ("packs" :: builtin_dir self) with
    | Some _, Some _, Some _ =>
        (iterdir ("packs" :: builtin_dir self)
         ≫= fun entries => for_each entries (seed_pack self)) w
    | _, _, _ => (inr tt, w)
    end.
Proof.
  unfold ensure_builtin_installed.
  rewrite bind_run, path_exists_run.
  destruct (files w !! builtin_dir self); cbn [negb]; [|done].
  rewrite bind_run, path_exists_run.
  destruct (files w !! ("index.json" :: builtin_dir self)); cbn [negb]; [|done].
  rewrite bind_run, path_exists_run.
  by destruct (files w !! ("packs" :: builtin_dir self)).
Qed.

(** X14: without a complete builtin source [ensure_builtin_installed] does
    nothing and returns: that is so when the builtin directory, its
    "index.json" or its "packs" directory is missing; when "packs" is a file
    the listing raises [NotADirectoryError], still with nothing changed. *)
Theorem seeding_without_source (self : GuidelinesManager) (w : World) :
  (files w !! builtin_dir self = None ->
   ensure_builtin_installed self w = (inr tt, w))
  /\ (files w !! ("index.json" :: builtin_dir self) = None ->
      ensure_builtin_installed self w = (inr tt, w))
  /\ (files w !! ("packs" :: builtin_dir self) = None ->
      ensure_builtin_installed self w = (inr tt, w))
  /\ (forall content,
        is_Some (files w !! builtin_dir self) ->
        is_Some (files w !! ("index.json" :: builtin_dir self)) ->
        files w !! ("packs" :: builtin_dir self) = Some (File content) ->
        ensure_builtin_installed self w = (inl NotADirectoryError, w)).
Proof.
  rewrite ensure_builtin_run. repeat split.
  - by intros ->.
  - intros ->. by destruct (files w !! builtin_dir self).
  - intros ->. by destruct (files w !! builtin_dir self),
      (files w !! ("index.json" :: builtin_dir self)).
  - intros content [x ->] [y ->] Hp. rewrite Hp, bind_run. unfold iterdir.
    by rewrite Hp.
Qed.

Lemma seeding_without_source_witness :
  ensure_builtin_installed (mkManager ["guidelines"; "Continuum"] ["nowhere"])
    demo_world
  = (inr tt, demo_world).
Proof.
  apply (proj1 (seeding_without_source
                  (mkManager ["guidelines"; "Continuum"] ["nowhere"])
                  demo_world)).
  vm_compute. reflexivity.
Defined.

Lemma only_adds_refl w : only_adds w w.
Proof. by split. Qed.

Lemma only_adds_trans w1 w2 w3 :
  only_adds w1 w2 -> only_adds w2 w3 -> only_adds w1 w3.
Proof.
  intros [Hr1 Hf1] [Hr2 Hf2]. split; [congruence|]. intros q Hq.
  rewrite Hf2, Hf1; [done..|]. by rewrite Hf1.
Qed.

Lemma mkdir_parents_only_adds p w r w' :
  mkdir_parents p w = (r, w') -> only_adds w w'.
Proof.
  intros [Hreq Hch]%mkdir_parents_changes. split; [done|]. intros q [x Hq].
  destruct (Hch q) as [?|[_ Hnone]]; [done|congruence].
Qed.

Section SeedingAdds.

Variable self : GuidelinesManager.

Lemma seed_file_changes pack_dir dest fname w r w' :
  seed_file pack_dir dest fname w = (r, w') ->
  requests w' = requests w
  /\ forall q, q <> fname :: dest -> files w' !! q = files w !! q.
Proof.
  unfold seed_file. rewrite bind_run, path_exists_run.
  destruct (files w !! (fname :: pack_dir)) as [x|] eqn:Hsrc;
    [|by intros [= <- <-]].
  rewrite bind_run. unfold read_bytes at 1. rewrite Hsrc.
  destruct x as [b|]; [|by intros [= <- <-]].
  apply write_bytes_changes.
Qed.

Lemma seed_file_well_formed pack_dir dest fname w r w' :
  well_formed (files w) ->
  seed_file pack_dir dest fname w = (r, w') -> well_formed (files w').
Proof.
  intros Hwf. unfold seed_file. rewrite bind_run, path_exists_run.
  destruct (files w !! (fname :: pack_dir)) as [x|] eqn:Hsrc;
    [|by intros [= <- <-]].
  rewrite bind_run. unfold read_bytes at 1. rewrite Hsrc.
  destruct x as [b|]; [|by intros [= <- <-]].
  by apply write_bytes_well_formed.
Qed.

Lemma seed_files_changes pack_dir dest fnames : forall w r w',
  well_formed (files w) ->
  for_each fnames (seed_file pack_dir dest) w = (r, w') ->
  well_formed (files w')
  /\ requests w' = requests w
  /\ forall q, (forall f, q <> f :: dest) -> files w' !! q = files w !! q.
Proof.
  induction fnames as [|fname fnames IH]; intros w r w' Hwf; cbn [for_each].
  - by intros [= <- <-].
  - rewrite bind_run.
    destruct (seed_file pack_dir dest fname w) as [[e|[]] w1] eqn:H1;
      pose proof (seed_file_well_formed _ _ _ _ _ _ Hwf H1) as Hwf1;
      destruct (seed_file_changes _ _ _ _ _ _ H1) as [Hreq1 Hch1].
    + intros [= <- <-]. repeat split; try done. intros q Hq. by apply Hch1.
    + intros H2. destruct (IH _ _ _ Hwf1 H2) as (Hwf2 & Hreq2 & Hch2).
      repeat split; [done|congruence|]. intros q Hq.
      by rewrite Hch2, Hch1.
Qed.

Lemma seed_pack_only_adds pack_dir w r w' :
  well_formed (files w) ->
  seed_pack self pack_dir w = (r, w') ->
  well_formed (files w') /\ only_adds w w'.
Proof.
  intros Hwf. unfold seed_pack. rewrite bind_run. unfold is_dir at 1.
  destruct (match files w !! pack_dir with Some Dir => true | _ => false end);
    cbn [negb]; [|intros [= <- <-]; split; [done|apply only_adds_refl]].
  rewrite bind_run, path_exists_run.
  destruct (files w !! (name pack_dir :: guidelines_dir self)) as [x|] eqn:Hdest;
    [intros [= <- <-]; split; [done|apply only_adds_refl]|].
  rewrite bind_run.
  destruct (mkdir_parents _ w) as [[e|[]] w1] eqn:Hmk;
    pose proof (mkdir_parents_well_formed _ _ _ _ Hwf Hmk) as Hwf1;
    pose proof (mkdir_parents_only_adds _ _ _ _ Hmk) as Hadd1.
  - by intros [= <- <-].
  - intros Hrun.
    destruct (seed_files_changes _ _ _ _ _ _ Hwf1 Hrun) as (Hwf2 & Hreq2 & Hch2).
    split; [done|]. eapply only_adds_trans; [exact Hadd1|].
    split; [done|]. intros q [y Hq]. apply Hch2. intros f ->.
    destruct Hadd1 as [_ Hadd1].
    destruct (files w !! (f :: name pack_dir :: guidelines_dir self))
      as [z|] eqn:Hf.
    + assert (files w !! (name pack_dir :: guidelines_dir self) = Some Dir)
        as Hd by (apply (Hwf f); by rewrite Hf).
      congruence.
    + destruct (mkdir_parents_changes _ _ _ _ Hmk) as [_ Hch1].
      destruct (Hch1 (f :: name pack_dir :: guidelines_dir self))
        as [Hsame|[Hs _]]; [congruence|].
      apply suffix_length in Hs. cbn in Hs. lia.
Qed.

Lemma seed_packs_only_adds entries : forall w r w',
  well_formed (files w) ->
  for_each entries (seed_pack self) w = (r, w') ->
  well_formed (files w') /\ only_adds w w'.
Proof.
  induction entries as [|d entries IH]; intros w r w' Hwf; cbn [for_each].
  - intros [= <- <-]. split; [done|apply only_adds_refl].
  - rewrite bind_run.
    destruct (seed_pack self d w) as [[e|[]] w1] eqn:H1;
      destruct (seed_pack_only_adds _ _ _ _ Hwf H1) as [Hwf1 Hadd1].
    + by intros [= <- <-].
    + intros H2. destruct (IH _ _ _ Hwf1 H2) as [Hwf2 Hadd2].
      split; [done|]. by eapply only_adds_trans.
Qed.

End SeedingAdds.

(** X15: in a well-formed file system [ensure_builtin_installed] only adds:
    every file and directory that existed, in the store or anywhere else,
    is afterwards what it was, no request is made, and the file system is
    still well formed, however the call ends. *)
Theorem seeding_only_adds (self : GuidelinesManager) (w w' : World)
    (r : E unit) :
  well_formed (files w) ->
  ensure_builtin_installed self w = (r, w') ->
  well_formed (files w')
  /\ requests w' = requests w
  /\ forall q, is_Some (files w !! q) -> files w' !! q = files w !! q.
Proof.
  intros Hwf. rewrite ensure_builtin_run.
  destruct (files w !! builtin_dir self);
    [|by intros [= <- <-]].
  destruct (files w !! ("index.json" :: builtin_dir self));
    [|by intros [= <- <-]].
  destruct (files w !! ("packs" :: builtin_dir self)) as [[|]|] eqn:Hp;
    [..|by intros [= <- <-]]; rewrite bind_run; unfold iterdir; rewrite Hp;
    [by intros [= <- <-]|].
  intros Hrun.
  destruct (seed_packs_only_adds self _ _ _ _ Hwf Hrun) as [Hwf' [Hreq Hadd]].
  done.
Qed.

Lemma well_formed_check_sound (fs : gmap path node) :
  well_formed_check fs = true -> well_formed fs.
Proof.
  unfold well_formed_check. rewrite forallb_forall.
  intros Hall c p [x Hx].
  specialize (Hall (c :: p, x)). cbn in Hall.
  destruct (fs !! p) as [[|]|]; try done;
    (discriminate Hall; apply list_elem_of_In; by apply elem_of_map_to_list).
Qed.

Lemma seeding_only_adds_witness :
  files (ensure_builtin_installed demo_self rooted_world).2
    !! ["rules.json"; "core"; "guidelines"; "Continuum"]
  = files rooted_world !! ["rules.json"; "core"; "guidelines"; "Continuum"].
Proof.
  apply (proj2 (proj2 (seeding_only_adds demo_self rooted_world _ _
                         (well_formed_check_sound (files rooted_world)
                            ltac:(vm_compute; reflexivity))
                         (surjective_pairing _)))).
  eexists. vm_compute. reflexivity.
Defined.

Section SeedingCopies.

Variable self : GuidelinesManager.

Lemma seed_file_copies pack_dir dest fname w w' b :
  seed_file pack_dir dest fname w = (inr tt, w') ->
  files w !! (fname :: pack_dir) = Some (File b) ->
  files w' !! (fname :: dest) = Some (File b).
Proof.
  intros Hrun Hsrc. revert Hrun. unfold seed_file.
  rewrite bind_run, path_exists_run, Hsrc, bind_run. unfold read_bytes at 1.
  rewrite Hsrc. intros (-> & _)%write_bytes_ok. cbn.
  by rewrite lookup_insert_eq.
Qed.

Lemma seed_pack_changes pack_dir w r w' :
  seed_pack self pack_dir w = (r, w') ->
  forall q,
    files w' !! q = files w !! q
    \/ q `suffix_of` name pack_dir :: guidelines_dir self
    \/ exists f, q = f :: name pack_dir :: guidelines_dir self.
Proof.
  unfold seed_pack. rewrite bind_run. unfold is_dir at 1.
  destruct (match files w !! pack_dir with Some Dir => true | _ => false end);
    cbn [negb]; [|intros [= <- <-]; by left].
  rewrite bind_run, path_exists_run.
  destruct (files w !! (name pack_dir :: guidelines_dir self));
    [intros [= <- <-]; by left|].
  rewrite bind_run.
  destruct (mkdir_parents _ w) as [[e|[]] w1] eqn:Hmk;
    destruct (mkdir_parents_changes _ _ _ _ Hmk) as [_ Hch1].
  - intros [= <- <-] q. destruct (Hch1 q) as [?|[? _]]; auto.
  - intros Hrun q.
    assert (forall fnames w0 r0 w0',
              for_each fnames
                (seed_file pack_dir (name pack_dir :: guidelines_dir self)) w0
              = (r0, w0') ->
              (forall f, q <> f :: name pack_dir :: guidelines_dir self) ->
              files w0' !! q = files w0 !! q) as Hloop.
    { induction fnames as [|f fnames IH]; intros w0 r0 w0'; cbn [for_each].
      - by intros [= <- <-].
      - rewrite bind_run.
        destruct (seed_file _ _ f w0) as [[e|[]] wm] eqn:Hf;
          destruct (seed_file_changes _ _ _ _ _ _ Hf) as [_ Hchf].
        + intros [= <- <-] Hq. by apply Hchf.
        + intros Hrest Hq. rewrite (IH _ _ _ Hrest Hq). by apply Hchf. }
    assert ((exists f, q = f :: name pack_dir :: guidelines_dir self)
            \/ forall f, q <> f :: name pack_dir :: guidelines_dir self)
      as [Hex|Hnex].
    { destruct q as [|f q']; [by right|].
      destruct (decide (q' = name pack_dir :: guidelines_dir self)) as [->|Hq'];
        [left; by exists f|right; congruence]. }
    { auto. }
    rewrite (Hloop _ _ _ _ Hrun) by done.
    destruct (Hch1 q) as [?|[? _]]; auto.
Qed.

Lemma seed_pack_copies n pd w w1 :
  well_formed (files w) ->
  files w !! (n :: pd) = Some Dir ->
  files w !! (n :: guidelines_dir self) = None ->
  seed_pack self (n :: pd) w = (inr tt, w1) ->
  files w1 !! (n :: guidelines_dir self) = Some Dir
  /\ forall fname b,
       fname = "manifest.json" \/ fname = "rules.json" ->
       files w !! (fname :: n :: pd) = Some (File b) ->
       files w1 !! (fname :: n :: guidelines_dir self) = Some (File b).
Proof.
  intros Hwf Hdir Hdest. unfold seed_pack. rewrite bind_run. unfold is_dir at 1.
  rewrite Hdir. cbn [negb name]. rewrite bind_run, path_exists_run, Hdest.
  rewrite bind_run.
  destruct (mkdir_parents _ w) as [[e|[]] wa] eqn:Hmk; [done|].
  pose proof (mkdir_parents_dir _ _ _ Hmk) as Hda.
  destruct (mkdir_parents_only_adds _ _ _ _ Hmk) as [_ Hadd].
  cbn [for_each]. rewrite bind_run.
  destruct (seed_file _ _ "manifest.json" wa) as [[e|[]] wb] eqn:Hf1; [done|].
  rewrite bind_run.
  destruct (seed_file _ _ "rules.json" wb) as [[e|[]] wc] eqn:Hf2; [done|].
  intros [= <-].
  destruct (seed_file_changes _ _ _ _ _ _ Hf1) as [_ Hch1].
  destruct (seed_file_changes _ _ _ _ _ _ Hf2) as [_ Hch2].
  split.
  - rewrite Hch2, Hch1; [done|..];
      intros H%(f_equal length); cbn in H; lia.
  - intros fname b [->| ->] Hsrc.
    + rewrite Hch2 by done. apply (seed_file_copies _ _ _ _ _ _ Hf1).
      rewrite Hadd; [done|by eexists].
    + apply (seed_file_copies _ _ _ _ _ _ Hf2).
      rewrite Hch1 by done. rewrite Hadd; [done|by eexists].
Qed.

Lemma seed_packs_copies n pd entries : forall w w',
  well_formed (files w) ->
  (forall d, d ∈ entries -> exists m, d = m :: pd) ->
  (n :: pd) ∈ entries ->
  files w !! (n :: pd) = Some Dir ->
  files w !! (n :: guidelines_dir self) = None ->
  for_each entries (seed_pack self) w = (inr tt, w') ->
  files w' !! (n :: guidelines_dir self) = Some Dir
  /\ forall fname b,
       fname = "manifest.json" \/ fname = "rules.json" ->
       files w !! (fname :: n :: pd) = Some (File b) ->
       files w' !! (fname :: n :: guidelines_dir self) = Some (File b).
Proof.
  induction entries as [|d entries IH]; intros w w' Hwf Hform Hin Hdir Hdest;
    [by apply elem_of_nil in Hin|].
  cbn [for_each]. rewrite bind_run.
  destruct (seed_pack self d w) as [[e|[]] w1] eqn:H1; [done|].
  intros Hrest.
  destruct (seed_pack_only_adds self _ _ _ _ Hwf H1) as [Hwf1 [_ Hadd1]].
  destruct (decide (d = n :: pd)) as [->|Hne].
  - destruct (seed_pack_copies _ _ _ _ Hwf Hdir Hdest H1) as [Hd1 Hcopy].
    assert (is_Some (files w1 !! (n :: guidelines_dir self))) as Hsome
      by by eexists.
    destruct (seed_packs_frame self n _ _ _ _ Hsome Hrest) as [_ Hframe].
    split.
    + pose proof (Hframe []) as H0. cbn in H0. by rewrite H0.
    + intros fname b Hf Hsrc.
      change (fname :: n :: guidelines_dir self)
        with ([fname] ++ n :: guidelines_dir self).
      rewrite (Hframe [fname]). by apply Hcopy.
  - destruct (Hform d) as [m ->]; [by left|].
    assert (m <> n) as Hmn by congruence.
    assert (files w1 !! (n :: guidelines_dir self) = None) as Hdest1.
    { destruct (seed_pack_changes _ _ _ _ H1 (n :: guidelines_dir self))
        as [->|[Hs|[f Hf]]]; [done|..].
      - apply (under_not_above []) in Hs as [_ Hnm]. cbn in Hnm. congruence.
      - apply (f_equal length) in Hf. cbn in Hf. lia. }
    destruct (IH w1 w') as [Hd Hcopy]; try done.
    + intros d' Hd'. apply Hform. by right.
    + apply elem_of_cons in Hin as [[=]|?]; [congruence|done].
    + rewrite Hadd1; [done|by eexists].
    + split; [done|]. intros fname b Hf Hsrc. apply Hcopy; [done|].
      rewrite Hadd1; [done|by eexists].
Qed.

End SeedingCopies.

(** X16: in a well-formed file system with a builtin source that has its
    "index.json", a successful [ensure_builtin_installed] gives every
    builtin pack directory whose name is absent from the store a directory
    of that name in the store, holding a copy of each "manifest.json" and
    "rules.json" file the builtin pack has, byte for byte and unchecked. *)
Theorem seeding_copies (self : GuidelinesManager) (w w' : World) (n : string) :
  well_formed (files w) ->
  is_Some (files w !! ("index.json" :: builtin_dir self)) ->
  files w !! (n :: "packs" :: builtin_dir self) = Some Dir ->
  files w !! (n :: guidelines_dir self) = None ->
  ensure_builtin_installed self w = (inr tt, w') ->
  files w' !! (n :: guidelines_dir self) = Some Dir
  /\ forall fname b,
       fname = "manifest.json" \/ fname = "rules.json" ->
       files w !! (fname :: n :: "packs" :: builtin_dir self) = Some (File b) ->
       files w' !! (fname :: n :: guidelines_dir self) = Some (File b).
Proof.
  intros Hwf [x Hindex] Hdir Hdest. rewrite ensure_builtin_run.
  assert (files w !! ("packs" :: builtin_dir self) = Some Dir) as Hpacks.
  { apply (Hwf n). by rewrite Hdir. }
  assert (files w !! builtin_dir self = Some Dir) as Hb.
  { apply (Hwf "packs"). by rewrite Hpacks. }
  rewrite Hb, Hindex, Hpacks, bind_run. unfold iterdir. rewrite Hpacks.
  apply seed_packs_copies; try done.
  - intros d Hd. by apply elem_of_children in Hd as [? _].
  - apply elem_of_children. split; [by exists n|]. by rewrite Hdir.
Qed.

Lemma seeding_copies_witness :
  files (ensure_builtin_installed demo_self rooted_world).2
    !! ["extra"; "guidelines"; "Continuum"] = Some Dir
  /\ forall fname b,
       fname = "manifest.json" \/ fname = "rules.json" ->
       files rooted_world
         !! (fname :: "extra" :: "packs" :: builtin_dir demo_self)
       = Some (File b) ->
       files (ensure_builtin_installed demo_self rooted_world).2
         !! (fname :: "extra" :: guidelines_dir demo_self) = Some (File b).
Proof.
  apply (seeding_copies demo_self rooted_world _ "extra"
           (well_formed_check_sound (files rooted_world)
              ltac:(vm_compute; reflexivity))).
  - eexists. vm_compute. reflexivity.
  - vm_compute. reflexivity.
  - vm_compute. reflexivity.
  - apply run_returns. vm_compute. reflexivity.
Defined.

Lemma suffix_cons_cases {A} (q p : list A) (c : A) :
  q `suffix_of` c :: p -> q = c :: p \/ q `suffix_of` p.
Proof.
  intros [[|c' k] E]; [by left|]. right. injection E as _ ->.
  by apply suffix_app_r.
Qed.

Lemma well_formed_suffix (fs : gmap path node) (p : path) :
  well_formed fs -> is_Some (fs !! p) ->
  forall q, q `suffix_of` p -> is_Some (fs !! q).
Proof.
  intros Hwf. induction p as [|c p IH]; intros Hp q Hq.
  - apply suffix_nil_inv in Hq as ->. done.
  - apply suffix_cons_cases in Hq as [->|Hq]; [done|].
    apply IH; [|done]. rewrite (Hwf c p Hp). by eexists.
Qed.

Section SeedingTwice.

Variable self : GuidelinesManager.

Lemma seed_pack_skip d w :
  files w !! d <> Some Dir
  \/ is_Some (files w !! (name d :: guidelines_dir self)) ->
  seed_pack self d w = (inr tt, w).
Proof.
  intros Hskip. unfold seed_pack. rewrite bind_run. unfold is_dir at 1.
  destruct (files w !! d) as [[|]|] eqn:Hd; cbn [negb]; try done.
  destruct Hskip as [?|[x Hx]]; [done|].
  by rewrite bind_run, path_exists_run, Hx.
Qed.

Lemma seed_packs_skip entries w :
  (forall d, d ∈ entries -> seed_pack self d w = (inr tt, w)) ->
  for_each entries (seed_pack self) w = (inr tt, w).
Proof.
  induction entries as [|d entries IH]; intros Hall; [done|].
  cbn [for_each]. rewrite bind_run, Hall by by left.
  apply IH. intros d' Hd'. apply Hall. by right.
Qed.

Lemma seed_pack_changes_absent d w r w' :
  seed_pack self d w = (r, w') ->
  forall q,
    files w' !! q = files w !! q
    \/ (files w !! (name d :: guidelines_dir self) = None
        /\ (q `suffix_of` name d :: guidelines_dir self
            \/ exists f, q = f :: name d :: guidelines_dir self)).
Proof.
  intros Hrun q.
  destruct (files w !! (name d :: guidelines_dir self)) as [x|] eqn:Hdest.
  - rewrite seed_pack_skip in Hrun by (right; by eexists).
    injection Hrun as _ <-. by left.
  - destruct (seed_pack_changes self _ _ _ _ Hrun q) as [?|?]; auto.
Qed.

Lemma seed_packs_changes entries : forall w r w',
  well_formed (files w) ->
  for_each entries (seed_pack self) w = (r, w') ->
  forall q,
    files w' !! q = files w !! q
    \/ exists d,
         d ∈ entries
         /\ files w !! (name d :: guidelines_dir self) = None
         /\ (q `suffix_of` name d :: guidelines_dir self
             \/ exists f, q = f :: name d :: guidelines_dir self).
Proof.
  induction entries as [|d entries IH]; intros w r w' Hwf; cbn [for_each].
  - intros [= <- <-] q. by left.
  - rewrite bind_run.
    destruct (seed_pack self d w) as [[e|[]] w1] eqn:H1;
      destruct (seed_pack_only_adds self _ _ _ _ Hwf H1) as [Hwf1 [_ Hadd1]].
    + intros [= <- <-] q.
      destruct (seed_pack_changes_absent _ _ _ _ H1 q) as [?|[? ?]];
        [by left|right]. exists d. split; [by left|done].
    + intros Hrest q.
      destruct (IH _ _ _ Hwf1 Hrest q) as [Hsame|(d' & Hd' & Hnone & Hq)].
      * rewrite Hsame.
        destruct (seed_pack_changes_absent _ _ _ _ H1 q) as [?|[? ?]];
          [by left|right]. exists d. split; [by left|done].
      * right. exists d'. split; [by right|]. split; [|done].
        destruct (files w !! (name d' :: guidelines_dir self)) as [x|] eqn:Hx;
          [|done].
        rewrite Hadd1 in Hnone by by eexists. congruence.
Qed.

End SeedingTwice.

(** X17: seeding is idempotent: in a well-formed file system whose store
    root is a directory, after [ensure_builtin_installed] has returned a
    second call returns as well and changes nothing. *)
Theorem seeding_idempotent (self : GuidelinesManager) (w w1 : World) :
  well_formed (files w) ->
  files w !! guidelines_dir self = Some Dir ->
  ensure_builtin_installed self w = (inr tt, w1) ->
  ensure_builtin_installed self w1 = (inr tt, w1).
Proof.
  intros Hwf Hroot. rewrite !ensure_builtin_run.
  destruct (files w !! builtin_dir self) as [x|] eqn:Hb;
    [|intros [= <-]; by rewrite Hb].
  destruct (files w !! ("index.json" :: builtin_dir self)) as [y|] eqn:Hi;
    [|intros [= <-]; by rewrite Hb, Hi].
  destruct (files w !! ("packs" :: builtin_dir self)) as [z|] eqn:Hp;
    [|intros [= <-]; by rewrite Hb, Hi, Hp].
  rewrite bind_run. unfold iterdir at 1. rewrite Hp.
  destruct z as [content|]; [done|]. intros Hrun.
  destruct (seed_packs_only_adds self _ _ _ _ Hwf Hrun) as [Hwf1 [_ Hadd]].
  rewrite (Hadd (builtin_dir self)), Hb by by eexists.
  rewrite (Hadd ("index.json" :: builtin_dir self)), Hi by by eexists.
  rewrite (Hadd ("packs" :: builtin_dir self)), Hp by by eexists.
  rewrite bind_run. unfold iterdir.
  rewrite (Hadd ("packs" :: builtin_dir self)), Hp by by eexists.
  apply seed_packs_skip. intros d Hd.
  apply elem_of_children in Hd as [[m ->] Hsome1].
  apply seed_pack_skip. cbn [name].
  destruct (files w1 !! (m :: "packs" :: builtin_dir self)) as [[c1|]|] eqn:Hd1;
    [by left| |by left].
  right.
  destruct (files w !! (m :: "packs" :: builtin_dir self)) as [[c0|]|] eqn:Hd0.
  - rewrite Hadd in Hd1 by by eexists. congruence.
  - destruct (files w !! (m :: guidelines_dir self)) as [v|] eqn:Hdest.
    + rewrite Hadd by by eexists. by eexists.
    + destruct (seed_packs_copies self m ("packs" :: builtin_dir self)
                  (children (files w) ("packs" :: builtin_dir self))
                  w w1 Hwf) as [-> _]; try done.
      * intros d Hd. by apply elem_of_children in Hd as [? _].
      * apply elem_of_children. split; [by exists m|]. by rewrite Hd0.
  - exfalso.
    destruct (seed_packs_changes self _ _ _ _ Hwf Hrun
                (m :: "packs" :: builtin_dir self))
      as [Hsame|(d' & Hd' & Hnone & [Hs|[f Hf]])]; [congruence|..];
      apply elem_of_children in Hd' as [[m' ->] Hsome'];
      cbn [name] in *.
    + apply suffix_cons_cases in Hs as [[= -> Heq]|Hs].
      * rewrite Heq in Hd0. destruct Hsome' as [? ?]. congruence.
      * assert (is_Some (files w !! (m :: "packs" :: builtin_dir self)))
          as [? ?]; [|congruence].
        eapply well_formed_suffix; [done| |exact Hs]. by rewrite Hroot.
    + injection Hf as _ Heq. rewrite Heq in Hp. congruence.
Qed.

Lemma seeding_idempotent_witness :
  ensure_builtin_installed demo_self
    (ensure_builtin_installed demo_self rooted_world).2
  = (inr tt, (ensure_builtin_installed demo_self rooted_world).2).
Proof.
  apply (seeding_idempotent demo_self rooted_world _
           (well_formed_check_sound (files rooted_world)
              ltac:(vm_compute; reflexivity))).
  - vm_compute. reflexivity.
  - apply run_returns. vm_compute. reflexivity.
Defined.

(** ** The index builder *)

Section Builder.

Variable env : Env.

Lemma index_entry_skip pack_dir w :
  files w !! ("manifest.json" :: pack_dir) = None
  \/ files w !! ("rules.json" :: pack_dir) = None ->
  index_entry env pack_dir w = (inr None, w).
Proof.
  intros Hmissing. unfold index_entry. rewrite bind_run, path_exists_run.
  destruct (files w !! ("manifest.json" :: pack_dir)) as [x|]; [|done].
  rewrite bind_run, path_exists_run.
  destruct Hmissing as [? | ->]; done.
Qed.

Lemma index_entry_loaded pack_dir w mb :
  files w !! ("manifest.json" :: pack_dir) = Some (File mb) ->
  is_Some (files w !! ("rules.json" :: pack_dir)) ->
  index_entry env pack_dir w
  = (m ← lift (json_loads env mb);
     pid ← lift (json_get m "id" (JStr (name pack_dir)));
     title ← lift (json_get m "title" pid);
     version ← lift (json_get m "version" (JStr "0.0.0"));
     digest_manifest ← sha256_file env ("manifest.json" :: pack_dir);
     digest_rules ← sha256_file env ("rules.json" :: pack_dir);
     mret (Some (JDict [
       ("id", pid);
       ("title", title);
       ("version", version);
       ("manifest_url",
         JStr (BASE +:+ "/packs/" +:+ name pack_dir +:+ "/manifest.json"));
       ("rules_url",
         JStr (BASE +:+ "/packs/" +:+ name pack_dir +:+ "/rules.json"));
       ("sha256_manifest", JStr digest_manifest);
       ("sha256_rules", JStr digest_rules)]))) w.
Proof.
  intros Hm [x Hr]. unfold index_entry.
  rewrite bind_run, path_exists_run, Hm, bind_run, path_exists_run, Hr.
  cbn [negb]. rewrite bind_run. unfold read_bytes at 1. by rewrite Hm.
Qed.

Lemma sha256_file_run p w :
  sha256_file env p w
  = (match files w !! p with
     | Some (File b) => inr (sha256_hexdigest env b)
     | Some Dir => inl IsADirectoryError
     | None => inl FileNotFoundError
     end, w).
Proof.
  unfold sha256_file. rewrite bind_run. unfold read_bytes.
  by destruct (files w !! p) as [[|]|].
Qed.

Lemma index_entry_built dir parent w mb rb fields :
  files w !! ("manifest.json" :: dir :: parent) = Some (File mb) ->
  files w !! ("rules.json" :: dir :: parent) = Some (File rb) ->
  loads_utf8 env mb = Some (JDict fields) ->
  index_entry env (dir :: parent) w
  = (inr (Some (built_entry env dir fields mb rb)), w).
Proof.
  intros Hm Hr Hj. rewrite (index_entry_loaded _ _ mb) by (done || by eexists).
  unfold lift, json_loads. rewrite Hj. unfold json_get.
  repeat (first [rewrite bind_run | rewrite sha256_file_run
                | rewrite Hm | rewrite Hr]; cbv beta iota).
  reflexivity.
Qed.

End Builder.

(** X18: the index builder skips a pack directory that lacks either file
    and goes on, but it does not tolerate a bad manifest: one that does not
    parse raises the decode error and one that is not an object raises
    [AttributeError], which ends the build (the manager's [list_installed]
    skips such a directory instead); a "rules.json" that is a directory
    raises when it is hashed. *)
Theorem index_entry_skip_or_raise (env : Env) (pack_dir : path) (w : World) :
  (files w !! ("manifest.json" :: pack_dir) = None
   \/ files w !! ("rules.json" :: pack_dir) = None ->
   index_entry env pack_dir w = (inr None, w))
  /\ (forall manifest_bytes,
        files w !! ("manifest.json" :: pack_dir) = Some (File manifest_bytes) ->
        is_Some (files w !! ("rules.json" :: pack_dir)) ->
        (loads_utf8 env manifest_bytes = None ->
         index_entry env pack_dir w = (inl DecodeError, w))
        /\ (forall j,
              loads_utf8 env manifest_bytes = Some j ->
              match j with JDict _ => False | _ => True end ->
              index_entry env pack_dir w = (inl AttributeError, w))
        /\ (forall fields,
              loads_utf8 env manifest_bytes = Some (JDict fields) ->
              files w !! ("rules.json" :: pack_dir) = Some Dir ->
              index_entry env pack_dir w = (inl IsADirectoryError, w))).
Proof.
  split; [apply index_entry_skip|]. intros mb Hm Hr.
  rewrite (index_entry_loaded env _ _ mb Hm Hr). unfold lift, json_loads.
  repeat split.
  - by intros ->.
  - intros j -> Hj. by destruct j.
  - intros fields -> Hdir. unfold json_get.
    repeat (first [rewrite bind_run | rewrite sha256_file_run
                  | rewrite Hm | rewrite Hdir]; cbv beta iota).
    reflexivity.
Qed.

Lemma index_entry_skip_or_raise_witness :
  index_entry demo_env ["broken"; "guidelines"; "Continuum"] demo_world
  = (inr None, demo_world).
Proof.
  apply (proj1 (index_entry_skip_or_raise demo_env
                  ["broken"; "guidelines"; "Continuum"] demo_world)).
  right. vm_compute. reflexivity.
Defined.

Lemma pack_info_built (env : Env) (dir : string)
    (fields : list (string * json)) (mb rb : bytes) :
  pack_info env (built_entry env dir fields mb rb)
  = inr (mkPackInfo
           (str env (default (JStr dir) (dict_get fields "id")))
           (str env (default (default (JStr dir) (dict_get fields "id"))
                       (dict_get fields "title")))
           (str env (default (JStr "0.0.0") (dict_get fields "version")))
           (BASE +:+ "/packs/" +:+ dir +:+ "/manifest.json")
           (BASE +:+ "/packs/" +:+ dir +:+ "/rules.json")
           (Py.lower (sha256_hexdigest env mb))
           (Py.lower (sha256_hexdigest env rb))).
Proof. reflexivity. Qed.

Lemma accepted_base rest : accepted (BASE +:+ rest) = true.
Proof. reflexivity. Qed.

(** X19: the entry the index builder makes for a pack directory is read
    back by the catalog parser of the manager: its id is the manifest's id,
    or the directory name when the manifest has none, its title defaults to
    that id and its version to "0.0.0", both URLs are built from the
    directory name (not from the id) and pass the HTTPS test, and the
    digests are those of the two files in lower case. *)
Theorem built_entry_read_back (env : Env) (dir : string) (parent : path)
    (w : World) (manifest_bytes rules_bytes : bytes)
    (fields : list (string * json)) :
  files w !! ("manifest.json" :: dir :: parent) = Some (File manifest_bytes) ->
  files w !! ("rules.json" :: dir :: parent) = Some (File rules_bytes) ->
  loads_utf8 env manifest_bytes = Some (JDict fields) ->
  exists entry info,
    index_entry env (dir :: parent) w = (inr (Some entry), w)
    /\ pack_info env entry = inr info
    /\ id info = str env (default (JStr dir) (dict_get fields "id"))
    /\ title info
       = match dict_get fields "title" with
         | Some t => str env t
         | None => id info
         end
    /\ version info
       = match dict_get fields "version" with
         | Some v => str env v
         | None => "0.0.0"
         end
    /\ manifest_url info = BASE +:+ "/packs/" +:+ dir +:+ "/manifest.json"
    /\ rules_url info = BASE +:+ "/packs/" +:+ dir +:+ "/rules.json"
    /\ accepted (manifest_url info) = true
    /\ accepted (rules_url info) = true
    /\ sha256_manifest info = Py.lower (_sha256_bytes env manifest_bytes)
    /\ sha256_rules info = Py.lower (_sha256_bytes env rules_bytes).
Proof.
  intros Hm Hr Hj. eexists _, _.
  split; [by apply index_entry_built|]. split; [apply pack_info_built|].
  cbn [id title version manifest_url rules_url sha256_manifest sha256_rules].
  repeat split; try apply accepted_base.
  - by destruct (dict_get fields "title").
  - by destruct (dict_get fields "version").
Qed.

Lemma built_entry_read_back_witness :
  exists entry info,
    index_entry demo_env ["core"; "packs"; "guidelines_builtin"; "app"] demo_world
    = (inr (Some entry), demo_world)
    /\ pack_info demo_env entry = inr info
    /\ id info = "core"
    /\ title info = "core"
    /\ version info = "0.0.0".
Proof.
  destruct (built_entry_read_back demo_env "core"
              ["packs"; "guidelines_builtin"; "app"] demo_world
              doc_object doc_array [])
    as (entry & info & H1 & H2 & H3 & H4 & H5 & _).
  - vm_compute. reflexivity.
  - vm_compute. reflexivity.
  - reflexivity.
  - exists entry, info.
    split; [exact H1|]. split; [exact H2|]. split; [exact H3|].
    split; [|exact H5]. rewrite H4. exact H3.
Defined.

(** X20: from the builder to the store: when the id of a built entry (the
    manifest's id, else the directory name) is one name, the network
    serves, at the URLs of the entry, the bytes the builder hashed, and the
    digest function writes lower case, [install_pack] of the descriptor
    read back from the entry passes both digest checks and, in a store
    whose root is a directory and where the pack directory is absent or a
    directory whose two file names are not directories, installs exactly
    those bytes. *)
Theorem build_then_install (env : Env) (self : GuidelinesManager)
    (dir : string) (parent : path) (built w : World)
    (manifest_bytes rules_bytes : bytes) (fields : list (string * json)) :
  let pid := str env (default (JStr dir) (dict_get fields "id")) in
  plain_name pid = true ->
  files built !! ("manifest.json" :: dir :: parent) = Some (File manifest_bytes) ->
  files built !! ("rules.json" :: dir :: parent) = Some (File rules_bytes) ->
  loads_utf8 env manifest_bytes = Some (JDict fields) ->
  urlopen env (BASE +:+ "/packs/" +:+ dir +:+ "/manifest.json")
  = Some manifest_bytes ->
  urlopen env (BASE +:+ "/packs/" +:+ dir +:+ "/rules.json")
  = Some rules_bytes ->
  Py.lower (_sha256_bytes env manifest_bytes) = _sha256_bytes env manifest_bytes ->
  Py.lower (_sha256_bytes env rules_bytes) = _sha256_bytes env rules_bytes ->
  files w !! guidelines_dir self = Some Dir ->
  (files w !! (pid :: guidelines_dir self) = None
   \/ files w !! (pid :: guidelines_dir self) = Some Dir) ->
  files w !! ("manifest.json" :: pid :: guidelines_dir self) <> Some Dir ->
  files w !! ("rules.json" :: pid :: guidelines_dir self) <> Some Dir ->
  exists entry info w',
    index_entry env (dir :: parent) built = (inr (Some entry), built)
    /\ pack_info env entry = inr info
    /\ id info = pid
    /\ install_pack env self info w = (inr tt, w')
    /\ files w' !! ("manifest.json" :: pid :: guidelines_dir self)
       = Some (File manifest_bytes)
    /\ files w' !! ("rules.json" :: pid :: guidelines_dir self)
       = Some (File rules_bytes).
Proof.
  intros pid Hplain Hm Hr Hj Hum Hur Hlm Hlr Hroot Hdest Hmf Hrf.
  set (info := mkPackInfo pid
                 (str env (default (default (JStr dir) (dict_get fields "id"))
                             (dict_get fields "title")))
                 (str env (default (JStr "0.0.0") (dict_get fields "version")))
                 (BASE +:+ "/packs/" +:+ dir +:+ "/manifest.json")
                 (BASE +:+ "/packs/" +:+ dir +:+ "/rules.json")
                 (Py.lower (sha256_hexdigest env manifest_bytes))
                 (Py.lower (sha256_hexdigest env rules_bytes))).
  destruct (install_pack_fresh env self info w manifest_bytes rules_bytes)
    as (w' & Hrun & Hfm & Hfr);
    [exact Hplain|apply accepted_base|apply accepted_base|exact Hum|exact Hur
    |symmetry; exact Hlm|symmetry; exact Hlr|exact Hroot|exact Hdest
    |exact Hmf|exact Hrf|].
  exists (built_entry env dir fields manifest_bytes rules_bytes), info, w'.
  split; [by apply index_entry_built|]. split; [apply pack_info_built|].
  split; [reflexivity|]. split; [exact Hrun|]. split; [exact Hfm|exact Hfr].
Qed.

Lemma build_then_install_witness :
  exists entry info w',
    index_entry mirror_env ["core"; "packs"; "guidelines_builtin"; "app"]
      demo_world
    = (inr (Some entry), demo_world)
    /\ pack_info mirror_env entry = inr info
    /\ id info = "core"
    /\ install_pack mirror_env demo_self info demo_world = (inr tt, w')
    /\ files w' !! ("manifest.json" :: "core" :: guidelines_dir demo_self)
       = Some (File doc_object)
    /\ files w' !! ("rules.json" :: "core" :: guidelines_dir demo_self)
       = Some (File doc_array).
Proof.
  apply (build_then_install mirror_env demo_self "core"
           ["packs"; "guidelines_builtin"; "app"] demo_world demo_world
           doc_object doc_array []).
  - reflexivity.
  - vm_compute. reflexivity.
  - vm_compute. reflexivity.
  - reflexivity.
  - reflexivity.
  - reflexivity.
  - vm_compute. reflexivity.
  - vm_compute. reflexivity.
  - vm_compute. reflexivity.
  - right. vm_compute. reflexivity.
  - vm_compute. discriminate.
  - vm_compute. discriminate.
Defined.

(** ** A new store *)

Lemma children_empty (fs : gmap path node) (d : path) :
  (forall n, fs !! (n :: d) = None) -> children fs d = [].
Proof.
  intros Hnone. destruct (children fs d) as [|p l] eqn:Hc; [done|].
  assert (p ∈ children fs d) as Hp by (rewrite Hc; by left).
  apply elem_of_children in Hp as [[n ->] [x Hx]]. by rewrite Hnone in Hx.
Qed.

Lemma plan_updates_empty (env : Env) (remote : list PackInfo) :
  plan_updates env remote ∅ = map (fun p => mkPackUpdate p None) remote.
Proof.
  unfold plan_updates. rewrite fold_check_update. cbn [app].
  induction remote as [|p remote IH]; [done|]. cbn.
  unfold spec_update at 1. rewrite lookup_empty. by rewrite IH.
Qed.

(** X21: a store that [__init__] has just created, in a well-formed file
    system where it was absent, lists no pack, and [check_updates] then
    offers every descriptor of the fetched catalog, in catalog order, as a
    new installation. *)
Theorem new_store_offers_all (env : Env) (self : GuidelinesManager)
    (url : string) (w w1 w2 : World) (remote : list PackInfo) :
  well_formed (files w) ->
  files w !! guidelines_dir self = None ->
  __init__ self w = (inr tt, w1) ->
  fetch_index env url w1 = (inr remote, w2) ->
  list_installed env self w1 = (inr ∅, w1)
  /\ check_updates env self url w1
     = (inr (map (fun p => mkPackUpdate p None) remote), w2).
Proof.
  intros Hwf Hroot Hinit Hfetch. unfold __init__ in Hinit.
  pose proof (mkdir_parents_dir _ _ _ Hinit) as Hroot1.
  destruct (mkdir_parents_changes _ _ _ _ Hinit) as [_ Hch].
  assert (forall w0, files w0 = files w1 ->
            list_installed env self w0 = (inr ∅, w0)) as Hlist.
  { intros w0 H0. unfold list_installed. rewrite bind_run. unfold iterdir.
    rewrite H0, Hroot1, children_empty; [done|]. intros n.
    destruct (Hch (n :: guidelines_dir self)) as [->|[Hs _]].
    - destruct (files w !! (n :: guidelines_dir self)) as [x|] eqn:Hx; [|done].
      assert (files w !! guidelines_dir self = Some Dir) as Hd
        by (apply (Hwf n); by rewrite Hx).
      congruence.
    - apply suffix_length in Hs. cbn in Hs. lia. }
  split; [by apply Hlist|].
  unfold check_updates. rewrite bind_run, Hfetch, bind_run.
  destruct (fetch_index_world env url w1 _ _ Hfetch) as [Hfiles _].
  by rewrite (Hlist w2 Hfiles), plan_updates_empty.
Qed.

Lemma new_store_offers_all_witness :
  list_installed demo_env (mkManager ["fresh"; "Continuum"] ["nowhere"])
    (set_node ["fresh"; "Continuum"] Dir rooted_world)
  = (inr ∅, set_node ["fresh"; "Continuum"] Dir rooted_world).
Proof.
  apply (proj1 (new_store_offers_all demo_env
                  (mkManager ["fresh"; "Continuum"] ["nowhere"])
                  "https://example/A/manifest.json" rooted_world
                  (set_node ["fresh"; "Continuum"] Dir rooted_world)
                  (requested "https://example/A/manifest.json"
                     (set_node ["fresh"; "Continuum"] Dir rooted_world))
                  []
                  (well_formed_check_sound (files rooted_world)
                     ltac:(vm_compute; reflexivity))
                  ltac:(vm_compute; reflexivity)
                  ltac:(apply mkdir_parents_child; vm_compute; reflexivity)
                  eq_refl)).
Defined.
